(** * React_Football-Data_API: the data-fetching layer and the timeline merge

    A shallow embedding of the HTTP client ([src/api/axios.config.ts]), the
    matches service ([api/services/matches.service.ts]), the query hooks
    ([hooks/useMatches.ts], [hooks/useCompetitions.ts],
    [hooks/useCompetitionDetail.ts]), the competition page
    ([pages/CompetitionDetail.tsx]) and the timeline merge
    ([components/matches/MatchTimeline.tsx]).

    JavaScript numbers that hold minutes, HTTP statuses, milliseconds and
    identifiers are integers in this program and are modelled as [Z]. *)

From Stdlib Require Import ZArith List String Ascii Bool Lia DecimalString.
From Stdlib Require Import DecimalPos DecimalZ.
From Stdlib Require Import Permutation Sorted.
Import ListNotations.

#[local] Set Warnings "-register-all".
Local Open Scope Z_scope.

(** ** JavaScript helpers *)

Module Js.

(** [x || d] on [number | null]: [null], [undefined] and [0] are falsy. *)
Definition num_or (x : option Z) (d : Z) : Z :=
  match x with
  | Some v => if v =? 0 then d else v
  | None => d
  end.

(** [!!x] on [number | null]. *)
Definition truthy_num (x : option Z) : bool :=
  match x with
  | Some v => negb (v =? 0)
  | None => false
  end.

(** [!!s] on [string | null | undefined]: the empty string is falsy. *)
Definition truthy_str (s : option string) : bool :=
  match s with
  | Some EmptyString => false
  | Some _ => true
  | None => false
  end.

(** [s || null] on [string | undefined]. *)
Definition str_or_null (s : option string) : option string :=
  if truthy_str s then s else None.

(** [Array.prototype.sort(cmp)].  ECMAScript (2019 and later) requires the
    sort to be stable; for a consistent comparator the result is then the
    one stably sorted arrangement of the array, whatever the engine's
    algorithm.  It is computed here by stable insertion: an element moves
    past exactly those elements it is strictly greater than. *)
Section Sort.
Context {A : Type} (cmp : A -> A -> Z).

Fixpoint insert (x : A) (l : list A) : list A :=
  match l with
  | [] => [x]
  | y :: ys => if cmp x y <=? 0 then x :: y :: ys else y :: insert x ys
  end.

Fixpoint sort (l : list A) : list A :=
  match l with
  | [] => []
  | x :: xs => insert x (sort xs)
  end.
End Sort.

(** JavaScript values as they appear in query keys, request parameters and
    response bodies.  An object is the list of its own properties. *)
Inductive value :=
| VUndefined
| VNull
| VBool (b : bool)
| VNum (n : Z)
| VStr (s : string)
| VArr (items : list value)
| VObj (props : list (string * value)).

(** [!!v]. *)
Definition truthy (v : value) : bool :=
  match v with
  | VUndefined | VNull => false
  | VBool b => b
  | VNum n => negb (n =? 0)
  | VStr s => negb (String.eqb s "")
  | VArr _ | VObj _ => true
  end.

(** [String(n)], [n.toString()] and [`${n}`] on an integer. *)
Definition string_of_num (n : Z) : string :=
  NilZero.string_of_int (Z.to_int n).

(** [`${x}`] on a [number] that a caller's non-null assertion ([x!]) may
    have left [null]. *)
Definition template_num (x : option Z) : string :=
  match x with
  | Some n => string_of_num n
  | None => "null"%string
  end.

(** [String(b)] on a boolean. *)
Definition string_of_bool (b : bool) : string :=
  if b then "true"%string else "false"%string.

Definition str1 (c : ascii) : string := String c EmptyString.

Definition dquote : ascii := ascii_of_N 34.
Definition backslash : ascii := ascii_of_N 92.

Definition hex_digit (upper : bool) (n : N) : ascii :=
  if (n <? 10)%N then ascii_of_N (48 + n)
  else ascii_of_N ((if upper then 55 else 87) + n).

Definition hex2 (upper : bool) (c : ascii) : string :=
  let n := N_of_ascii c in
  String (hex_digit upper (n / 16)) (str1 (hex_digit upper (n mod 16))).

(** [QuoteJSONString] of ECMAScript, on a string of 8-bit characters. *)
Definition json_escape (c : ascii) : string :=
  let n := N_of_ascii c in
  if (n =? 34)%N then String backslash (str1 dquote)
  else if (n =? 92)%N then String backslash (str1 backslash)
  else if (n =? 8)%N then String backslash "b"
  else if (n =? 12)%N then String backslash "f"
  else if (n =? 10)%N then String backslash "n"
  else if (n =? 13)%N then String backslash "r"
  else if (n =? 9)%N then String backslash "t"
  else if (n <? 32)%N then String backslash ("u00" ++ hex2 false c)
  else str1 c.

Fixpoint json_escape_all (s : string) : string :=
  match s with
  | EmptyString => EmptyString
  | String c rest => (json_escape c ++ json_escape_all rest)%string
  end.

Definition json_quote (s : string) : string :=
  String dquote (json_escape_all s ++ str1 dquote).

(** The comparator of the default [Array.prototype.sort()] on strings. *)
Definition compare_strings (a b : string) : Z :=
  match String.compare a b with
  | Lt => -1
  | Eq => 0
  | Gt => 1
  end.

Definition by_key {V : Type} (a b : string * V) : Z :=
  compare_strings (fst a) (fst b).

Definition member (k : string) (v : option string) : list string :=
  match v with
  | Some s => [(json_quote k ++ ":" ++ s)%string]
  | None => []
  end.

(** [JSON.stringify(v, replacer)] with the replacer of query-core's
    [hashKey], which rebuilds every object with its keys sorted.  The result
    is [None] where JavaScript gives [undefined]; an [undefined] array item is
    written [null] and an [undefined] property is left out.  The properties
    are serialised first and ordered by key afterwards, which gives the same
    text as ordering first. *)
Fixpoint stringify_sorted (v : value) : option string :=
  match v with
  | VUndefined => None
  | VNull => Some "null"%string
  | VBool b => Some (string_of_bool b)
  | VNum n => Some (string_of_num n)
  | VStr s => Some (json_quote s)
  | VArr items =>
      let item x := match stringify_sorted x with
                    | Some s => s
                    | None => "null"%string
                    end in
      Some ("[" ++ String.concat "," (map item items) ++ "]")%string
  | VObj props =>
      let prop kv := match kv with
                     | (k, x) => (k, stringify_sorted x)
                     end in
      let members := flat_map (fun kv => member (fst kv) (snd kv))
                              (sort by_key (map prop props)) in
      Some ("{" ++ String.concat "," members ++ "}")%string
  end.

(** The text of a value as an array item: [undefined] is written [null]. *)
Definition item_text (x : value) : string :=
  match stringify_sorted x with
  | Some t => t
  | None => "null"%string
  end.

(** The [application/x-www-form-urlencoded] byte serialiser used by
    [URLSearchParams.prototype.toString]. *)
Definition form_unreserved (c : ascii) : bool :=
  let n := N_of_ascii c in
  ((48 <=? n) && (n <=? 57) || (65 <=? n) && (n <=? 90)
   || (97 <=? n) && (n <=? 122)
   || (n =? 42) || (n =? 45) || (n =? 46) || (n =? 95))%N.

Definition form_encode_char (c : ascii) : string :=
  if (N_of_ascii c =? 32)%N then "+"%string
  else if form_unreserved c then str1 c
  else String "%" (hex2 true c).

Fixpoint form_encode (s : string) : string :=
  match s with
  | EmptyString => EmptyString
  | String c rest => (form_encode_char c ++ form_encode rest)%string
  end.

(** A [URLSearchParams] object is its list of name-value pairs. *)
Definition URLSearchParams := list (string * string).

Definition params_toString (params : URLSearchParams) : string :=
  String.concat "&"
    (map (fun nv => (form_encode (fst nv) ++ "=" ++ form_encode (snd nv))%string)
         params).

(** [if (cond) params.append(name, v)]. *)
Definition append_if (cond : bool) (name v : string)
           (params : URLSearchParams) : URLSearchParams :=
  if cond then params ++ [(name, v)] else params.

(** [xs?.forEach(x => events.push(f x))] appended to [events]. *)
Definition push_each {A B : Type} (f : A -> B) (xs : option (list A))
           (events : list B) : list B :=
  match xs with
  | Some l => events ++ map f l
  | None => events
  end.

End Js.

(** ** types/football.types.ts (the parts the components read) *)

Module Types.

Inductive GoalType := REGULAR | OWN | PENALTY.
Inductive CardType := YELLOW | YELLOW_RED | RED.

Inductive MatchStatus :=
| SCHEDULED | TIMED | IN_PLAY | PAUSED | FINISHED
| SUSPENDED | POSTPONED | CANCELLED | AWARDED.

Record TeamRef := { team_id : Z; team_name : string }.
Record GoalPlayer := { player_id : Z; player_name : string }.
Record PartialScore := { home : option Z; away : option Z }.

Record Goal := {
  goal_minute : Z;
  injuryTime : option Z;
  goal_type : GoalType;
  goal_team : TeamRef;
  scorer : GoalPlayer;
  assist : option GoalPlayer;
  goal_score : PartialScore
}.

Record Booking := {
  booking_minute : Z;
  booking_team : TeamRef;
  player : GoalPlayer;
  card : CardType
}.

Record Substitution := {
  sub_minute : Z;
  sub_team : TeamRef;
  playerOut : GoalPlayer;
  playerIn : GoalPlayer
}.

(** The fields of [Match] that [MatchTimeline] reads, with the identifying
    ones; the three event lists are optional ([goals?: Goal[]]). *)
Record Match := {
  match_id : Z;
  status : MatchStatus;
  goals : option (list Goal);
  bookings : option (list Booking);
  substitutions : option (list Substitution)
}.

End Types.
Import Types.

(** ** components/matches/MatchTimeline.tsx *)

Module MatchTimeline.

Inductive EventType := goal | booking | substitution.

Inductive EventData :=
| GoalData (g : Goal)
| BookingData (b : Booking)
| SubstitutionData (s : Substitution).

Record TimelineEvent := {
  minute : Z;
  type : EventType;
  data : EventData
}.

Definition goalEvent (g : Goal) : TimelineEvent :=
  {| minute := goal_minute g + Js.num_or (injuryTime g) 0;
     type := goal;
     data := GoalData g |}.

Definition bookingEvent (b : Booking) : TimelineEvent :=
  {| minute := booking_minute b; type := booking; data := BookingData b |}.

Definition substitutionEvent (s : Substitution) : TimelineEvent :=
  {| minute := sub_minute s; type := substitution; data := SubstitutionData s |}.

(** The array [events] just before the final [sort]. *)
Definition collectEvents (m : Match) : list TimelineEvent :=
  let events := [] in
  let events := Js.push_each goalEvent (goals m) events in
  let events := Js.push_each bookingEvent (bookings m) events in
  let events := Js.push_each substitutionEvent (substitutions m) events in
  events.

Definition byMinute (a b : TimelineEvent) : Z := minute a - minute b.

Definition getTimelineEvents (m : Match) : list TimelineEvent :=
  Js.sort byMinute (collectEvents m).

(** The events of the three lists in source precedence: goals, then
    bookings, then substitutions, each in insertion order; an absent list
    contributes nothing. *)
Definition eventsOf {A : Type} (f : A -> TimelineEvent) (xs : option (list A))
  : list TimelineEvent :=
  match xs with
  | Some l => map f l
  | None => []
  end.

Definition sourceOrder (m : Match) : list TimelineEvent :=
  eventsOf goalEvent (goals m) ++ eventsOf bookingEvent (bookings m)
  ++ eventsOf substitutionEvent (substitutions m).

(** The events of a list that sit at minute [k], in list order. *)
Definition atMinute (k : Z) (l : list TimelineEvent) : list TimelineEvent :=
  filter (fun e => minute e =? k) l.

Definition ascending : list TimelineEvent -> Prop :=
  StronglySorted (fun a b => minute a <= minute b).

End MatchTimeline.

(** ** api/axios.config.ts *)

Module Axios.

(** [ApiError] of the types module: the body of a failed response. *)
Record ApiError := { error : string; api_message : option string }.

(** What of [error.response] the interceptor reads.  [data] is [None] when
    the failed response has no usable body ([data?.error]). *)
Record ErrorResponse := { status : Z; data : option ApiError }.

(** What of an [AxiosError] the interceptor reads.  [response] is [None]
    when no response reached the client; a timeout is such an error with
    [code = ECONNABORTED]. *)
Record AxiosError := {
  message : string;
  code : option string;
  config_url : option string;
  response : option ErrorResponse
}.

Inductive ErrorType :=
| NETWORK_ERROR | CLIENT_ERROR | SERVER_ERROR | UNKNOWN_ERROR.

Record CustomApiError := {
  custom_message : string;
  custom_status : option Z;
  type : ErrorType;
  originalError : AxiosError
}.

(** The [switch (status)] of the 4xx branch. *)
Definition clientErrorMessage (status : Z) : string :=
  if status =? 400 then "Petición incorrecta. Los parámetros no son válidos."
  else if status =? 403
       then "Acceso denegado. Verifica tu API Key o el plan de suscripción."
  else if status =? 404 then "Recurso no encontrado."
  else if status =? 429
       then "Límite de peticiones excedido. Intenta de nuevo más tarde."
  else "Error en la petición".

(** [data?.error || errorMessage]. *)
Definition error_or (data : option ApiError) (errorMessage : string) : string :=
  match data with
  | Some d => if String.eqb (error d) "" then errorMessage else error d
  | None => errorMessage
  end.

(** The rejection handler of [axiosInstance.interceptors.response.use]: the
    value it rejects with. *)
Definition responseErrorInterceptor (error : AxiosError) : CustomApiError :=
  match response error with
  | None =>
      {| custom_message :=
           ("No se puede conectar al servidor. " ++ message error)%string;
         custom_status := None;
         type := NETWORK_ERROR;
         originalError := error |}
  | Some r =>
      if (status r >=? 400) && (status r <? 500) then
        {| custom_message := error_or (data r) (clientErrorMessage (status r));
           custom_status := Some (status r);
           type := CLIENT_ERROR;
           originalError := error |}
      else if status r >=? 500 then
        {| custom_message := "Error en el servidor. Intenta de nuevo más tarde.";
           custom_status := Some (status r);
           type := SERVER_ERROR;
           originalError := error |}
      else
        {| custom_message := "Ha ocurrido un error inesperado";
           custom_status := None;
           type := UNKNOWN_ERROR;
           originalError := error |}
  end.

(** A call [axiosInstance.get(url, { params, headers })]; a field is [None]
    when the call does not pass it. *)
Record Request := {
  url : string;
  params : option Js.value;
  headers : option Js.value
}.

Record AxiosResponse := { resp_status : Z; resp_data : Js.value }.

(** How the adapter settles a request before the response interceptors. *)
Inductive Settled :=
| Fulfilled (r : AxiosResponse)
| Failed (e : AxiosError).

(** The upstream and the link to it: what the [n]-th request of a session
    is answered with. *)
Definition Network := nat -> Request -> Settled.

(** The effects of a session: the requests sent and the [sleep]s taken
    between attempts, oldest first. *)
Record World := { sent : list Request; slept : list Z }.

Definition start : World := {| sent := []; slept := [] |}.

(** What a promise of this program rejects with. *)
Inductive Thrown :=
| ApiFailure (e : CustomApiError)
| JsError (msg : string).

(** An [async] computation: it reads the network, changes the world and
    settles with a value or a rejection. *)
Definition Promise (A : Type) : Type :=
  Network -> World -> (Thrown + A) * World.

Definition resolve {A : Type} (a : A) : Promise A :=
  fun _ w => (inr a, w).

Definition reject {A : Type} (t : Thrown) : Promise A :=
  fun _ w => (inl t, w).

Definition await {A B : Type} (p : Promise A) (k : A -> Promise B) : Promise B :=
  fun net w =>
    match p net w with
    | (inr a, w') => k a net w'
    | (inl t, w') => (inl t, w')
    end.

(** [axiosInstance.get]: the call is recorded as the service makes it (the
    request interceptor only adds the token header and logs), the network
    answers, and a failure passes through the response interceptor. *)
Definition get (url : string) (params headers : option Js.value)
  : Promise AxiosResponse :=
  fun net w =>
    let request := {| url := url; params := params; headers := headers |} in
    let w' := {| sent := sent w ++ [request]; slept := slept w |} in
    match net (List.length (sent w)) request with
    | Fulfilled r => (inr r, w')
    | Failed e => (inl (ApiFailure (responseErrorInterceptor e)), w')
    end.

End Axios.

Notation "'let!' x ':=' p 'in' k" := (Axios.await p (fun x => k))
  (at level 10, x name, p at level 100, k at level 200).

(** ** api/services/matches.service.ts *)

Module MatchesService.

Inductive StatusFilter :=
| SCHEDULED | TIMED | IN_PLAY | PAUSED | FINISHED
| SUSPENDED | POSTPONED | CANCELLED.

Definition status_name (s : StatusFilter) : string :=
  match s with
  | SCHEDULED => "SCHEDULED" | TIMED => "TIMED" | IN_PLAY => "IN_PLAY"
  | PAUSED => "PAUSED" | FINISHED => "FINISHED" | SUSPENDED => "SUSPENDED"
  | POSTPONED => "POSTPONED" | CANCELLED => "CANCELLED"
  end.

(** A field is [None] when the property is absent or [undefined]; the two
    cannot be told apart by the request sent or by the cache key. *)
Record GetMatchesOptions := {
  competitions : option string;
  ids : option string;
  date : option string;
  dateFrom : option string;
  dateTo : option string;
  status : option StatusFilter;
  season : option Z;
  matchday : option Z;
  stage : option string;
  group : option string;
  limit : option Z
}.

Record UnfoldOptions := {
  lineups : option bool;
  bookings : option bool;
  substitutions : option bool;
  goals : option bool
}.

(** The object literal [{}]. *)
Definition noOptions : GetMatchesOptions :=
  {| competitions := None; ids := None; date := None; dateFrom := None;
     dateTo := None; status := None; season := None; matchday := None;
     stage := None; group := None; limit := None |}.

Definition noUnfold : UnfoldOptions :=
  {| lineups := None; bookings := None; substitutions := None; goals := None |}.

(** The object literal [{ status: s }]. *)
Definition onlyStatus (s : StatusFilter) : GetMatchesOptions :=
  {| competitions := None; ids := None; date := None; dateFrom := None;
     dateTo := None; status := Some s; season := None; matchday := None;
     stage := None; group := None; limit := None |}.

(** A property of an object, when it is defined. *)
Definition prop {A : Type} (name : string) (inj : A -> Js.value)
           (x : option A) : list (string * Js.value) :=
  match x with
  | Some a => [(name, inj a)]
  | None => []
  end.

(** The options object as a JavaScript value, defined properties only. *)
Definition optionsValue (o : GetMatchesOptions) : Js.value :=
  Js.VObj (prop "competitions" Js.VStr (competitions o)
           ++ prop "ids" Js.VStr (ids o)
           ++ prop "date" Js.VStr (date o)
           ++ prop "dateFrom" Js.VStr (dateFrom o)
           ++ prop "dateTo" Js.VStr (dateTo o)
           ++ prop "status" (fun s => Js.VStr (status_name s)) (status o)
           ++ prop "season" Js.VNum (season o)
           ++ prop "matchday" Js.VNum (matchday o)
           ++ prop "stage" Js.VStr (stage o)
           ++ prop "group" Js.VStr (group o)
           ++ prop "limit" Js.VNum (limit o)).

Definition unfoldValue (u : UnfoldOptions) : Js.value :=
  Js.VObj (prop "lineups" Js.VBool (lineups u)
           ++ prop "bookings" Js.VBool (bookings u)
           ++ prop "substitutions" Js.VBool (substitutions u)
           ++ prop "goals" Js.VBool (goals u)).

(** [if (flag !== undefined) headers[name] = String(flag)]. *)
Definition setHeader (name : string) (flag : option bool)
           (headers : list (string * Js.value)) : list (string * Js.value) :=
  match flag with
  | Some b => headers ++ [(name, Js.VStr (Js.string_of_bool b))]
  | None => headers
  end.

(** The block that builds [headers], repeated in three methods. *)
Definition unfoldHeaders (unfoldOptions : UnfoldOptions) : Js.value :=
  let headers := [] in
  let headers := setHeader "X-Unfold-Lineups" (lineups unfoldOptions) headers in
  let headers := setHeader "X-Unfold-Bookings" (bookings unfoldOptions) headers in
  let headers := setHeader "X-Unfold-Subs" (substitutions unfoldOptions) headers in
  let headers := setHeader "X-Unfold-Goals" (goals unfoldOptions) headers in
  Js.VObj headers.

Definition getMatches (options : GetMatchesOptions)
           (unfoldOptions : UnfoldOptions) : Axios.Promise Js.value :=
  let headers := unfoldHeaders unfoldOptions in
  let! response := Axios.get "/matches" (Some (optionsValue options))
                             (Some headers) in
  Axios.resolve (Axios.resp_data response).

Definition getTodayMatches (unfoldOptions : UnfoldOptions)
  : Axios.Promise Js.value :=
  getMatches noOptions unfoldOptions.

Definition getMatchById (matchId : Z) (unfoldOptions : UnfoldOptions)
  : Axios.Promise Js.value :=
  let headers := unfoldHeaders unfoldOptions in
  let! response := Axios.get ("/matches/" ++ Js.string_of_num matchId)%string
                             None (Some headers) in
  Axios.resolve (Axios.resp_data response).

Definition getHead2Head (matchId : Z) (limit : Z)
           (unfoldOptions : UnfoldOptions) : Axios.Promise Js.value :=
  let headers := unfoldHeaders unfoldOptions in
  let! response :=
    Axios.get ("/matches/" ++ Js.string_of_num matchId ++ "/head2head")%string
              (Some (Js.VObj [("limit"%string, Js.VNum limit)]))
              (Some headers) in
  Axios.resolve (Axios.resp_data response).

Definition getLiveMatches (unfoldOptions : UnfoldOptions)
  : Axios.Promise Js.value :=
  getMatches (onlyStatus IN_PLAY) unfoldOptions.

Definition getScheduledMatches (dateFrom dateTo : string)
           (competitions : option string) : Axios.Promise Js.value :=
  getMatches
    {| competitions := competitions; ids := None; date := None;
       dateFrom := Some dateFrom; dateTo := Some dateTo;
       status := Some SCHEDULED; season := None; matchday := None;
       stage := None; group := None; limit := None |}
    noUnfold.

End MatchesService.

(** ** api/services/competitions.service.ts *)

Module CompetitionsService.

Record GetCompetitionsOptions := { areas : option string }.

Record StandingsOptions := {
  st_season : option string;
  st_matchday : option Z;
  st_date : option string
}.

Record CompetitionMatchesOptions := {
  cm_dateFrom : option string;
  cm_dateTo : option string;
  cm_stage : option string;
  cm_status : option string;
  cm_matchday : option Z;
  cm_group : option string;
  cm_season : option string
}.

Record ScorersOptions := { sc_limit : option Z; sc_season : option string }.

Record TeamsOptions := { tm_season : option string }.

(** [options?.field] of an optional options object. *)
Definition field {O A : Type} (f : O -> option A) (options : option O)
  : option A :=
  match options with
  | Some o => f o
  | None => None
  end.

Definition str (x : option string) : string :=
  match x with
  | Some s => s
  | None => ""
  end.

Definition num (x : option Z) : string :=
  match x with
  | Some n => Js.string_of_num n
  | None => ""
  end.

(** [queryString ? `${path}?${queryString}` : path]. *)
Definition withQuery (path : string) (params : Js.URLSearchParams) : string :=
  let queryString := Js.params_toString params in
  if String.eqb queryString "" then path
  else (path ++ "?" ++ queryString)%string.

(** [axiosInstance.get(url)] followed by [return response.data]. *)
Definition fetch (url : string) : Axios.Promise Js.value :=
  let! response := Axios.get url None None in
  Axios.resolve (Axios.resp_data response).

Definition getCompetitions (options : GetCompetitionsOptions)
  : Axios.Promise Js.value :=
  let params := [] in
  let params := Js.append_if (Js.truthy_str (areas options))
                             "areas" (str (areas options)) params in
  fetch (withQuery "/competitions" params).

Definition getCompetitionByCode (code : string) : Axios.Promise Js.value :=
  fetch ("/competitions/" ++ code)%string.

(** [id: number]; [None] is the [null] that [id!] in a hook lets through. *)
Definition getCompetitionById (id : option Z) : Axios.Promise Js.value :=
  fetch ("/competitions/" ++ Js.template_num id)%string.

Definition getFullCompetition (code : string) : Axios.Promise Js.value :=
  fetch ("/competitions/" ++ code)%string.

Definition getStandings (code : string) (options : option StandingsOptions)
  : Axios.Promise Js.value :=
  let season := field st_season options in
  let matchday := field st_matchday options in
  let date := field st_date options in
  let params := [] in
  let params := Js.append_if (Js.truthy_str season) "season" (str season) params in
  let params := Js.append_if (Js.truthy_num matchday) "matchday" (num matchday)
                             params in
  let params := Js.append_if (Js.truthy_str date) "date" (str date) params in
  fetch (withQuery ("/competitions/" ++ code ++ "/standings")%string params).

Definition getMatches (code : string)
           (options : option CompetitionMatchesOptions)
  : Axios.Promise Js.value :=
  let dateFrom := field cm_dateFrom options in
  let dateTo := field cm_dateTo options in
  let stage := field cm_stage options in
  let status := field cm_status options in
  let matchday := field cm_matchday options in
  let group := field cm_group options in
  let season := field cm_season options in
  let params := [] in
  let params := Js.append_if (Js.truthy_str dateFrom) "dateFrom" (str dateFrom)
                             params in
  let params := Js.append_if (Js.truthy_str dateTo) "dateTo" (str dateTo) params in
  let params := Js.append_if (Js.truthy_str stage) "stage" (str stage) params in
  let params := Js.append_if (Js.truthy_str status) "status" (str status) params in
  let params := Js.append_if (Js.truthy_num matchday) "matchday" (num matchday)
                             params in
  let params := Js.append_if (Js.truthy_str group) "group" (str group) params in
  let params := Js.append_if (Js.truthy_str season) "season" (str season) params in
  fetch (withQuery ("/competitions/" ++ code ++ "/matches")%string params).

Definition getScorers (code : string) (options : option ScorersOptions)
  : Axios.Promise Js.value :=
  let limit := field sc_limit options in
  let season := field sc_season options in
  let params := [] in
  let params := Js.append_if (Js.truthy_num limit) "limit" (num limit) params in
  let params := Js.append_if (Js.truthy_str season) "season" (str season) params in
  fetch (withQuery ("/competitions/" ++ code ++ "/scorers")%string params).

Definition getTeams (code : string) (options : option TeamsOptions)
  : Axios.Promise Js.value :=
  let season := field tm_season options in
  let params := [] in
  let params := Js.append_if (Js.truthy_str season) "season" (str season) params in
  fetch (withQuery ("/competitions/" ++ code ++ "/teams")%string params).

End CompetitionsService.

(** ** api/services/teams.service.ts *)

Module TeamsService.

Inductive Venue := HOME | AWAY.

Definition venue_name (v : Venue) : string :=
  match v with
  | HOME => "HOME"
  | AWAY => "AWAY"
  end.

Record GetTeamMatchesOptions := {
  dateFrom : option string;
  dateTo : option string;
  season : option string;
  competitions : option string;
  status : option MatchesService.StatusFilter;
  venue : option Venue;
  limit : option Z
}.

Definition noOptions : GetTeamMatchesOptions :=
  {| dateFrom := None; dateTo := None; season := None; competitions := None;
     status := None; venue := None; limit := None |}.

(** [if (cond) params[name] = v]. *)
Definition assign_if (cond : bool) (name : string) (v : Js.value)
           (params : list (string * Js.value)) : list (string * Js.value) :=
  if cond then params ++ [(name, v)] else params.

Definition strValue (x : option string) : Js.value :=
  match x with
  | Some s => Js.VStr s
  | None => Js.VUndefined
  end.

(** [id: number]; [None] is the [null] that [id!] in a hook lets through. *)
Definition getTeamById (id : option Z) : Axios.Promise Js.value :=
  let! response := Axios.get ("/teams/" ++ Js.template_num id)%string
                             None None in
  Axios.resolve (Axios.resp_data response).

Definition getTeamMatches (id : option Z) (options : GetTeamMatchesOptions)
  : Axios.Promise Js.value :=
  let params := [] in
  let params := assign_if (Js.truthy_str (dateFrom options)) "dateFrom"
                          (strValue (dateFrom options)) params in
  let params := assign_if (Js.truthy_str (dateTo options)) "dateTo"
                          (strValue (dateTo options)) params in
  let params := assign_if (Js.truthy_str (season options)) "season"
                          (strValue (season options)) params in
  let params := assign_if (Js.truthy_str (competitions options)) "competitions"
                          (strValue (competitions options)) params in
  let params :=
    match status options with
    | Some st => params ++ [("status"%string,
                             Js.VStr (MatchesService.status_name st))]
    | None => params
    end in
  let params :=
    match venue options with
    | Some v => params ++ [("venue"%string, Js.VStr (venue_name v))]
    | None => params
    end in
  let params :=
    match limit options with
    | Some n => params ++ [("limit"%string, Js.VNum n)]
    | None => params
    end in
  let! response :=
    Axios.get ("/teams/" ++ Js.template_num id ++ "/matches")%string
              (Some (Js.VObj params)) None in
  Axios.resolve (Axios.resp_data response).

End TeamsService.

(** ** @tanstack/react-query 5, as far as the hooks rely on it

    The hooks only build the options object handed to [useQuery]; what a
    query then does is the library's.  This module states the parts of
    query-core that the properties of the hooks depend on: how options are
    completed with defaults, the retry loop of [createRetryer], the reducer
    of [Query] and what [QueryObserver] reports. *)

Module ReactQuery.

(** [retry: boolean | number | (failureCount, error) => boolean]. *)
Inductive RetryValue :=
| RetryBool (b : bool)
| RetryCount (n : Z)
| RetryFn (f : nat -> Axios.Thrown -> bool).

(** [retryDelay: number | (failureCount, error) => number]. *)
Inductive RetryDelayValue :=
| DelayMs (ms : Z)
| DelayFn (f : nat -> Axios.Thrown -> Z).

(** The options object of one [useQuery] call; [None] is a property the
    call does not set. *)
Record QueryOptions := {
  queryKey : list Js.value;
  queryFn : Axios.Promise Js.value;
  staleTime : option Z;
  gcTime : option Z;
  enabled : option bool;
  retry : option RetryValue;
  retryDelay : option RetryDelayValue;
  refetchOnWindowFocus : option bool;
  refetchInterval : option Z
}.

(** [defaultOptions.queries] of a [QueryClient]. *)
Record QueryDefaults := {
  default_staleTime : option Z;
  default_gcTime : option Z;
  default_retry : option RetryValue;
  default_retryDelay : option RetryDelayValue;
  default_refetchOnWindowFocus : option bool;
  default_refetchInterval : option Z
}.

Definition or_else {A : Type} (x y : option A) : option A :=
  match x with
  | Some _ => x
  | None => y
  end.

(** [QueryClient.defaultQueryOptions]: [{ ...defaults.queries, ...options }]. *)
Definition defaultQueryOptions (client : QueryDefaults) (o : QueryOptions)
  : QueryOptions :=
  {| queryKey := queryKey o;
     queryFn := queryFn o;
     staleTime := or_else (staleTime o) (default_staleTime client);
     gcTime := or_else (gcTime o) (default_gcTime client);
     enabled := enabled o;
     retry := or_else (retry o) (default_retry client);
     retryDelay := or_else (retryDelay o) (default_retryDelay client);
     refetchOnWindowFocus :=
       or_else (refetchOnWindowFocus o) (default_refetchOnWindowFocus client);
     refetchInterval :=
       or_else (refetchInterval o) (default_refetchInterval client) |}.

(** [hashKey]: the text under which the cache files a query. *)
Definition hashKey (queryKey : list Js.value) : string :=
  match Js.stringify_sorted (Js.VArr queryKey) with
  | Some s => s
  | None => ""
  end.

(** [defaultRetryDelay] of the retryer. *)
Definition defaultRetryDelay (failureCount : nat) : Z :=
  Z.min (1000 * 2 ^ Z.of_nat failureCount) 30000.

(** [config.retry ?? 3] in a browser. *)
Definition retryOf (o : QueryOptions) : RetryValue :=
  match retry o with
  | Some r => r
  | None => RetryCount 3
  end.

(** [config.retryDelay ?? defaultRetryDelay]. *)
Definition retryDelayOf (o : QueryOptions) : RetryDelayValue :=
  match retryDelay o with
  | Some d => d
  | None => DelayFn (fun failureCount _ => defaultRetryDelay failureCount)
  end.

(** [enabled !== false]. *)
Definition enabledOf (o : QueryOptions) : bool :=
  match enabled o with
  | Some b => b
  | None => true
  end.

Definition shouldRetry (retry : RetryValue) (failureCount : nat)
           (error : Axios.Thrown) : bool :=
  match retry with
  | RetryBool b => b
  | RetryCount n => Z.of_nat failureCount <? n
  | RetryFn f => f failureCount error
  end.

Definition delayFor (retryDelay : RetryDelayValue) (failureCount : nat)
           (error : Axios.Thrown) : Z :=
  match retryDelay with
  | DelayMs ms => ms
  | DelayFn f => f failureCount error
  end.

Definition sleep (delay : Z) (w : Axios.World) : Axios.World :=
  {| Axios.sent := Axios.sent w; Axios.slept := Axios.slept w ++ [delay] |}.

(** The loop [run] of [createRetryer]: call the function; on a rejection
    either give up with that rejection or count the failure, sleep and call
    again.  [fuel] bounds the calls; [None] is a loop that has not settled
    within the bound. *)
Fixpoint run (fuel : nat) (retry : RetryValue) (retryDelay : RetryDelayValue)
         (fn : Axios.Promise Js.value) (failureCount : nat)
         (net : Axios.Network) (w : Axios.World)
  : option (Axios.Thrown + Js.value) * Axios.World :=
  match fuel with
  | O => (None, w)
  | S fuel' =>
      match fn net w with
      | (inr v, w') => (Some (inr v), w')
      | (inl error, w') =>
          let delay := delayFor retryDelay failureCount error in
          if shouldRetry retry failureCount error
          then run fuel' retry retryDelay fn (S failureCount) net (sleep delay w')
          else (Some (inl error), w')
      end
  end.

Inductive Status := pending | error | success.
Inductive FetchStatus := fetching | paused | idle.

(** The fields of [QueryState] that an observer reports. *)
Record QueryState := {
  data : option Js.value;
  state_error : option Axios.Thrown;
  status : Status;
  fetchStatus : FetchStatus
}.

(** [getDefaultState] without initial data. *)
Definition initialState : QueryState :=
  {| data := None; state_error := None; status := pending; fetchStatus := idle |}.

Inductive Action :=
| Fetch
| Success (d : Js.value)
| Failure (e : Axios.Thrown).

(** The reducer of [Query].  A fetch that starts without data goes back to
    [pending] and clears the error; a failure keeps the data of an earlier
    success. *)
Definition reducer (s : QueryState) (a : Action) : QueryState :=
  match a with
  | Fetch =>
      match data s with
      | None => {| data := None; state_error := None; status := pending;
                   fetchStatus := fetching |}
      | Some _ => {| data := data s; state_error := state_error s;
                     status := status s; fetchStatus := fetching |}
      end
  | Success d =>
      {| data := Some d; state_error := None; status := success;
         fetchStatus := idle |}
  | Failure e =>
      {| data := data s; state_error := Some e; status := error;
         fetchStatus := idle |}
  end.

(** One fetch of a query: [Query.fetch] with its retryer. *)
Definition fetch (fuel : nat) (o : QueryOptions) (s : QueryState)
           (net : Axios.Network) (w : Axios.World)
  : option QueryState * Axios.World :=
  let s1 := reducer s Fetch in
  match run fuel (retryOf o) (retryDelayOf o) (queryFn o) 0 net w with
  | (Some (inr d), w') => (Some (reducer s1 (Success d)), w')
  | (Some (inl e), w') => (Some (reducer s1 (Failure e)), w')
  | (None, w') => (None, w')
  end.

(** Mounting the first observer of a query that is not in the cache: it
    fetches unless the query is disabled. *)
Definition mount (fuel : nat) (o : QueryOptions)
           (net : Axios.Network) (w : Axios.World)
  : option QueryState * Axios.World :=
  if enabledOf o then fetch fuel o initialState net w
  else (Some initialState, w).

(** [refetch()] of the result: it fetches whether or not the query is
    enabled. *)
Definition refetch (fuel : nat) (o : QueryOptions) (s : QueryState)
           (net : Axios.Network) (w : Axios.World)
  : option QueryState * Axios.World :=
  fetch fuel o s net w.

(** The fields of [UseQueryResult] that the pages destructure. *)
Record UseQueryResult := {
  result_data : option Js.value;
  isLoading : bool;
  result_error : option Axios.Thrown
}.

Definition isPending (s : QueryState) : bool :=
  match status s with
  | pending => true
  | _ => false
  end.

Definition isFetching (s : QueryState) : bool :=
  match fetchStatus s with
  | fetching => true
  | _ => false
  end.

(** [QueryObserver.createResult]: [isLoading = isFetching && isPending]. *)
Definition result (s : QueryState) : UseQueryResult :=
  {| result_data := data s;
     isLoading := isFetching s && isPending s;
     result_error := state_error s |}.

(** The state of a query after a history of actions, oldest first. *)
Definition after (history : list Action) : QueryState :=
  fold_left reducer history initialState.

End ReactQuery.

(** ** App.tsx *)

Module App.

(** [new QueryClient({ defaultOptions: { queries: ... } })]. *)
Definition queryClient : ReactQuery.QueryDefaults :=
  {| ReactQuery.default_staleTime := Some (2 * 60 * 1000);
     ReactQuery.default_gcTime := Some (5 * 60 * 1000);
     ReactQuery.default_retry := Some (ReactQuery.RetryCount 2);
     ReactQuery.default_retryDelay := None;
     ReactQuery.default_refetchOnWindowFocus := Some true;
     ReactQuery.default_refetchInterval := None |}.

(** The options a hook's query runs with under this client. *)
Definition effective (o : ReactQuery.QueryOptions) : ReactQuery.QueryOptions :=
  ReactQuery.defaultQueryOptions queryClient o.

End App.

(** ** Values of hook parameters inside query keys *)

Module Key.

(** A [number | null] parameter. *)
Definition num (x : option Z) : Js.value :=
  match x with
  | Some n => Js.VNum n
  | None => Js.VNull
  end.

(** A [string | null] parameter. *)
Definition str (x : option string) : Js.value :=
  match x with
  | Some s => Js.VStr s
  | None => Js.VNull
  end.

(** An optional parameter ([x?: T]). *)
Definition opt {A : Type} (inj : A -> Js.value) (x : option A) : Js.value :=
  match x with
  | Some a => inj a
  | None => Js.VUndefined
  end.

Definition areas (o : CompetitionsService.GetCompetitionsOptions) : Js.value :=
  Js.VObj (MatchesService.prop "areas" Js.VStr (CompetitionsService.areas o)).

Definition standings (o : CompetitionsService.StandingsOptions) : Js.value :=
  Js.VObj
    (MatchesService.prop "season" Js.VStr (CompetitionsService.st_season o)
     ++ MatchesService.prop "matchday" Js.VNum (CompetitionsService.st_matchday o)
     ++ MatchesService.prop "date" Js.VStr (CompetitionsService.st_date o)).

Definition scorers (o : CompetitionsService.ScorersOptions) : Js.value :=
  Js.VObj
    (MatchesService.prop "limit" Js.VNum (CompetitionsService.sc_limit o)
     ++ MatchesService.prop "season" Js.VStr (CompetitionsService.sc_season o)).

Definition teams (o : CompetitionsService.TeamsOptions) : Js.value :=
  Js.VObj (MatchesService.prop "season" Js.VStr (CompetitionsService.tm_season o)).

Definition competitionMatches (o : CompetitionsService.CompetitionMatchesOptions)
  : Js.value :=
  Js.VObj
    (MatchesService.prop "dateFrom" Js.VStr (CompetitionsService.cm_dateFrom o)
     ++ MatchesService.prop "dateTo" Js.VStr (CompetitionsService.cm_dateTo o)
     ++ MatchesService.prop "stage" Js.VStr (CompetitionsService.cm_stage o)
     ++ MatchesService.prop "status" Js.VStr (CompetitionsService.cm_status o)
     ++ MatchesService.prop "matchday" Js.VNum (CompetitionsService.cm_matchday o)
     ++ MatchesService.prop "group" Js.VStr (CompetitionsService.cm_group o)
     ++ MatchesService.prop "season" Js.VStr (CompetitionsService.cm_season o)).

Definition teamMatches (o : TeamsService.GetTeamMatchesOptions) : Js.value :=
  Js.VObj
    (MatchesService.prop "dateFrom" Js.VStr (TeamsService.dateFrom o)
     ++ MatchesService.prop "dateTo" Js.VStr (TeamsService.dateTo o)
     ++ MatchesService.prop "season" Js.VStr (TeamsService.season o)
     ++ MatchesService.prop "competitions" Js.VStr (TeamsService.competitions o)
     ++ MatchesService.prop "status"
          (fun st => Js.VStr (MatchesService.status_name st))
          (TeamsService.status o)
     ++ MatchesService.prop "venue"
          (fun v => Js.VStr (TeamsService.venue_name v)) (TeamsService.venue o)
     ++ MatchesService.prop "limit" Js.VNum (TeamsService.limit o)).

(** [code!] handed to a service that only prints it in a template literal:
    [null] prints as its name. *)
Definition bang_str (x : option string) : string :=
  match x with
  | Some s => s
  | None => "null"
  end.

End Key.

(** ** Reading a cache key back from its hash

    The hash of a query key is a JSON text.  What is needed to read the
    items of a key back from that text: the characters that end a value,
    the inverse of the string escape, and property access on an object. *)

Module KeyText.

(** The characters that can follow a value in a JSON text: the separator
    and the two closing brackets. *)
Definition closes (c : ascii) : bool :=
  let n := N_of_ascii c in ((n =? 44) || (n =? 93) || (n =? 125))%N.

(** The characters of the decimal text of an integer. *)
Definition numchar (c : ascii) : bool :=
  let n := N_of_ascii c in ((n =? 45) || (48 <=? n) && (n <=? 57))%N.

Fixpoint every (p : ascii -> bool) (s : string) : bool :=
  match s with
  | EmptyString => true
  | String c rest => p c && every p rest
  end.

Definition unhex (c : ascii) : option N :=
  let n := N_of_ascii c in
  if ((48 <=? n) && (n <=? 57))%N then Some (n - 48)%N
  else if ((97 <=? n) && (n <=? 102))%N then Some (n - 87)%N
  else None.

(** The first character of a JSON string body read back, with the text
    that follows it; nothing at the closing quote. *)
Definition unescape (t : string) : option (ascii * string) :=
  match t with
  | EmptyString => None
  | String c r =>
      if (N_of_ascii c =? 92)%N then
        match r with
        | EmptyString => None
        | String e r1 =>
            let n := N_of_ascii e in
            if (n =? 34)%N then Some (Js.dquote, r1)
            else if (n =? 92)%N then Some (Js.backslash, r1)
            else if (n =? 98)%N then Some (ascii_of_N 8, r1)
            else if (n =? 102)%N then Some (ascii_of_N 12, r1)
            else if (n =? 110)%N then Some (ascii_of_N 10, r1)
            else if (n =? 114)%N then Some (ascii_of_N 13, r1)
            else if (n =? 116)%N then Some (ascii_of_N 9, r1)
            else if (n =? 117)%N then
              match r1 with
              | String _ (String _ (String h (String l r2))) =>
                  match unhex h, unhex l with
                  | Some a, Some b => Some (ascii_of_N (16 * a + b), r2)
                  | _, _ => None
                  end
              | _ => None
              end
            else None
        end
      else if (N_of_ascii c =? 34)%N then None
      else Some (c, r)
  end.

(** A string or a number. *)
Definition scalar (v : Js.value) : bool :=
  match v with
  | Js.VStr _ | Js.VNum _ => true
  | _ => false
  end.

(** A member of an object in the JSON text. *)
Definition member_text (kv : string * Js.value) : string :=
  (Js.json_quote (fst kv) ++ ":" ++ Js.item_text (snd kv))%string.

Definition members_text (props : list (string * Js.value)) : string :=
  String.concat "," (map member_text props).

(** [obj[k]] on an object given by its properties. *)
Definition lookup (k : string) (props : list (string * Js.value))
  : option Js.value :=
  match find (fun kv => String.eqb (fst kv) k) props with
  | Some kv => Some (snd kv)
  | None => None
  end.

End KeyText.

(** ** hooks/useMatches.ts

    Parameters with a default value ([options = {}], [enabled = true],
    [limit = 10]) are taken after the default has been applied. *)

Module UseMatches.
Import ReactQuery.

Definition CACHE_TIME : Z := 5 * 60 * 1000.
Definition STALE_TIME : Z := 2 * 60 * 1000.

(** [(attemptIndex) => Math.min(1000 * 2 ** attemptIndex, 30000)]. *)
Definition retryDelayFn (attemptIndex : nat) : Z :=
  Z.min (1000 * 2 ^ Z.of_nat attemptIndex) 30000.

Definition backoff : RetryDelayValue :=
  DelayFn (fun attemptIndex _ => retryDelayFn attemptIndex).

Definition useMatches (options : MatchesService.GetMatchesOptions)
           (unfoldOptions : MatchesService.UnfoldOptions) (enabled : bool)
  : QueryOptions :=
  {| queryKey := [Js.VStr "matches"; MatchesService.optionsValue options;
                  MatchesService.unfoldValue unfoldOptions];
     queryFn := MatchesService.getMatches options unfoldOptions;
     staleTime := Some STALE_TIME;
     gcTime := Some CACHE_TIME;
     enabled := Some enabled;
     retry := Some (RetryCount 2);
     retryDelay := Some backoff;
     refetchOnWindowFocus := None;
     refetchInterval := None |}.

Definition useTodayMatches (unfoldOptions : MatchesService.UnfoldOptions)
           (enabled : bool) : QueryOptions :=
  {| queryKey := [Js.VStr "matches"; Js.VStr "today";
                  MatchesService.unfoldValue unfoldOptions];
     queryFn := MatchesService.getTodayMatches unfoldOptions;
     staleTime := Some STALE_TIME;
     gcTime := Some CACHE_TIME;
     enabled := Some enabled;
     retry := Some (RetryCount 2);
     retryDelay := Some backoff;
     refetchOnWindowFocus := Some true;
     refetchInterval := Some 60000 |}.

Definition useMatchById (matchId : option Z)
           (unfoldOptions : MatchesService.UnfoldOptions) (enabled : bool)
  : QueryOptions :=
  {| queryKey := [Js.VStr "match"; Key.num matchId;
                  MatchesService.unfoldValue unfoldOptions];
     queryFn :=
       match matchId with
       | Some id =>
           if id =? 0 then Axios.reject (Axios.JsError "Match ID is required")
           else MatchesService.getMatchById id unfoldOptions
       | None => Axios.reject (Axios.JsError "Match ID is required")
       end;
     staleTime := Some STALE_TIME;
     gcTime := Some CACHE_TIME;
     enabled := Some (enabled && Js.truthy_num matchId);
     retry := Some (RetryCount 2);
     retryDelay := Some backoff;
     refetchOnWindowFocus := None;
     refetchInterval := None |}.

(** The default of [unfoldOptions] in [useLiveMatches]: [{ goals: true }]. *)
Definition liveDefaultUnfold : MatchesService.UnfoldOptions :=
  {| MatchesService.lineups := None; MatchesService.bookings := None;
     MatchesService.substitutions := None; MatchesService.goals := Some true |}.

Definition useLiveMatches (unfoldOptions : MatchesService.UnfoldOptions)
           (enabled : bool) : QueryOptions :=
  {| queryKey := [Js.VStr "matches"; Js.VStr "live";
                  MatchesService.unfoldValue unfoldOptions];
     queryFn := MatchesService.getLiveMatches unfoldOptions;
     staleTime := Some 30000;
     gcTime := Some CACHE_TIME;
     enabled := Some enabled;
     retry := Some (RetryCount 2);
     retryDelay := Some backoff;
     refetchOnWindowFocus := Some true;
     refetchInterval := Some 30000 |}.

Definition useHead2Head (matchId : option Z) (limit : Z)
           (unfoldOptions : MatchesService.UnfoldOptions) (enabled : bool)
  : QueryOptions :=
  {| queryKey := [Js.VStr "match"; Key.num matchId; Js.VStr "head2head";
                  Js.VNum limit; MatchesService.unfoldValue unfoldOptions];
     queryFn :=
       match matchId with
       | Some id =>
           if id =? 0 then Axios.reject (Axios.JsError "Match ID is required")
           else MatchesService.getHead2Head id limit unfoldOptions
       | None => Axios.reject (Axios.JsError "Match ID is required")
       end;
     staleTime := Some CACHE_TIME;
     gcTime := Some (CACHE_TIME * 2);
     enabled := Some (enabled && Js.truthy_num matchId);
     retry := Some (RetryCount 1);
     retryDelay := None;
     refetchOnWindowFocus := None;
     refetchInterval := None |}.

Definition useScheduledMatches (dateFrom dateTo : string)
           (competitions : option string) (enabled : bool) : QueryOptions :=
  {| queryKey := [Js.VStr "matches"; Js.VStr "scheduled"; Js.VStr dateFrom;
                  Js.VStr dateTo; Key.opt Js.VStr competitions];
     queryFn := MatchesService.getScheduledMatches dateFrom dateTo competitions;
     staleTime := Some STALE_TIME;
     gcTime := Some CACHE_TIME;
     enabled := Some enabled;
     retry := Some (RetryCount 2);
     retryDelay := Some backoff;
     refetchOnWindowFocus := None;
     refetchInterval := None |}.

End UseMatches.

(** ** hooks/useCompetitions.ts *)

Module UseCompetitions.
Import ReactQuery.

Definition CACHE_TIME : Z := 10 * 60 * 1000.
Definition STALE_TIME : Z := 5 * 60 * 1000.

(** The options every hook of this module and of the two detail modules
    passes besides key, function and [enabled]. *)
Definition plain (key : list Js.value) (fn : Axios.Promise Js.value)
           (stale gc : Z) (enabled : bool) : QueryOptions :=
  {| queryKey := key;
     queryFn := fn;
     staleTime := Some stale;
     gcTime := Some gc;
     enabled := Some enabled;
     retry := None;
     retryDelay := None;
     refetchOnWindowFocus := None;
     refetchInterval := None |}.

Definition useCompetitions (options : CompetitionsService.GetCompetitionsOptions)
           (enabled : bool) : QueryOptions :=
  plain [Js.VStr "competitions"; Key.areas options]
        (CompetitionsService.getCompetitions options)
        STALE_TIME CACHE_TIME enabled.

Definition isNull {A : Type} (x : option A) : bool :=
  match x with
  | Some _ => false
  | None => true
  end.

Definition useCompetitionByCode (code : option string) (enabled : bool)
  : QueryOptions :=
  plain [Js.VStr "competition"; Js.VStr "code"; Key.str code]
        (CompetitionsService.getCompetitionByCode (Key.bang_str code))
        STALE_TIME CACHE_TIME (enabled && negb (isNull code)).

Definition useCompetitionById (id : option Z) (enabled : bool) : QueryOptions :=
  plain [Js.VStr "competition"; Js.VStr "id"; Key.num id]
        (CompetitionsService.getCompetitionById id)
        STALE_TIME CACHE_TIME (enabled && negb (isNull id)).

End UseCompetitions.

(** ** hooks/useCompetitionDetail.ts *)

Module UseCompetitionDetail.
Import ReactQuery.

Definition CACHE_TIME : Z := 10 * 60 * 1000.
Definition STALE_TIME : Z := 5 * 60 * 1000.

Definition useFullCompetition (code : option string) (enabled : bool)
  : QueryOptions :=
  UseCompetitions.plain
    [Js.VStr "competition"; Js.VStr "full"; Key.str code]
    (CompetitionsService.getFullCompetition (Key.bang_str code))
    STALE_TIME CACHE_TIME (enabled && Js.truthy_str code).

Definition useStandings (code : option string)
           (options : option CompetitionsService.StandingsOptions)
           (enabled : bool) : QueryOptions :=
  UseCompetitions.plain
    [Js.VStr "competition"; Key.str code; Js.VStr "standings";
     Key.opt Key.standings options]
    (CompetitionsService.getStandings (Key.bang_str code) options)
    STALE_TIME CACHE_TIME (enabled && Js.truthy_str code).

Definition useScorers (code : option string)
           (options : option CompetitionsService.ScorersOptions)
           (enabled : bool) : QueryOptions :=
  UseCompetitions.plain
    [Js.VStr "competition"; Key.str code; Js.VStr "scorers";
     Key.opt Key.scorers options]
    (CompetitionsService.getScorers (Key.bang_str code) options)
    STALE_TIME CACHE_TIME (enabled && Js.truthy_str code).

Definition useTeams (code : option string)
           (options : option CompetitionsService.TeamsOptions)
           (enabled : bool) : QueryOptions :=
  UseCompetitions.plain
    [Js.VStr "competition"; Key.str code; Js.VStr "teams";
     Key.opt Key.teams options]
    (CompetitionsService.getTeams (Key.bang_str code) options)
    STALE_TIME CACHE_TIME (enabled && Js.truthy_str code).

Definition useCompetitionMatches (code : option string)
           (options : option CompetitionsService.CompetitionMatchesOptions)
           (enabled : bool) : QueryOptions :=
  UseCompetitions.plain
    [Js.VStr "competition"; Key.str code; Js.VStr "matches";
     Key.opt Key.competitionMatches options]
    (CompetitionsService.getMatches (Key.bang_str code) options)
    STALE_TIME CACHE_TIME (enabled && Js.truthy_str code).

End UseCompetitionDetail.

(** ** hooks/useTeamDetail.ts *)

Module UseTeamDetail.
Import ReactQuery.

Definition CACHE_TIME : Z := 10 * 60 * 1000.
Definition STALE_TIME : Z := 5 * 60 * 1000.

Definition useTeam (id : option Z) (enabled : bool) : QueryOptions :=
  UseCompetitions.plain
    [Js.VStr "team"; Key.num id]
    (TeamsService.getTeamById id)
    STALE_TIME CACHE_TIME (Js.truthy_num id && enabled).

(** [options] is optional here and defaults to [{}] inside the service. *)
Definition useTeamMatches (id : option Z)
           (options : option TeamsService.GetTeamMatchesOptions)
           (enabled : bool) : QueryOptions :=
  UseCompetitions.plain
    [Js.VStr "team"; Key.num id; Js.VStr "matches";
     Key.opt Key.teamMatches options]
    (TeamsService.getTeamMatches id
       (match options with
        | Some o => o
        | None => TeamsService.noOptions
        end))
    STALE_TIME CACHE_TIME (Js.truthy_num id && enabled).

End UseTeamDetail.

(** ** The calls of the hook layer *)

Module Hooks.

(** One constructor for each exported hook, with its arguments. *)
Inductive Call :=
| UseMatches (options : MatchesService.GetMatchesOptions)
             (unfoldOptions : MatchesService.UnfoldOptions) (enabled : bool)
| UseTodayMatches (unfoldOptions : MatchesService.UnfoldOptions) (enabled : bool)
| UseMatchById (matchId : option Z)
               (unfoldOptions : MatchesService.UnfoldOptions) (enabled : bool)
| UseLiveMatches (unfoldOptions : MatchesService.UnfoldOptions) (enabled : bool)
| UseHead2Head (matchId : option Z) (limit : Z)
               (unfoldOptions : MatchesService.UnfoldOptions) (enabled : bool)
| UseScheduledMatches (dateFrom dateTo : string) (competitions : option string)
                      (enabled : bool)
| UseCompetitions (options : CompetitionsService.GetCompetitionsOptions)
                  (enabled : bool)
| UseCompetitionByCode (code : option string) (enabled : bool)
| UseCompetitionById (id : option Z) (enabled : bool)
| UseFullCompetition (code : option string) (enabled : bool)
| UseStandings (code : option string)
               (options : option CompetitionsService.StandingsOptions)
               (enabled : bool)
| UseScorers (code : option string)
             (options : option CompetitionsService.ScorersOptions)
             (enabled : bool)
| UseTeams (code : option string)
           (options : option CompetitionsService.TeamsOptions) (enabled : bool)
| UseCompetitionMatches
    (code : option string)
    (options : option CompetitionsService.CompetitionMatchesOptions)
    (enabled : bool)
| UseTeam (id : option Z) (enabled : bool)
| UseTeamMatches (id : option Z)
                 (options : option TeamsService.GetTeamMatchesOptions)
                 (enabled : bool).

(** The options object the call hands to [useQuery]. *)
Definition options (c : Call) : ReactQuery.QueryOptions :=
  match c with
  | UseMatches o u e => UseMatches.useMatches o u e
  | UseTodayMatches u e => UseMatches.useTodayMatches u e
  | UseMatchById m u e => UseMatches.useMatchById m u e
  | UseLiveMatches u e => UseMatches.useLiveMatches u e
  | UseHead2Head m l u e => UseMatches.useHead2Head m l u e
  | UseScheduledMatches f t c e => UseMatches.useScheduledMatches f t c e
  | UseCompetitions o e => UseCompetitions.useCompetitions o e
  | UseCompetitionByCode c e => UseCompetitions.useCompetitionByCode c e
  | UseCompetitionById i e => UseCompetitions.useCompetitionById i e
  | UseFullCompetition c e => UseCompetitionDetail.useFullCompetition c e
  | UseStandings c o e => UseCompetitionDetail.useStandings c o e
  | UseScorers c o e => UseCompetitionDetail.useScorers c o e
  | UseTeams c o e => UseCompetitionDetail.useTeams c o e
  | UseCompetitionMatches c o e => UseCompetitionDetail.useCompetitionMatches c o e
  | UseTeam i e => UseTeamDetail.useTeam i e
  | UseTeamMatches i o e => UseTeamDetail.useTeamMatches i o e
  end.

Definition isHead2Head (c : Call) : bool :=
  match c with
  | UseHead2Head _ _ _ _ => true
  | _ => false
  end.

End Hooks.

(** ** pages/CompetitionDetail.tsx *)

Module CompetitionDetail.

(** [!!competition] on the [data] of the parent query. *)
Definition present (competition : option Js.value) : bool :=
  match competition with
  | Some v => Js.truthy v
  | None => false
  end.

(** The five queries of the page. *)
Record Queries := {
  competitionQuery : ReactQuery.QueryOptions;
  standingsQuery : ReactQuery.QueryOptions;
  scorersQuery : ReactQuery.QueryOptions;
  teamsQuery : ReactQuery.QueryOptions;
  matchesQuery : ReactQuery.QueryOptions
}.

(** The hook calls of one render: [code] is the route parameter and
    [parent] what [useFullCompetition] returned in this render. *)
Definition queries (code : option string) (parent : ReactQuery.UseQueryResult)
  : Queries :=
  let competition := ReactQuery.result_data parent in
  {| competitionQuery :=
       UseCompetitionDetail.useFullCompetition (Js.str_or_null code) true;
     standingsQuery :=
       UseCompetitionDetail.useStandings
         (Js.str_or_null code) None
         (Js.truthy_str code && present competition);
     scorersQuery :=
       UseCompetitionDetail.useScorers
         (Js.str_or_null code)
         (Some {| CompetitionsService.sc_limit := Some 10;
                  CompetitionsService.sc_season := None |})
         (Js.truthy_str code && present competition);
     teamsQuery :=
       UseCompetitionDetail.useTeams
         (Js.str_or_null code) None
         (Js.truthy_str code && present competition);
     matchesQuery :=
       UseCompetitionDetail.useCompetitionMatches
         (Js.str_or_null code)
         (Some {| CompetitionsService.cm_dateFrom := None;
                  CompetitionsService.cm_dateTo := None;
                  CompetitionsService.cm_stage := None;
                  CompetitionsService.cm_status := Some "SCHEDULED"%string;
                  CompetitionsService.cm_matchday := None;
                  CompetitionsService.cm_group := None;
                  CompetitionsService.cm_season := None |})
         (Js.truthy_str code && present competition) |}.

Definition children (q : Queries) : list ReactQuery.QueryOptions :=
  [standingsQuery q; scorersQuery q; teamsQuery q; matchesQuery q].

End CompetitionDetail.

(** ** components/matches/MatchCard.tsx *)

Module MatchCard.

(** [match.status === 'IN_PLAY' || match.status === 'PAUSED']. *)
Definition isLive (m : Match) : bool :=
  match status m with
  | IN_PLAY | PAUSED => true
  | _ => false
  end.

End MatchCard.

(** ** The requests the specification names *)

Module Spec.

(** The request of [getMatches({ status: 'IN_PLAY' }, u)]: [GET /matches]
    with the one parameter [status=IN_PLAY] and the expansion headers of
    [u]. *)
Definition liveRequest (u : MatchesService.UnfoldOptions) : Axios.Request :=
  {| Axios.url := "/matches";
     Axios.params := Some (Js.VObj [("status"%string, Js.VStr "IN_PLAY")]);
     Axios.headers := Some (MatchesService.unfoldHeaders u) |}.

(** The request of [getMatches({}, u)]: [GET /matches] with no parameter at
    all and the expansion headers of [u]. *)
Definition todayRequest (u : MatchesService.UnfoldOptions) : Axios.Request :=
  {| Axios.url := "/matches";
     Axios.params := Some (Js.VObj []);
     Axios.headers := Some (MatchesService.unfoldHeaders u) |}.

(** [delay(attempt) = min(1000 * 2^attempt, 30000)] milliseconds. *)
Definition delay (attempt : nat) : Z :=
  Z.min (1000 * 2 ^ Z.of_nat attempt) 30000.

End Spec.

(** ** Sample data *)

Module Sample.

Definition team : TeamRef := {| team_id := 86; team_name := "Real Madrid CF" |}.

Definition striker : GoalPlayer := {| player_id := 7; player_name := "Raúl" |}.

Definition goalAt (minute : Z) (extra : option Z) : Goal :=
  {| goal_minute := minute; injuryTime := extra; goal_type := REGULAR;
     goal_team := team; scorer := striker; assist := None;
     goal_score := {| home := Some 1; away := Some 0 |} |}.

Definition bookingAt (minute : Z) : Booking :=
  {| booking_minute := minute; booking_team := team;
     player := striker; card := YELLOW |}.

Definition finished : Match :=
  {| match_id := 327611; status := FINISHED;
     goals := Some [goalAt 45 (Some 2); goalAt 10 None];
     bookings := Some [bookingAt 46; bookingAt 10];
     substitutions := None |}.

(** A 404 answer with the body the upstream sends. *)
Definition notFound : Axios.AxiosError :=
  {| Axios.message := "Request failed with status code 404";
     Axios.code := Some "ERR_BAD_REQUEST"%string;
     Axios.config_url := Some "/matches"%string;
     Axios.response :=
       Some {| Axios.status := 404;
               Axios.data := Some {| Axios.error := "Not found";
                                     Axios.api_message := None |} |} |}.

(** An upstream that answers every request with the same failure. *)
Definition always (e : Axios.AxiosError) : Axios.Network :=
  fun _ _ => Axios.Failed e.

(** A competition as the upstream returns it. *)
Definition premierLeague : Js.value :=
  Js.VObj [("id"%string, Js.VNum 2021); ("name"%string, Js.VStr "Premier League");
           ("code"%string, Js.VStr "PL"); ("type"%string, Js.VStr "LEAGUE")].

(** A request that got no answer within the 10 second timeout. *)
Definition timedOut : Axios.AxiosError :=
  {| Axios.message := "timeout of 10000ms exceeded";
     Axios.code := Some "ECONNABORTED"%string;
     Axios.config_url := Some "/competitions/PL"%string;
     Axios.response := None |}.

End Sample.

(** ** components/matches/MatchH2H.tsx *)

Module MatchH2H.

(** [Winner] of the types module without its [null]. *)
Inductive Winner := HOME_TEAM | AWAY_TEAM | DRAW.

(** The fields of a [Match] that the head-to-head panel reads:
    [match.score.winner], [match.homeTeam.id] and [match.awayTeam.id]. *)
Record Match := {
  winner : option Winner;
  homeTeam_id : Z;
  awayTeam_id : Z
}.

Definition getResultColor (m : Match) (teamId : Z) : string :=
  match winner m with
  | None => "gray"
  | Some HOME_TEAM => if homeTeam_id m =? teamId then "green" else "red"
  | Some AWAY_TEAM => if awayTeam_id m =? teamId then "green" else "red"
  | Some DRAW => "gray"
  end.

Definition getResultText (m : Match) (teamId : Z) : string :=
  match winner m with
  | None => "E"
  | Some HOME_TEAM => if homeTeam_id m =? teamId then "V" else "D"
  | Some AWAY_TEAM => if awayTeam_id m =? teamId then "V" else "D"
  | Some DRAW => "E"
  end.

Record Stats := { wins : Z; draws : Z; losses : Z }.

(** The body of the [forEach] callback: one match counted for [teamId]. *)
Definition countMatch (teamId : Z) (acc : Stats) (m : Match) : Stats :=
  let result := getResultText m teamId in
  if String.eqb result "V"
  then {| wins := wins acc + 1; draws := draws acc; losses := losses acc |}
  else if String.eqb result "E"
  then {| wins := wins acc; draws := draws acc + 1; losses := losses acc |}
  else if String.eqb result "D"
  then {| wins := wins acc; draws := draws acc; losses := losses acc + 1 |}
  else acc.

(** The loop shared by [getHomeTeamStats] and [getAwayTeamStats], which
    differ in the team id only. *)
Definition tally (matches : list Match) (teamId : Z) : Stats :=
  fold_left (countMatch teamId) matches
            {| wins := 0; draws := 0; losses := 0 |}.

Definition getHomeTeamStats (matches : list Match) (homeTeamId : Z) : Stats :=
  tally matches homeTeamId.

Definition getAwayTeamStats (matches : list Match) (awayTeamId : Z) : Stats :=
  tally matches awayTeamId.

End MatchH2H.

(** ** components/competitions/StandingsTable.tsx *)

Module StandingsTable.

(** [s.split(sep)] for a separator of one character. *)
Fixpoint split (sep : ascii) (s : string) : list string :=
  match s with
  | EmptyString => [EmptyString]
  | String c rest =>
      if Ascii.eqb c sep then EmptyString :: split sep rest
      else match split sep rest with
           | piece :: pieces => String c piece :: pieces
           | [] => [String c EmptyString]
           end
  end.

Definition comma : ascii := ascii_of_N 44.

(** The fields of a [TablePosition] that the helpers read. *)
Record TablePosition := { position : Z; form : option string }.

Record Standing := { table : list TablePosition }.

Definition getPositionColor (standing : Standing) (position : Z) : string :=
  if position <=? 4 then "#51cf66"
  else if position <=? 6 then "#4dabf7"
  else if position >=? Z.of_nat (List.length (table standing)) - 2
       then "#ff6b6b"
  else "#868e96".

Definition parseForm (form : option string) : list string :=
  if Js.truthy_str form
  then match form with
       | Some f =>
           filter (fun f => (0 <? String.length f)%nat) (split comma f)
       | None => []
       end
  else [].

(** A text without a comma. *)
Fixpoint commaFree (s : string) : bool :=
  match s with
  | EmptyString => true
  | String c rest => negb (Ascii.eqb c comma) && commaFree rest
  end.

(** One result of a form string: not empty and without a comma. *)
Definition isResult (s : string) : bool :=
  (0 <? String.length s)%nat && commaFree s.

Definition getFormColor (result : string) : string :=
  if String.eqb result "W" then "green"
  else if String.eqb result "D" then "yellow"
  else if String.eqb result "L" then "red"
  else "gray".

Definition getFormLabel (result : string) : string :=
  if String.eqb result "W" then "V"
  else if String.eqb result "D" then "E"
  else if String.eqb result "L" then "D"
  else result.

End StandingsTable.

(** ** components/matches/MatchTimeline.tsx: what is shown of an event *)

Module TimelineView.
Import MatchTimeline.

(** [getEventColor(event.type, event.data)]; [data?.card] of an event that
    is not a booking is [undefined]. *)
Definition getEventColor (t : EventType) (d : EventData) : string :=
  match t with
  | goal => "green"
  | booking =>
      match d with
      | BookingData b => match card b with
                         | YELLOW => "yellow"
                         | _ => "red"
                         end
      | _ => "red"
      end
  | substitution => "blue"
  end.

(** [(event.data as Goal).injuryTime]: the property read off whatever the
    event carries. *)
Definition dataInjuryTime (d : EventData) : option Z :=
  match d with
  | GoalData g => injuryTime g
  | _ => None
  end.

Definition isGoal (t : EventType) : bool :=
  match t with
  | goal => true
  | _ => false
  end.

(** The text of the badge of an event: the minute, an apostrophe and, for a
    goal with additional time, a plus sign and that time. *)
Definition badge (e : TimelineEvent) : string :=
  (Js.string_of_num (minute e) ++ "'"
   ++ (if isGoal (type e) && Js.truthy_num (dataInjuryTime (data e))
       then " +" ++ Js.template_num (dataInjuryTime (data e))
       else ""))%string.

(** An event whose [type] names the kind of its [data]: the case in which
    the casts of [renderEventContent] are right. *)
Definition wellTagged (e : TimelineEvent) : Prop :=
  match type e, data e with
  | goal, GoalData _ => True
  | booking, BookingData _ => True
  | substitution, SubstitutionData _ => True
  | _, _ => False
  end.

(** The minute the data of an event gives it. *)
Definition dataMinute (d : EventData) : Z :=
  match d with
  | GoalData g => goal_minute g + Js.num_or (injuryTime g) 0
  | BookingData b => booking_minute b
  | SubstitutionData s => sub_minute s
  end.

(** The number of entries of an optional list. *)
Definition count {A : Type} (xs : option (list A)) : nat :=
  match xs with
  | Some l => List.length l
  | None => 0%nat
  end.

(** One [Timeline.Item]: its [key], the colour and the text of its badge,
    and the event whose content it shows. *)
Record Item := {
  key : nat;
  color : string;
  title : string;
  event : TimelineEvent
}.

(** What the component returns: the panel without events, or the timeline
    with its [active] count and its items. *)
Inductive Panel :=
| NoEvents (text : string)
| Chronology (active : nat) (items : list Item).

(** [timelineEvents.map((event, index) => ...)]. *)
Fixpoint items (index : nat) (events : list TimelineEvent) : list Item :=
  match events with
  | [] => []
  | e :: rest =>
      {| key := index; color := getEventColor (type e) (data e);
         title := badge e; event := e |} :: items (S index) rest
  end.

Definition render (m : Match) : Panel :=
  let timelineEvents := getTimelineEvents m in
  if (List.length timelineEvents =? 0)%nat
  then NoEvents "No hay eventos disponibles para este partido"
  else Chronology (List.length timelineEvents) (items 0 timelineEvents).

(** The events of one type, in list order. *)
Definition ofType (t : EventType) (l : list TimelineEvent)
  : list TimelineEvent :=
  filter (fun e => match type e, t with
                   | goal, goal | booking, booking
                   | substitution, substitution => true
                   | _, _ => false
                   end) l.

End TimelineView.

(** ** The methods of the three services *)

Module Services.

(** One constructor for each static method, with its arguments. *)
Inductive Call :=
| GetMatches (options : MatchesService.GetMatchesOptions)
             (unfoldOptions : MatchesService.UnfoldOptions)
| GetTodayMatches (unfoldOptions : MatchesService.UnfoldOptions)
| GetMatchById (matchId : Z) (unfoldOptions : MatchesService.UnfoldOptions)
| GetHead2Head (matchId : Z) (limit : Z)
               (unfoldOptions : MatchesService.UnfoldOptions)
| GetLiveMatches (unfoldOptions : MatchesService.UnfoldOptions)
| GetScheduledMatches (dateFrom dateTo : string) (competitions : option string)
| GetCompetitions (options : CompetitionsService.GetCompetitionsOptions)
| GetCompetitionByCode (code : string)
| GetCompetitionById (id : option Z)
| GetFullCompetition (code : string)
| GetStandings (code : string)
               (options : option CompetitionsService.StandingsOptions)
| GetCompetitionMatches
    (code : string)
    (options : option CompetitionsService.CompetitionMatchesOptions)
| GetScorers (code : string)
             (options : option CompetitionsService.ScorersOptions)
| GetTeams (code : string) (options : option CompetitionsService.TeamsOptions)
| GetTeamById (id : option Z)
| GetTeamMatches (id : option Z) (options : TeamsService.GetTeamMatchesOptions).

Definition run (c : Call) : Axios.Promise Js.value :=
  match c with
  | GetMatches o u => MatchesService.getMatches o u
  | GetTodayMatches u => MatchesService.getTodayMatches u
  | GetMatchById m u => MatchesService.getMatchById m u
  | GetHead2Head m l u => MatchesService.getHead2Head m l u
  | GetLiveMatches u => MatchesService.getLiveMatches u
  | GetScheduledMatches f t c => MatchesService.getScheduledMatches f t c
  | GetCompetitions o => CompetitionsService.getCompetitions o
  | GetCompetitionByCode c => CompetitionsService.getCompetitionByCode c
  | GetCompetitionById i => CompetitionsService.getCompetitionById i
  | GetFullCompetition c => CompetitionsService.getFullCompetition c
  | GetStandings c o => CompetitionsService.getStandings c o
  | GetCompetitionMatches c o => CompetitionsService.getMatches c o
  | GetScorers c o => CompetitionsService.getScorers c o
  | GetTeams c o => CompetitionsService.getTeams c o
  | GetTeamById i => TeamsService.getTeamById i
  | GetTeamMatches i o => TeamsService.getTeamMatches i o
  end.

(** What a reader of the request finds under a header name: the flag the
    text stands for, if the header is there. *)
Definition headerFlag (name : string) (headers : Js.value) : option bool :=
  match headers with
  | Js.VObj props =>
      match find (fun kv => String.eqb (fst kv) name) props with
      | Some (_, Js.VStr text) =>
          if String.eqb text "true" then Some true
          else if String.eqb text "false" then Some false
          else None
      | _ => None
      end
  | _ => None
  end.

(** The expansion flags a set of request headers asks for. *)
Definition flagsOf (headers : Js.value) : MatchesService.UnfoldOptions :=
  {| MatchesService.lineups := headerFlag "X-Unfold-Lineups" headers;
     MatchesService.bookings := headerFlag "X-Unfold-Bookings" headers;
     MatchesService.substitutions := headerFlag "X-Unfold-Subs" headers;
     MatchesService.goals := headerFlag "X-Unfold-Goals" headers |}.

(** The number of flags that are set, to either value. *)
Definition flagsSet (u : MatchesService.UnfoldOptions) : nat :=
  let one (x : option bool) := match x with
                               | Some _ => 1%nat
                               | None => 0%nat
                               end in
  (one (MatchesService.lineups u) + one (MatchesService.bookings u)
   + one (MatchesService.substitutions u) + one (MatchesService.goals u))%nat.

(** The properties of an object; none for any other value. *)
Definition propsOf (v : Js.value) : list (string * Js.value) :=
  match v with
  | Js.VObj props => props
  | _ => []
  end.

(** A value that says something: a number, or a text that is not empty. *)
Definition meaningful (v : Js.value) : bool :=
  match v with
  | Js.VNum _ => true
  | Js.VStr t => negb (String.eqb t "")
  | _ => false
  end.

(** An upstream whose first answer is the failure [e] and whose every
    later answer is the response [r]. *)
Definition flaky (e : Axios.AxiosError) (r : Axios.AxiosResponse)
  : Axios.Network :=
  fun n _ => match n with
             | O => Axios.Failed e
             | S _ => Axios.Fulfilled r
             end.

End Services.

(** ** The hook calls whose key parameter is missing *)

Module MissingKey.

Definition isNone {A : Type} (x : option A) : bool :=
  match x with
  | Some _ => false
  | None => true
  end.

(** The call passes [null] for the id or code its query is about. *)
Definition missingKey (c : Hooks.Call) : bool :=
  match c with
  | Hooks.UseMatchById m _ _ => isNone m
  | Hooks.UseHead2Head m _ _ _ => isNone m
  | Hooks.UseCompetitionByCode code _ => isNone code
  | Hooks.UseCompetitionById id _ => isNone id
  | Hooks.UseFullCompetition code _ => isNone code
  | Hooks.UseStandings code _ _ => isNone code
  | Hooks.UseScorers code _ _ => isNone code
  | Hooks.UseTeams code _ _ => isNone code
  | Hooks.UseCompetitionMatches code _ _ => isNone code
  | Hooks.UseTeam id _ => isNone id
  | Hooks.UseTeamMatches id _ _ => isNone id
  | _ => false
  end.

End MissingKey.

(** ** What the pages show *)

Module Views.

(** [error.message] of what a query failed with. *)
Definition errorMessage (t : Axios.Thrown) : string :=
  match t with
  | Axios.ApiFailure c => Axios.custom_message c
  | Axios.JsError msg => msg
  end.

(** [error instanceof Error]: the interceptor rejects with a plain object,
    a [throw new Error(...)] with an [Error]. *)
Definition instanceofError (t : Axios.Thrown) : bool :=
  match t with
  | Axios.ApiFailure _ => false
  | Axios.JsError _ => true
  end.

(** [error.message || fallback]. *)
Definition messageOr (t : Axios.Thrown) (fallback : string) : string :=
  if String.eqb (errorMessage t) "" then fallback else errorMessage t.

(** The three things a detail page returns. *)
Inductive View :=
| LoadingView (message : string)
| ErrorView (message : string)
| ContentView (data : Js.value).

End Views.

(** ** pages/CompetitionDetail.tsx: the returned view *)

Module CompetitionDetailView.
Import Views.

Definition fallback : string :=
  "No se pudo cargar la información de la competición".

(** The early returns of the component, on what [useFullCompetition]
    returned in this render. *)
Definition render (parent : ReactQuery.UseQueryResult) : View :=
  if ReactQuery.isLoading parent
  then LoadingView "Cargando información de la competición..."
  else match ReactQuery.result_error parent, ReactQuery.result_data parent with
       | Some e, _ => ErrorView (messageOr e fallback)
       | None, None => ErrorView fallback
       | None, Some competition =>
           if Js.truthy competition then ContentView competition
           else ErrorView fallback
       end.

End CompetitionDetailView.

(** ** pages/MatchDetail.tsx *)

Module MatchDetail.
Import Views.

(** The flags the page asks for: all four set. *)
Definition allUnfold : MatchesService.UnfoldOptions :=
  {| MatchesService.lineups := Some true;
     MatchesService.bookings := Some true;
     MatchesService.substitutions := Some true;
     MatchesService.goals := Some true |}.

(** [useMatchById(Number(id), {...})]; [matchId] is [Number(id)], [None]
    when that is not a number. *)
Definition matchQuery (matchId : option Z) : ReactQuery.QueryOptions :=
  UseMatches.useMatchById matchId allUnfold true.

(** [useHead2Head(Number(id))] with the defaults of the hook. *)
Definition h2hQuery (matchId : option Z) : ReactQuery.QueryOptions :=
  UseMatches.useHead2Head matchId 10 MatchesService.noUnfold true.

Definition fallback : string :=
  "No se pudo cargar la información del partido".

(** The early returns of the component, on what [useMatchById] returned. *)
Definition render (result : ReactQuery.UseQueryResult) : View :=
  match ReactQuery.result_error result with
  | Some e =>
      ErrorView (if instanceofError e then errorMessage e else fallback)
  | None =>
      if ReactQuery.isLoading result
         || negb (CompetitionDetail.present (ReactQuery.result_data result))
      then LoadingView "Cargando información del partido..."
      else match ReactQuery.result_data result with
           | Some m => ContentView m
           | None => LoadingView "Cargando información del partido..."
           end
  end.

End MatchDetail.

(** ** pages/TeamDetail.tsx *)

Module TeamDetail.
Import Views.

(** The options of the two match lists: the last finished and the next
    scheduled matches, five of each. *)
Definition listOptions (st : MatchesService.StatusFilter)
  : TeamsService.GetTeamMatchesOptions :=
  {| TeamsService.dateFrom := None; TeamsService.dateTo := None;
     TeamsService.season := None; TeamsService.competitions := None;
     TeamsService.status := Some st; TeamsService.venue := None;
     TeamsService.limit := Some 5 |}.

Record Queries := {
  teamQuery : ReactQuery.QueryOptions;
  lastMatchesQuery : ReactQuery.QueryOptions;
  nextMatchesQuery : ReactQuery.QueryOptions
}.

(** The hook calls of one render: [teamId] is the parsed route parameter,
    [None] when it is missing or not a number, and [parent] what [useTeam]
    returned in this render. *)
Definition queries (teamId : option Z) (parent : ReactQuery.UseQueryResult)
  : Queries :=
  let team := ReactQuery.result_data parent in
  {| teamQuery := UseTeamDetail.useTeam teamId true;
     lastMatchesQuery :=
       UseTeamDetail.useTeamMatches
         teamId (Some (listOptions MatchesService.FINISHED))
         (Js.truthy_num teamId && CompetitionDetail.present team);
     nextMatchesQuery :=
       UseTeamDetail.useTeamMatches
         teamId (Some (listOptions MatchesService.SCHEDULED))
         (Js.truthy_num teamId && CompetitionDetail.present team) |}.

Definition fallback : string :=
  "No se pudo cargar la información del equipo".

Definition render (parent : ReactQuery.UseQueryResult) : View :=
  if ReactQuery.isLoading parent
  then LoadingView "Cargando información del equipo..."
  else match ReactQuery.result_error parent, ReactQuery.result_data parent with
       | Some e, _ => ErrorView (messageOr e fallback)
       | None, None => ErrorView fallback
       | None, Some team =>
           if Js.truthy team then ContentView team else ErrorView fallback
       end.

End TeamDetail.

(** ** pages/Home.tsx *)

Module Home.
Import Views.

(** The flags the page asks for: goals only. *)
Definition unfold : MatchesService.UnfoldOptions :=
  {| MatchesService.lineups := Some false;
     MatchesService.bookings := Some false;
     MatchesService.substitutions := Some false;
     MatchesService.goals := Some true |}.

Definition query : ReactQuery.QueryOptions :=
  UseMatches.useTodayMatches unfold true.

(** The three conditional blocks of the page: the loading panel, the error
    panel with its message, and the list with the data it shows. *)
Record Sections := {
  loading : bool;
  errorPanel : option string;
  list : option Js.value
}.

Definition fallback : string :=
  "No se pudieron cargar los partidos. Verifica tu conexión a internet.".

Definition render (result : ReactQuery.UseQueryResult) : Sections :=
  {| loading := ReactQuery.isLoading result;
     errorPanel :=
       match ReactQuery.result_error result with
       | Some e => Some (messageOr e fallback)
       | None => None
       end;
     list :=
       match ReactQuery.result_data result with
       | Some data =>
           if Js.truthy data && negb (ReactQuery.isLoading result)
           then Some data else None
       | None => None
       end |}.

End Home.

(** ** components/teams/SquadTable.tsx *)

Module SquadTable.

(** The fields of a [SquadPlayer] that the grouping reads, with the
    identifying ones. *)
Record SquadPlayer := {
  player_id : Z;
  name : string;
  position : option string
}.

(** A word character of a regular expression: a letter, a digit or the
    underscore. *)
Definition isWord (c : ascii) : bool :=
  let n := N_of_ascii c in
  ((48 <=? n) && (n <=? 57) || (65 <=? n) && (n <=? 90)
   || (97 <=? n) && (n <=? 122) || (n =? 95))%N.

(** [toLowerCase] on a text of ASCII characters. *)
Definition lower (c : ascii) : ascii :=
  let n := N_of_ascii c in
  if ((65 <=? n) && (n <=? 90))%N then ascii_of_N (n + 32) else c.

Fixpoint toLowerCase (s : string) : string :=
  match s with
  | EmptyString => EmptyString
  | String c rest => String (lower c) (toLowerCase rest)
  end.

(** White space of ASCII: tab, line feed, vertical tab, form feed,
    carriage return and space. *)
Definition isSpace (c : ascii) : bool :=
  let n := N_of_ascii c in
  ((9 <=? n) && (n <=? 13) || (n =? 32))%N.

Fixpoint trimStart (s : string) : string :=
  match s with
  | EmptyString => EmptyString
  | String c rest => if isSpace c then trimStart rest else s
  end.

(** The text without its trailing white space. *)
Fixpoint trimEnd (s : string) : string :=
  match s with
  | EmptyString => EmptyString
  | String c rest =>
      match trimEnd rest with
      | EmptyString => if isSpace c then EmptyString else String c EmptyString
      | kept => String c kept
      end
  end.

Definition trim (s : string) : string := trimEnd (trimStart s).

(** What is left of [s] after the literal [alt], if [s] begins with it. *)
Fixpoint after (alt s : string) : option string :=
  match alt, s with
  | EmptyString, _ => Some s
  | String a alt', String c s' => if Ascii.eqb a c then after alt' s' else None
  | String _ _, EmptyString => None
  end.

(** A word boundary before a text that goes on with a non-word character
    or ends. *)
Definition boundary (rest : string) : bool :=
  match rest with
  | EmptyString => true
  | String c _ => negb (isWord c)
  end.

(** [\b(alt1|alt2|...)\b] matched at the start of [s], the character
    before it being [prev].  Every alternative of the four expressions
    begins and ends with a letter, so the boundaries ask for a non-word
    character, or the end of the text, on either side. *)
Definition matchHere (alts : list string) (prev : option ascii) (s : string)
  : bool :=
  match prev with
  | Some c => negb (isWord c)
  | None => true
  end
  && existsb (fun alt => match after alt s with
                         | Some rest => boundary rest
                         | None => false
                         end) alts.

Fixpoint testFrom (alts : list string) (prev : option ascii) (s : string)
  : bool :=
  matchHere alts prev s
  || match s with
     | EmptyString => false
     | String c rest => testFrom alts (Some c) rest
     end.

(** [re.test(s)] for [re = /\b(alt1|alt2|...)\b/i] on a lower-case text. *)
Definition test (alts : list string) (s : string) : bool :=
  testFrom alts None s.

Definition reGoal : list string :=
  ["goalkeeper"; "goalie"; "keeper"]%string.

Definition reDefence : list string :=
  ["centre-back"; "centre back"; "center-back"; "center back"; "right-back";
   "left-back"; "right back"; "left back"; "full-back"; "full back"; "back";
   "defence"; "defender"; "defense"]%string.

Definition reMid : list string :=
  ["attacking midfield"; "attacking-midfield"; "defensive midfield";
   "defensive-midfield"; "midfield"; "midfielder"; "central midfield";
   "central-midfield"; "mid"]%string.

Definition reOff : list string :=
  ["centre-forward"; "centre forward"; "center-forward"; "center forward";
   "right winger"; "left winger"; "right-winger"; "left-winger"; "winger";
   "wing"; "forward"; "striker"; "attacker"; "offence"; "offensive"]%string.

Definition normalizePosition (pos : option string) : string :=
  if Js.truthy_str pos
  then let p := trim (toLowerCase (match pos with
                                   | Some t => t
                                   | None => EmptyString
                                   end)) in
       if test reGoal p then "Goalkeeper"
       else if test reDefence p then "Defence"
       else if test reMid p then "Midfield"
       else if test reOff p then "Offence"
       else "Unknown"
  else "Unknown".

(** [position ? squad.filter(p => p.position === position) : squad]. *)
Definition filteredSquad (squad : list SquadPlayer) (wanted : option string)
  : list SquadPlayer :=
  if Js.truthy_str wanted
  then filter (fun player =>
                 match position player, wanted with
                 | Some a, Some b => String.eqb a b
                 | _, _ => false
                 end) squad
  else squad.

(** The object [acc] of the reducer: its keys in insertion order, each with
    its array of players. *)
Definition Groups := list (string * list SquadPlayer).

Fixpoint lookup (pos : string) (acc : Groups) : option (list SquadPlayer) :=
  match acc with
  | [] => None
  | (k, players) :: rest =>
      if String.eqb k pos then Some players else lookup pos rest
  end.

(** [if (!acc[pos]) acc[pos] = []; acc[pos].push(player)]. *)
Fixpoint push (pos : string) (player : SquadPlayer) (acc : Groups) : Groups :=
  match acc with
  | [] => [(pos, [player])]
  | (k, players) :: rest =>
      if String.eqb k pos then (k, players ++ [player]) :: rest
      else (k, players) :: push pos player rest
  end.

(** [player.position || null]. *)
Definition groupedSquad (players : list SquadPlayer) : Groups :=
  fold_left (fun acc player =>
               push (normalizePosition (Js.str_or_null (position player)))
                    player acc)
            players [].

Definition positionOrder : list string :=
  ["Goalkeeper"; "Defence"; "Midfield"; "Offence"; "Unknown"]%string.

(** The groups the table shows, top to bottom: those of [positionOrder]
    that have a player. *)
Definition shownGroups (squad : list SquadPlayer) (wanted : option string)
  : Groups :=
  flat_map (fun pos =>
              match lookup pos (groupedSquad (filteredSquad squad wanted)) with
              | Some (p :: ps) => [(pos, p :: ps)]
              | _ => []
              end) positionOrder.

(** The group a player belongs to. *)
Definition groupOf (player : SquadPlayer) : string :=
  normalizePosition (Js.str_or_null (position player)).

(** The players filed under a key; none when the key is not there. *)
Definition members (pos : string) (acc : Groups) : list SquadPlayer :=
  match lookup pos acc with
  | Some players => players
  | None => []
  end.

End SquadTable.

(** * Theorems *)

(** ** The timeline merge *)

Section SortFacts.
Import MatchTimeline.

Lemma insert_perm (x : TimelineEvent) (l : list TimelineEvent) :
  Permutation (Js.insert byMinute x l) (x :: l).
Proof.
  induction l as [|y ys IH]; simpl; [reflexivity|].
  destruct (byMinute x y <=? 0); [reflexivity|].
  rewrite IH. apply perm_swap.
Qed.

Lemma sort_perm (l : list TimelineEvent) :
  Permutation (Js.sort byMinute l) l.
Proof.
  induction l as [|x xs IH]; simpl; [constructor|].
  rewrite insert_perm. now constructor.
Qed.

Lemma insert_ascending (x : TimelineEvent) (l : list TimelineEvent) :
  ascending l -> ascending (Js.insert byMinute x l).
Proof.
  unfold ascending.
  induction l as [|y ys IH]; simpl; intros Hs.
  - constructor; constructor.
  - destruct (Z.leb_spec (byMinute x y) 0) as [Hle|Hgt]; unfold byMinute in *.
    + constructor; [assumption|].
      inversion Hs as [|? ? _ Hall]; subst.
      constructor; [lia|].
      eapply Forall_impl; [|exact Hall]. simpl. intros; lia.
    + inversion Hs as [|? ? Hys Hall]; subst.
      constructor; [now apply IH|].
      eapply Permutation_Forall; [symmetry; apply insert_perm|].
      constructor; [lia|assumption].
Qed.

Lemma sort_ascending (l : list TimelineEvent) :
  ascending (Js.sort byMinute l).
Proof.
  induction l as [|x xs IH]; simpl.
  - constructor.
  - now apply insert_ascending.
Qed.

Lemma atMinute_insert (k : Z) (x : TimelineEvent) (l : list TimelineEvent) :
  atMinute k (Js.insert byMinute x l) = atMinute k (x :: l).
Proof.
  unfold atMinute.
  induction l as [|y ys IH]; simpl; [reflexivity|].
  destruct (Z.leb_spec (byMinute x y) 0) as [Hle|Hgt]; [reflexivity|].
  simpl. rewrite IH. simpl. unfold byMinute in Hgt.
  destruct (Z.eqb_spec (minute x) k), (Z.eqb_spec (minute y) k);
    try reflexivity; lia.
Qed.

Lemma atMinute_sort (k : Z) (l : list TimelineEvent) :
  atMinute k (Js.sort byMinute l) = atMinute k l.
Proof.
  induction l as [|x xs IH]; simpl; [reflexivity|].
  rewrite atMinute_insert. unfold atMinute in *. simpl. now rewrite IH.
Qed.

Lemma sort_of_ascending (l : list TimelineEvent) :
  ascending l -> Js.sort byMinute l = l.
Proof.
  unfold ascending.
  induction l as [|x xs IH]; simpl; intros Hs; [reflexivity|].
  inversion Hs as [|? ? Hxs Hall]; subst.
  rewrite (IH Hxs).
  destruct xs as [|y ys]; simpl; [reflexivity|].
  inversion Hall as [|? ? Hxy _]; subst.
  unfold byMinute.
  destruct (Z.leb_spec (minute x - minute y) 0); [reflexivity|lia].
Qed.

Lemma atMinute_nil_all (l : list TimelineEvent) :
  (forall k, atMinute k l = []) -> l = [].
Proof.
  destruct l as [|y ys]; [reflexivity|].
  intros H. specialize (H (minute y)). unfold atMinute in H. simpl in H.
  rewrite Z.eqb_refl in H. discriminate.
Qed.

Lemma atMinute_In (k : Z) (x : TimelineEvent) (l r : list TimelineEvent) :
  atMinute k l = x :: r -> In x l /\ minute x = k.
Proof.
  intros H.
  assert (Hin : In x (atMinute k l)) by (rewrite H; now left).
  unfold atMinute in Hin. apply filter_In in Hin.
  destruct Hin as [Hin Hk]. split; [assumption|now apply Z.eqb_eq].
Qed.

(** Two ascending lists that agree minute by minute are the same list:
    the stably sorted arrangement of an array is unique. *)
Lemma ascending_determined (l1 : list TimelineEvent) :
  forall l2, ascending l1 -> ascending l2 ->
             (forall k, atMinute k l1 = atMinute k l2) -> l1 = l2.
Proof.
  unfold ascending.
  induction l1 as [|x xs IH]; intros l2 H1 H2 Hk.
  - symmetry. apply atMinute_nil_all. intros k. now rewrite <- Hk.
  - destruct l2 as [|y ys].
    + apply atMinute_nil_all. intros k. now rewrite Hk.
    + inversion H1 as [|? ? Hxs Hx]; subst.
      inversion H2 as [|? ? Hys Hy]; subst.
      assert (Hxy : minute x <= minute y).
      { pose proof (Hk (minute y)) as E. unfold atMinute in E. simpl in E.
        rewrite (Z.eqb_refl (minute y)) in E.
        destruct (Z.eqb_spec (minute x) (minute y)) as [->|_]; [lia|].
        apply atMinute_In in E. destruct E as [Hin _].
        rewrite Forall_forall in Hx. now apply Hx. }
      assert (Hyx : minute y <= minute x).
      { pose proof (Hk (minute x)) as E. unfold atMinute in E. simpl in E.
        rewrite (Z.eqb_refl (minute x)) in E.
        destruct (Z.eqb_spec (minute y) (minute x)) as [->|_]; [lia|].
        symmetry in E. apply atMinute_In in E. destruct E as [Hin _].
        rewrite Forall_forall in Hy. now apply Hy. }
      assert (Hm : minute x = minute y) by lia.
      assert (Hhd : x = y).
      { pose proof (Hk (minute x)) as E. unfold atMinute in E. simpl in E.
        rewrite Z.eqb_refl in E. rewrite <- Hm in E.
        rewrite Z.eqb_refl in E. now inversion E. }
      subst y. f_equal. apply IH; try assumption.
      intros k. specialize (Hk k). unfold atMinute in *. simpl in Hk.
      destruct (minute x =? k); [now inversion Hk|assumption].
Qed.

(** Any arrangement of [l] that is ascending by minute and keeps the
    events of each minute in their order in [l] is [Js.sort byMinute l]. *)
Lemma stable_sort_unique (l l' : list TimelineEvent) :
  ascending l' -> (forall k, atMinute k l' = atMinute k l) ->
  l' = Js.sort byMinute l.
Proof.
  intros Hs Hk. apply ascending_determined; [assumption|apply sort_ascending|].
  intros k. now rewrite Hk, atMinute_sort.
Qed.

End SortFacts.

Section Timeline.
Import MatchTimeline.

Lemma collectEvents_sourceOrder (m : Match) :
  collectEvents m = sourceOrder m.
Proof.
  unfold collectEvents, sourceOrder, Js.push_each, eventsOf.
  destruct (goals m), (bookings m), (substitutions m); simpl;
    rewrite ?app_nil_r, <- ?app_assoc; reflexivity.
Qed.

(** C4. The timeline merge is deterministic and idempotent: its output
    depends on the three event lists only, and sorting the output again
    leaves it unchanged.  Events with the same effective minute keep source
    precedence (goals, then bookings, then substitutions, each in insertion
    order): at every minute the output holds the events of that minute in
    the order in which the lists give them.  A goal and a booking that both
    sit at minute 10 come out as the goal followed by the booking. *)
Theorem timeline_merge_deterministic_stable
        (m : Match) (g : Goal) (b : Booking)
        (id1 id2 : Z) (st1 st2 : MatchStatus) :
  goal_minute g + Js.num_or (injuryTime g) 0 = 10 ->
  booking_minute b = 10 ->
  getTimelineEvents
    {| match_id := id1; status := st1; goals := goals m;
       bookings := bookings m; substitutions := substitutions m |}
  = getTimelineEvents
      {| match_id := id2; status := st2; goals := goals m;
         bookings := bookings m; substitutions := substitutions m |}
  /\ Js.sort byMinute (getTimelineEvents m) = getTimelineEvents m
  /\ (forall k, atMinute k (getTimelineEvents m) = atMinute k (sourceOrder m))
  /\ getTimelineEvents
       {| match_id := id1; status := st1; goals := Some [g];
          bookings := Some [b]; substitutions := Some [] |}
     = [goalEvent g; bookingEvent b].
Proof.
  intros Hg Hb.
  split; [reflexivity|].
  split; [apply sort_of_ascending, sort_ascending|].
  split.
  - intros k. unfold getTimelineEvents.
    now rewrite atMinute_sort, collectEvents_sourceOrder.
  - unfold getTimelineEvents, collectEvents, Js.push_each. simpl.
    unfold byMinute. simpl. rewrite Hg, Hb. reflexivity.
Qed.

(** C5. The timeline merge orders the events ascending by effective minute:
    the output is a rearrangement of the events of the three lists in which
    no event is followed by one of a smaller minute; the minute of a goal
    is its nominal minute plus its additional time (0 when absent), that of
    a booking or a substitution its nominal minute.  A goal at minute 45
    with additional time 2 comes after a booking at minute 46 and before a
    booking at minute 48, whichever way the bookings are listed. *)
Theorem timeline_merge_ascending
        (m : Match) (g : Goal) (b46 b48 : Booking)
        (id : Z) (st : MatchStatus) :
  goal_minute g = 45 -> injuryTime g = Some 2 ->
  booking_minute b46 = 46 -> booking_minute b48 = 48 ->
  ascending (getTimelineEvents m)
  /\ Permutation (getTimelineEvents m) (sourceOrder m)
  /\ (forall g', minute (goalEvent g')
                 = goal_minute g' + match injuryTime g' with
                                    | Some t => t
                                    | None => 0
                                    end)
  /\ (forall b', minute (bookingEvent b') = booking_minute b')
  /\ (forall s', minute (substitutionEvent s') = sub_minute s')
  /\ getTimelineEvents
       {| match_id := id; status := st; goals := Some [g];
          bookings := Some [b46; b48]; substitutions := None |}
     = [bookingEvent b46; goalEvent g; bookingEvent b48]
  /\ getTimelineEvents
       {| match_id := id; status := st; goals := Some [g];
          bookings := Some [b48; b46]; substitutions := None |}
     = [bookingEvent b46; goalEvent g; bookingEvent b48].
Proof.
  intros Hm Hi H46 H48.
  split; [apply sort_ascending|].
  split.
  { unfold getTimelineEvents. rewrite sort_perm.
    now rewrite collectEvents_sourceOrder. }
  split.
  { intros g'. simpl. unfold Js.num_or.
    destruct (injuryTime g') as [t|]; [|reflexivity].
    destruct (Z.eqb_spec t 0); [subst|]; reflexivity. }
  split; [reflexivity|].
  split; [reflexivity|].
  split.
  - destruct g, b46, b48; simpl in *; subst; reflexivity.
  - destruct g, b46, b48; simpl in *; subst; reflexivity.
Qed.

Lemma timeline_merge_deterministic_stable_witness :
  getTimelineEvents
    {| match_id := 1; status := FINISHED; goals := Some [Sample.goalAt 10 None];
       bookings := Some [Sample.bookingAt 10]; substitutions := Some [] |}
  = [goalEvent (Sample.goalAt 10 None); bookingEvent (Sample.bookingAt 10)].
Proof.
  apply (timeline_merge_deterministic_stable
           Sample.finished (Sample.goalAt 10 None) (Sample.bookingAt 10)
           1 2 FINISHED IN_PLAY); reflexivity.
Defined.

Lemma timeline_merge_ascending_witness :
  getTimelineEvents
    {| match_id := 1; status := FINISHED;
       goals := Some [Sample.goalAt 45 (Some 2)];
       bookings := Some [Sample.bookingAt 46; Sample.bookingAt 48];
       substitutions := None |}
  = [bookingEvent (Sample.bookingAt 46); goalEvent (Sample.goalAt 45 (Some 2));
     bookingEvent (Sample.bookingAt 48)].
Proof.
  apply (timeline_merge_ascending
           Sample.finished (Sample.goalAt 45 (Some 2)) (Sample.bookingAt 46)
           (Sample.bookingAt 48) 1 FINISHED); reflexivity.
Defined.

End Timeline.

(** ** The HTTP client *)

Section Client.
Import Axios.

Lemma interceptor_cases (e : AxiosError) :
  match response e with
  | None => type (responseErrorInterceptor e) = NETWORK_ERROR
            /\ custom_status (responseErrorInterceptor e) = None
  | Some r =>
      (400 <= status r < 500
       /\ type (responseErrorInterceptor e) = CLIENT_ERROR
       /\ custom_status (responseErrorInterceptor e) = Some (status r))
      \/ (500 <= status r
          /\ type (responseErrorInterceptor e) = SERVER_ERROR
          /\ custom_status (responseErrorInterceptor e) = Some (status r))
      \/ (status r < 400
          /\ type (responseErrorInterceptor e) = UNKNOWN_ERROR
          /\ custom_status (responseErrorInterceptor e) = None)
  end.
Proof.
  unfold responseErrorInterceptor.
  destruct (response e) as [r|]; [|split; reflexivity].
  destruct (Z.geb_spec (status r) 400), (Z.ltb_spec (status r) 500); simpl.
  - left. repeat split; lia.
  - right; left. destruct (Z.geb_spec (status r) 500); [|lia].
    repeat split; lia.
  - right; right. destruct (Z.geb_spec (status r) 500); [lia|].
    repeat split; lia.
  - lia.
Qed.

(** C1. Every failed request is rejected with exactly one structured error,
    the value of the response interceptor on the failure, and its type is
    fixed by the failure: NETWORK_ERROR exactly when no response reached
    the client (whatever the cause: connectivity, a timeout), CLIENT_ERROR
    exactly when the response status lies in [400, 500), SERVER_ERROR
    exactly when it is 500 or more, UNKNOWN_ERROR exactly in the remaining
    case (a response with a status below 400).  The client and server kinds
    carry the status, the other two carry none. *)
Theorem failure_classification
        (e : AxiosError) (net : Network) (w : World)
        (u : string) (p h : option Js.value) :
  let c := responseErrorInterceptor e in
  let request := {| url := u; params := p; headers := h |} in
  type (responseErrorInterceptor Sample.timedOut) = NETWORK_ERROR
  /\ (net (List.length (sent w)) request = Failed e <->
   get u p h net w
   = (inl (ApiFailure c), {| sent := sent w ++ [request]; slept := slept w |}))
  /\ originalError c = e
  /\ (type c = NETWORK_ERROR <-> response e = None)
  /\ (type c = CLIENT_ERROR <->
      exists r, response e = Some r /\ 400 <= status r < 500)
  /\ (type c = SERVER_ERROR <->
      exists r, response e = Some r /\ 500 <= status r)
  /\ (type c = UNKNOWN_ERROR <->
      exists r, response e = Some r /\ status r < 400)
  /\ custom_status c
     = match type c, response e with
       | CLIENT_ERROR, Some r | SERVER_ERROR, Some r => Some (status r)
       | _, _ => None
       end.
Proof.
  intros c request. subst c.
  split; [reflexivity|].
  split.
  { unfold get. fold request. split.
    - intros ->. reflexivity.
    - destruct (net (List.length (sent w)) request) as [r|e'] eqn:E;
        [discriminate|].
      intros H. inversion H as [H1].
      assert (He : originalError (responseErrorInterceptor e')
                   = originalError (responseErrorInterceptor e))
        by now rewrite H1.
      assert (Ho : forall x, originalError (responseErrorInterceptor x) = x).
      { intros x. unfold responseErrorInterceptor.
        destruct (response x) as [r|]; [|reflexivity].
        destruct ((status r >=? 400) && (status r <? 500));
          [reflexivity|].
        destruct (status r >=? 500); reflexivity. }
      rewrite !Ho in He. now subst. }
  split.
  { unfold responseErrorInterceptor.
    destruct (response e) as [r|]; [|reflexivity].
    destruct ((status r >=? 400) && (status r <? 500)); [reflexivity|].
    destruct (status r >=? 500); reflexivity. }
  pose proof (interceptor_cases e) as H.
  destruct (response e) as [r|].
  - destruct H as [(Hr & -> & ->)|[(Hr & -> & ->)|(Hr & -> & ->)]];
      repeat split; try discriminate; try reflexivity;
        try (intros (r' & Hr' & Hs); inversion Hr'; subst; lia);
        try (intros _; exists r; split; [reflexivity|lia]).
  - destruct H as [-> ->].
    repeat split; try discriminate; try reflexivity;
      intros (r' & Hr' & _); discriminate.
Qed.

End Client.

(** ** The matches service *)

Section Service.
Import Axios MatchesService.

Lemma getMatches_sends (o : GetMatchesOptions) (u : UnfoldOptions)
      (net : Network) (w : World) :
  sent (snd (getMatches o u net w))
  = sent w ++ [{| url := "/matches"; params := Some (optionsValue o);
                  headers := Some (unfoldHeaders u) |}].
Proof.
  unfold getMatches, await, get, resolve.
  destruct (net _ _); reflexivity.
Qed.

(** C9. For every unfold-options value [u], [getLiveMatches u] is
    [getMatches {status: 'IN_PLAY'} u]: run against any network it sends
    exactly one request, [GET /matches] with the single parameter
    [status=IN_PLAY] and the expansion headers of [u].  The status asked
    for is [IN_PLAY] and not [PAUSED], although the match card counts a
    match in either state as live. *)
Theorem live_matches_request
        (u : UnfoldOptions) (net : Network) (w : World)
        (id : Z) (gs : option (list Goal)) (bs : option (list Booking))
        (ss : option (list Substitution)) :
  getLiveMatches u = getMatches (onlyStatus IN_PLAY) u
  /\ sent (snd (getLiveMatches u net w)) = sent w ++ [Spec.liveRequest u]
  /\ sent (snd (getMatches (onlyStatus IN_PLAY) u net w))
     = sent w ++ [Spec.liveRequest u]
  /\ status (onlyStatus IN_PLAY) = Some IN_PLAY
  /\ String.eqb (status_name IN_PLAY) (status_name PAUSED) = false
  /\ MatchCard.isLive
       {| Types.match_id := id; Types.status := Types.PAUSED;
          Types.goals := gs; Types.bookings := bs;
          Types.substitutions := ss |} = true
  /\ MatchCard.isLive
       {| Types.match_id := id; Types.status := Types.IN_PLAY;
          Types.goals := gs; Types.bookings := bs;
          Types.substitutions := ss |} = true.
Proof.
  repeat split; try reflexivity.
  - unfold getLiveMatches. now rewrite getMatches_sends.
  - now rewrite getMatches_sends.
Qed.

(** C10. For every unfold-options value [u], [getTodayMatches u] is
    [getMatches {} u]: run against any network it sends exactly one
    request, [GET /matches] with an empty parameter object and the
    expansion headers of [u]; in particular the request has no [date]
    parameter. *)
Theorem today_matches_request
        (u : UnfoldOptions) (net : Network) (w : World) :
  getTodayMatches u = getMatches noOptions u
  /\ sent (snd (getTodayMatches u net w)) = sent w ++ [Spec.todayRequest u]
  /\ optionsValue noOptions = Js.VObj []
  /\ date noOptions = None.
Proof.
  repeat split; try reflexivity.
  unfold getTodayMatches. now rewrite getMatches_sends.
Qed.

(** The expectations of the repository's service tests, on the model. *)

Example getMatches_unfold_headers (net : Network) :
  sent (snd (getMatches noOptions
                        {| lineups := Some true; bookings := Some false;
                           substitutions := None; goals := Some true |}
                        net start))
  = [{| url := "/matches";
        params := Some (Js.VObj []);
        headers := Some (Js.VObj [("X-Unfold-Lineups"%string, Js.VStr "true");
                                  ("X-Unfold-Bookings"%string, Js.VStr "false");
                                  ("X-Unfold-Goals"%string, Js.VStr "true")]) |}].
Proof. now rewrite getMatches_sends. Qed.

Example getHead2Head_limit (net : Network) :
  sent (snd (getHead2Head 327291 5 noUnfold net start))
  = [{| url := "/matches/327291/head2head";
        params := Some (Js.VObj [("limit"%string, Js.VNum 5)]);
        headers := Some (Js.VObj []) |}].
Proof.
  unfold getHead2Head, await, get, resolve. destruct (net _ _); reflexivity.
Qed.

Example getCompetitions_areas (net : Network) :
  sent (snd (CompetitionsService.getCompetitions
               {| CompetitionsService.areas := Some "2077,2088"%string |}
               net start))
  = [{| url := "/competitions?areas=2077%2C2088"; params := None;
        headers := None |}].
Proof.
  unfold CompetitionsService.getCompetitions, CompetitionsService.fetch,
    await, get, resolve.
  destruct (net _ _); reflexivity.
Qed.

Example getTeamMatches_filters (net : Network) :
  sent (snd (TeamsService.getTeamMatches
               (Some 86)
               {| TeamsService.dateFrom := None; TeamsService.dateTo := None;
                  TeamsService.season := None;
                  TeamsService.competitions := None;
                  TeamsService.status := Some FINISHED;
                  TeamsService.venue := Some TeamsService.HOME;
                  TeamsService.limit := Some 5 |}
               net start))
  = [{| url := "/teams/86/matches";
        params := Some (Js.VObj [("status"%string, Js.VStr "FINISHED");
                                 ("venue"%string, Js.VStr "HOME");
                                 ("limit"%string, Js.VNum 5)]);
        headers := None |}].
Proof.
  unfold TeamsService.getTeamMatches, await, get, resolve.
  destruct (net _ _); reflexivity.
Qed.

End Service.

(** ** Cache keys *)

Section CacheKeys.
Import MatchesService ReactQuery KeyText.

Lemma append_cancel_l (p a b : string) :
  (p ++ a)%string = (p ++ b)%string -> a = b.
Proof.
  induction p as [|c p IH]; simpl; intros H; [assumption|].
  inversion H. now apply IH.
Qed.

Lemma append_assoc (a b c : string) :
  ((a ++ b) ++ c)%string = (a ++ (b ++ c))%string.
Proof.
  induction a as [|x a IH]; simpl; [reflexivity|]. now rewrite IH.
Qed.

Lemma concat_snoc (sep : string) (l : list string) (x : string) :
  String.concat sep (l ++ [x])
  = match l with
    | [] => x
    | _ => (String.concat sep l ++ sep ++ x)%string
    end.
Proof.
  induction l as [|y l IH]; [reflexivity|].
  destruct l as [|z l]; [reflexivity|].
  change (String.concat sep ((y :: z :: l) ++ [x]))
    with (y ++ sep ++ String.concat sep ((z :: l) ++ [x]))%string.
  rewrite IH.
  change (String.concat sep (y :: z :: l))
    with (y ++ sep ++ String.concat sep (z :: l))%string.
  now rewrite !append_assoc.
Qed.

(** The hash of a key is a text fixed by all but its last item, followed
    by the text of the last item and the closing bracket. *)
Lemma hashKey_snoc (pre : list Js.value) :
  exists head : string,
    forall y, hashKey (pre ++ [y]) = (head ++ Js.item_text y ++ "]")%string.
Proof.
  destruct pre as [|p pre].
  - exists "["%string. intros y. reflexivity.
  - exists ("[" ++ String.concat "," (map Js.item_text (p :: pre)) ++ ",")%string.
    intros y. unfold hashKey.
    change (Js.stringify_sorted (Js.VArr ((p :: pre) ++ [y])))
      with (Some ("[" ++ String.concat "," (map Js.item_text ((p :: pre) ++ [y]))
                      ++ "]")%string).
    rewrite map_app. simpl map at 2. rewrite concat_snoc.
    simpl map. cbv iota. now rewrite !append_assoc.
Qed.

Lemma unfold_text_decodes :
  exists decode : string -> option UnfoldOptions,
    forall u, decode (Js.item_text (unfoldValue u) ++ "]")%string = Some u.
Proof.
  pose (flags := [None; Some true; Some false]).
  pose (all := flat_map (fun a => flat_map (fun b => flat_map (fun c =>
                 map (fun d => {| lineups := a; bookings := b;
                                  substitutions := c; goals := d |}) flags)
                 flags) flags) flags).
  exists (fun t =>
            find (fun u => String.eqb (Js.item_text (unfoldValue u) ++ "]") t)
                 all).
  intros [[[|]|] [[|]|] [[|]|] [[|]|]]; vm_compute; reflexivity.
Qed.

Lemma keys_differ_in_unfold (pre : list Js.value) (u1 u2 : UnfoldOptions) :
  hashKey (pre ++ [unfoldValue u1]) = hashKey (pre ++ [unfoldValue u2])
  <-> u1 = u2.
Proof.
  split; [|now intros ->].
  destruct (hashKey_snoc pre) as [head Hh].
  destruct unfold_text_decodes as [decode Hd].
  rewrite !Hh. intros H. apply append_cancel_l in H.
  apply (f_equal decode) in H. rewrite !Hd in H. now inversion H.
Qed.

(** *** The JSON text of a key is read back in one way only *)

Lemma unescape_escape (c : ascii) (r : string) :
  unescape (Js.json_escape c ++ r) = Some (c, r).
Proof.
  destruct c as [[|] [|] [|] [|] [|] [|] [|] [|]]; reflexivity.
Qed.

Lemma escape_all_inj (s1 : string) :
  forall s2 r1 r2,
    (Js.json_escape_all s1 ++ String Js.dquote r1)%string
    = (Js.json_escape_all s2 ++ String Js.dquote r2)%string ->
    s1 = s2 /\ r1 = r2.
Proof.
  induction s1 as [|c1 s1 IH]; intros [|c2 s2] r1 r2 H.
  - simpl in H. inversion H. now split.
  - apply (f_equal unescape) in H. simpl Js.json_escape_all in H.
    rewrite append_assoc, unescape_escape in H. discriminate.
  - apply (f_equal unescape) in H. simpl Js.json_escape_all in H.
    rewrite append_assoc, unescape_escape in H. discriminate.
  - apply (f_equal unescape) in H. simpl Js.json_escape_all in H.
    rewrite !append_assoc, !unescape_escape in H. inversion H; subst.
    destruct (IH _ _ _ H2) as [-> ->]. now split.
Qed.

Lemma quote_inj (s1 s2 r1 r2 : string) :
  (Js.json_quote s1 ++ r1)%string = (Js.json_quote s2 ++ r2)%string ->
  s1 = s2 /\ r1 = r2.
Proof.
  unfold Js.json_quote. simpl. rewrite !append_assoc. simpl.
  intros H. inversion H. now apply escape_all_inj.
Qed.


Lemma every_impl (p q : ascii -> bool) (s : string) :
  (forall c, p c = true -> q c = true) -> every p s = true -> every q s = true.
Proof.
  intros Hpq. induction s as [|c s IH]; simpl; [reflexivity|].
  intros H. apply andb_prop in H. destruct H as [Hc Hs].
  now rewrite (Hpq _ Hc), IH.
Qed.

Lemma numchar_open (c : ascii) : numchar c = true -> closes c = false.
Proof.
  destruct c as [[|] [|] [|] [|] [|] [|] [|] [|]]; simpl;
    (reflexivity || discriminate).
Qed.

(** A text without a closing character, followed by one, is read back in
    one way only. *)
Lemma token_inj (a : string) :
  forall (b : string) (c1 c2 : ascii) (r1 r2 : string),
    every (fun c => negb (closes c)) a = true ->
    every (fun c => negb (closes c)) b = true ->
    closes c1 = true -> closes c2 = true ->
    (a ++ String c1 r1)%string = (b ++ String c2 r2)%string ->
    a = b /\ c1 = c2 /\ r1 = r2.
Proof.
  induction a as [|x a IH]; intros [|y b] c1 c2 r1 r2 Ha Hb H1 H2 H;
    simpl in *.
  - inversion H. now repeat split.
  - inversion H; subst. apply andb_prop in Hb. destruct Hb as [Hb _].
    rewrite H1 in Hb. discriminate.
  - inversion H; subst. apply andb_prop in Ha. destruct Ha as [Ha _].
    rewrite H2 in Ha. discriminate.
  - inversion H; subst.
    apply andb_prop in Ha. destruct Ha as [_ Ha].
    apply andb_prop in Hb. destruct Hb as [_ Hb].
    destruct (IH _ _ _ _ _ Ha Hb H1 H2 H4) as (-> & -> & ->).
    now repeat split.
Qed.

Lemma every_uint (d : Decimal.uint) :
  every numchar (NilEmpty.string_of_uint d) = true.
Proof. induction d; simpl; auto. Qed.

Lemma every_num (n : Z) : every numchar (Js.string_of_num n) = true.
Proof.
  unfold Js.string_of_num.
  destruct (Z.to_int n) as [d|d]; simpl;
    destruct d; try reflexivity; apply every_uint.
Qed.

Lemma every_num_open (n : Z) :
  every (fun c => negb (closes c)) (Js.string_of_num n) = true.
Proof.
  apply (every_impl numchar); [|apply every_num].
  intros c H. now rewrite (numchar_open _ H).
Qed.

Lemma string_of_num_inj (n1 n2 : Z) :
  Js.string_of_num n1 = Js.string_of_num n2 -> n1 = n2.
Proof.
  unfold Js.string_of_num. intros H.
  apply (f_equal NilZero.int_of_string) in H.
  rewrite !NilZero.isi in H;
    try (destruct n1; simpl; intros E; inversion E;
         now apply Unsigned.to_uint_nonnil in H1);
    try (destruct n2; simpl; intros E; inversion E;
         now apply Unsigned.to_uint_nonnil in H1).
  inversion H. now apply to_int_inj.
Qed.

(** The text of a string or of a number, followed by a closing character,
    is the text of that value only. *)
Lemma scalar_inj (v1 v2 : Js.value) (c1 c2 : ascii) (r1 r2 : string) :
  scalar v1 = true -> scalar v2 = true ->
  closes c1 = true -> closes c2 = true ->
  (Js.item_text v1 ++ String c1 r1)%string
  = (Js.item_text v2 ++ String c2 r2)%string ->
  v1 = v2 /\ c1 = c2 /\ r1 = r2.
Proof.
  intros S1 S2 H1 H2.
  destruct v1 as [| | |n1|s1| |]; try discriminate;
    destruct v2 as [| | |n2|s2| |]; try discriminate;
    unfold Js.item_text; simpl Js.stringify_sorted; cbv iota; intros H.
  - destruct (token_inj _ _ _ _ _ _ (every_num_open n1) (every_num_open n2)
                        H1 H2 H) as (E & -> & ->).
    apply string_of_num_inj in E. subst. now repeat split.
  - exfalso. pose proof (every_num n1) as E.
    unfold Js.json_quote in H.
    destruct (Js.string_of_num n1) as [|x a]; simpl in H, E; inversion H; subst.
    + discriminate.
    + discriminate.
  - exfalso. pose proof (every_num n2) as E.
    unfold Js.json_quote in H.
    destruct (Js.string_of_num n2) as [|x a]; simpl in H, E; inversion H; subst.
    + discriminate.
    + discriminate.
  - apply quote_inj in H. destruct H as [-> H]. inversion H. now repeat split.
Qed.


Lemma members_cons (kv : string * Js.value) (l : list (string * Js.value))
      (r : string) :
  (members_text (kv :: l) ++ String "}" r)%string
  = (Js.json_quote (fst kv)
     ++ String ":" (Js.item_text (snd kv)
                    ++ match l with
                       | [] => String "}" r
                       | _ => String "," (members_text l ++ String "}" r)
                       end))%string.
Proof.
  unfold members_text. destruct l as [|kv' l].
  - simpl. unfold member_text. rewrite !append_assoc. reflexivity.
  - change (String.concat "," (map member_text (kv :: kv' :: l)))
      with (member_text kv ++ "," ++ String.concat "," (map member_text (kv' :: l)))%string.
    unfold member_text at 1. rewrite !append_assoc. reflexivity.
Qed.

(** The members of an object of strings and numbers are read back from its
    text in one way only. *)
Lemma members_inj (l1 : list (string * Js.value)) :
  forall (l2 : list (string * Js.value)) (r1 r2 : string),
    Forall (fun kv => scalar (snd kv) = true) l1 ->
    Forall (fun kv => scalar (snd kv) = true) l2 ->
    (members_text l1 ++ String "}" r1)%string
    = (members_text l2 ++ String "}" r2)%string ->
    l1 = l2 /\ r1 = r2.
Proof.
  induction l1 as [|[k1 v1] l1 IH]; intros [|[k2 v2] l2] r1 r2 F1 F2 H.
  - simpl in H. inversion H. now split.
  - rewrite members_cons in H. simpl in H. discriminate.
  - rewrite members_cons in H. simpl in H. discriminate.
  - rewrite !members_cons in H. cbn [fst snd] in H.
    apply quote_inj in H. destruct H as [-> H]. inversion H as [H'].
    inversion F1 as [|? ? S1 F1']; inversion F2 as [|? ? S2 F2']; subst.
    cbn [snd] in S1, S2.
    destruct l1 as [|kv1 l1], l2 as [|kv2 l2];
      apply scalar_inj in H'; try assumption; try reflexivity;
      destruct H' as (-> & Hc & Hr); try discriminate.
    + subst. now split.
    + destruct (IH _ _ _ F1' F2' Hr) as [-> ->]. now split.
Qed.

Lemma insert_by_key {V W : Type} (f : V -> W) (x : string * V)
      (l : list (string * V)) :
  map (fun kv => (fst kv, f (snd kv))) (Js.insert Js.by_key x l)
  = Js.insert Js.by_key (fst x, f (snd x))
              (map (fun kv => (fst kv, f (snd kv))) l).
Proof.
  induction l as [|y l IH]; simpl; [reflexivity|].
  unfold Js.by_key at 1 3. cbn [fst].
  destruct (Js.compare_strings (fst x) (fst y) <=? 0); simpl;
    [reflexivity|now rewrite IH].
Qed.

Lemma sort_by_key {V W : Type} (f : V -> W) (l : list (string * V)) :
  Js.sort Js.by_key (map (fun kv => (fst kv, f (snd kv))) l)
  = map (fun kv => (fst kv, f (snd kv))) (Js.sort Js.by_key l).
Proof.
  induction l as [|x l IH]; simpl; [reflexivity|].
  now rewrite IH, insert_by_key.
Qed.

Lemma insert_Forall {A : Type} (cmp : A -> A -> Z) (P : A -> Prop)
      (x : A) (l : list A) :
  P x -> Forall P l -> Forall P (Js.insert cmp x l).
Proof.
  intros Hx. induction 1 as [|y l Hy Hl IH]; simpl.
  - now repeat constructor.
  - destruct (cmp x y <=? 0); repeat constructor; assumption.
Qed.

Lemma sort_Forall {A : Type} (cmp : A -> A -> Z) (P : A -> Prop)
      (l : list A) :
  Forall P l -> Forall P (Js.sort cmp l).
Proof.
  induction 1; simpl; [constructor|now apply insert_Forall].
Qed.

(** The JSON text of an object of strings and numbers: its members in the
    order of their keys. *)
Lemma object_text (props : list (string * Js.value)) :
  Forall (fun kv => scalar (snd kv) = true) props ->
  Js.item_text (Js.VObj props)
  = String "{" (members_text (Js.sort Js.by_key props) ++ "}")%string.
Proof.
  intros F. unfold Js.item_text.
  change (Js.stringify_sorted (Js.VObj props))
    with (Some ("{" ++ String.concat ","
                  (flat_map (fun kv => Js.member (fst kv) (snd kv))
                     (Js.sort Js.by_key
                        (map (fun kv => match kv with
                                        | (k, x) => (k, Js.stringify_sorted x)
                                        end) props)))
                ++ "}")%string).
  cbv iota. simpl append. do 2 f_equal. f_equal. unfold members_text. f_equal.
  rewrite (map_ext _ (fun kv => (fst kv, Js.stringify_sorted (snd kv))))
    by (now intros [k x]).
  rewrite sort_by_key.
  apply (sort_Forall Js.by_key) in F.
  induction F as [|[k v] l Hv F IH]; [reflexivity|].
  cbn [map flat_map fst snd]. rewrite IH. unfold member_text. cbn [fst snd].
  destruct v; try discriminate; reflexivity.
Qed.

Lemma object_inj (ps1 ps2 : list (string * Js.value)) (r1 r2 : string) :
  Forall (fun kv => scalar (snd kv) = true) ps1 ->
  Forall (fun kv => scalar (snd kv) = true) ps2 ->
  (Js.item_text (Js.VObj ps1) ++ r1)%string
  = (Js.item_text (Js.VObj ps2) ++ r2)%string ->
  Js.sort Js.by_key ps1 = Js.sort Js.by_key ps2 /\ r1 = r2.
Proof.
  intros F1 F2. rewrite !object_text by assumption.
  simpl. rewrite !append_assoc. simpl. intros H. inversion H as [H'].
  apply members_inj in H'; try (now apply sort_Forall). exact H'.
Qed.


Lemma prop_scalar {A : Type} (name : string) (inj : A -> Js.value)
      (x : option A) :
  (forall a, scalar (inj a) = true) ->
  Forall (fun kv => scalar (snd kv) = true) (MatchesService.prop name inj x).
Proof.
  intros H. destruct x; simpl; repeat constructor. apply H.
Qed.

Lemma options_scalar (o : MatchesService.GetMatchesOptions) ps :
  MatchesService.optionsValue o = Js.VObj ps ->
  Forall (fun kv => scalar (snd kv) = true) ps.
Proof.
  unfold MatchesService.optionsValue. intros H. inversion H.
  repeat (apply Forall_app; split); apply prop_scalar; reflexivity.
Qed.

Lemma status_name_inj (s1 s2 : MatchesService.StatusFilter) :
  MatchesService.status_name s1 = MatchesService.status_name s2 -> s1 = s2.
Proof. destruct s1, s2; simpl; intros H; (reflexivity || discriminate). Qed.

Lemma compare_refl (s : string) : String.compare s s = Eq.
Proof.
  induction s as [|c s IH]; simpl; [reflexivity|].
  unfold Ascii.compare. now rewrite N.compare_refl.
Qed.

Lemma lookup_cons (k : string) (x : string * Js.value)
      (l : list (string * Js.value)) :
  lookup k (x :: l)
  = if String.eqb (fst x) k then Some (snd x) else lookup k l.
Proof. unfold lookup. simpl. now destruct (String.eqb (fst x) k). Qed.

Lemma lookup_app (k : string) (a b : list (string * Js.value)) :
  lookup k (a ++ b)
  = match lookup k a with
    | Some v => Some v
    | None => lookup k b
    end.
Proof.
  induction a as [|x a IH]; [reflexivity|].
  simpl app. rewrite !lookup_cons, IH.
  now destruct (String.eqb (fst x) k).
Qed.

Lemma lookup_prop {A : Type} (k name : string) (inj : A -> Js.value)
      (x : option A) :
  lookup k (MatchesService.prop name inj x)
  = if String.eqb name k then option_map inj x else None.
Proof.
  destruct x; simpl; [|now destruct (String.eqb name k)].
  now rewrite lookup_cons.
Qed.

Lemma lookup_insert (k : string) (x : string * Js.value)
      (l : list (string * Js.value)) :
  lookup k (Js.insert Js.by_key x l) = lookup k (x :: l).
Proof.
  induction l as [|y l IH]; [reflexivity|]. simpl Js.insert.
  destruct (Js.by_key x y <=? 0) eqn:E; [reflexivity|].
  rewrite (lookup_cons k y), IH, !lookup_cons.
  destruct (String.eqb_spec (fst y) k) as [Ey|Ey]; [|reflexivity].
  destruct (String.eqb_spec (fst x) k) as [Ex|Ex]; [|reflexivity].
  exfalso. unfold Js.by_key, Js.compare_strings in E.
  rewrite Ex, Ey, compare_refl in E. discriminate.
Qed.

(** Sorting the properties by key does not change what a key gives. *)
Lemma lookup_sort (k : string) (l : list (string * Js.value)) :
  lookup k (Js.sort Js.by_key l) = lookup k l.
Proof.
  induction l as [|x l IH]; [reflexivity|]. simpl Js.sort.
  now rewrite lookup_insert, !lookup_cons, IH.
Qed.

(** The properties of the options object, read off its sorted form. *)
Lemma options_lookup (o : MatchesService.GetMatchesOptions) ps :
  MatchesService.optionsValue o = Js.VObj ps ->
  map (fun k => lookup k (Js.sort Js.by_key ps))
      ["competitions"; "ids"; "date"; "dateFrom"; "dateTo"; "status";
       "season"; "matchday"; "stage"; "group"; "limit"]%string
  = [option_map Js.VStr (MatchesService.competitions o);
     option_map Js.VStr (MatchesService.ids o);
     option_map Js.VStr (MatchesService.date o);
     option_map Js.VStr (MatchesService.dateFrom o);
     option_map Js.VStr (MatchesService.dateTo o);
     option_map (fun s => Js.VStr (MatchesService.status_name s))
                (MatchesService.status o);
     option_map Js.VNum (MatchesService.season o);
     option_map Js.VNum (MatchesService.matchday o);
     option_map Js.VStr (MatchesService.stage o);
     option_map Js.VStr (MatchesService.group o);
     option_map Js.VNum (MatchesService.limit o)].
Proof.
  unfold MatchesService.optionsValue. intros H. inversion H. clear H.
  cbn [map]. rewrite !lookup_sort, !lookup_app, !lookup_prop.
  cbn [String.eqb Ascii.eqb Bool.eqb].
  repeat f_equal;
    repeat match goal with
    | |- context [match option_map ?f ?x with _ => _ end] =>
        destruct (option_map f x)
    end; reflexivity.
Qed.

Lemma option_map_inj {A B : Type} (f : A -> B) (x y : option A) :
  (forall a b, f a = f b -> a = b) ->
  option_map f x = option_map f y -> x = y.
Proof.
  intros Hf. destruct x, y; simpl; intros H; inversion H;
    [f_equal; now apply Hf|reflexivity].
Qed.

Lemma options_inj (o1 o2 : MatchesService.GetMatchesOptions) ps1 ps2 :
  MatchesService.optionsValue o1 = Js.VObj ps1 ->
  MatchesService.optionsValue o2 = Js.VObj ps2 ->
  Js.sort Js.by_key ps1 = Js.sort Js.by_key ps2 -> o1 = o2.
Proof.
  intros H1 H2 E.
  pose proof (options_lookup o1 ps1 H1) as L1.
  pose proof (options_lookup o2 ps2 H2) as L2.
  rewrite E, L2 in L1. clear - L1.
  inversion L1 as [[E1 E2 E3 E4 E5 E6 E7 E8 E9 E10 E11]].
  destruct o1, o2; simpl in *. 
  repeat match goal with
  | H : option_map Js.VStr _ = option_map Js.VStr _ |- _ =>
      apply option_map_inj in H; [|now intros ? ? [=]]
  | H : option_map Js.VNum _ = option_map Js.VNum _ |- _ =>
      apply option_map_inj in H; [|now intros ? ? [=]]
  | H : option_map (fun s => Js.VStr (MatchesService.status_name s)) _ = _ |- _ =>
      apply option_map_inj in H;
        [|intros ? ? [=]; now apply status_name_inj]
  end.
  congruence.
Qed.


Lemma hashKey_items (l : list Js.value) :
  hashKey l = ("[" ++ String.concat "," (map Js.item_text l) ++ "]")%string.
Proof. reflexivity. Qed.

Lemma item_text_object (ps : list (string * Js.value)) :
  exists rest, Js.item_text (Js.VObj ps) = String "{" rest.
Proof. eexists. reflexivity. Qed.

Lemma unfold_inj (u1 u2 : UnfoldOptions) :
  (Js.item_text (unfoldValue u1) ++ "]")%string
  = (Js.item_text (unfoldValue u2) ++ "]")%string -> u1 = u2.
Proof.
  destruct unfold_text_decodes as [decode Hd].
  intros H. apply (f_equal decode) in H. rewrite !Hd in H. now inversion H.
Qed.

(** The text of a [number | null] key item, followed by a closing
    character, is the text of that item only. *)
Lemma num_key_inj (m1 m2 : option Z) (c1 c2 : ascii) (r1 r2 : string) :
  closes c1 = true -> closes c2 = true ->
  (Js.item_text (Key.num m1) ++ String c1 r1)%string
  = (Js.item_text (Key.num m2) ++ String c2 r2)%string ->
  m1 = m2 /\ c1 = c2 /\ r1 = r2.
Proof.
  intros H1 H2 H. destruct m1 as [n1|], m2 as [n2|]; simpl Key.num in H.
  - apply scalar_inj in H; try assumption; try reflexivity.
    destruct H as (E & -> & ->). inversion E. now repeat split.
  - exfalso. apply token_inj in H; try assumption; try reflexivity;
      [|apply every_num_open].
    destruct H as (E & _). pose proof (every_num n1) as N.
    unfold Js.item_text in E. simpl Js.stringify_sorted in E. cbv iota in E.
    rewrite E in N. discriminate.
  - exfalso. apply token_inj in H; try assumption; try reflexivity;
      [|apply every_num_open].
    destruct H as (E & _). pose proof (every_num n2) as N.
    unfold Js.item_text in E. simpl Js.stringify_sorted in E. cbv iota in E.
    rewrite <- E in N. discriminate.
  - apply append_cancel_l in H. inversion H. now repeat split.
Qed.

(** Open the hash of a key into the texts of its items, each followed by
    the separator. *)
Ltac open_key H :=
  rewrite !hashKey_items in H;
  cbn [queryKey UseMatches.useMatches UseMatches.useTodayMatches
       UseMatches.useMatchById UseMatches.useLiveMatches
       UseMatches.useHead2Head UseMatches.useScheduledMatches
       map String.concat] in H;
  rewrite !append_assoc in H;
  apply append_cancel_l in H.

Ltac skip_item H :=
  apply append_cancel_l in H; apply append_cancel_l in H.

Lemma matches_key_inj (o1 o2 : GetMatchesOptions) (u1 u2 : UnfoldOptions)
      (e1 e2 : bool) :
  hashKey (queryKey (UseMatches.useMatches o1 u1 e1))
  = hashKey (queryKey (UseMatches.useMatches o2 u2 e2))
  -> o1 = o2 /\ u1 = u2.
Proof.
  intros H. open_key H. skip_item H.
  unfold optionsValue in H.
  apply object_inj in H;
    try (repeat (apply Forall_app; split); apply prop_scalar; reflexivity).
  destruct H as [E H]. apply append_cancel_l in H.
  split; [|now apply unfold_inj].
  eapply options_inj; [reflexivity|reflexivity|exact E].
Qed.

Lemma match_key_inj (m1 m2 : option Z) (u1 u2 : UnfoldOptions) (e1 e2 : bool) :
  hashKey (queryKey (UseMatches.useMatchById m1 u1 e1))
  = hashKey (queryKey (UseMatches.useMatchById m2 u2 e2))
  -> m1 = m2 /\ u1 = u2.
Proof.
  intros H. open_key H. skip_item H.
  apply num_key_inj in H; try reflexivity.
  destruct H as (-> & _ & H). split; [reflexivity|now apply unfold_inj].
Qed.

Lemma head2head_key_inj (m1 m2 : option Z) (l1 l2 : Z)
      (u1 u2 : UnfoldOptions) (e1 e2 : bool) :
  hashKey (queryKey (UseMatches.useHead2Head m1 l1 u1 e1))
  = hashKey (queryKey (UseMatches.useHead2Head m2 l2 u2 e2))
  -> m1 = m2 /\ l1 = l2 /\ u1 = u2.
Proof.
  intros H. open_key H. skip_item H.
  apply num_key_inj in H; try reflexivity.
  destruct H as (-> & _ & H). skip_item H.
  apply scalar_inj in H; try reflexivity.
  destruct H as (E & _ & H). inversion E.
  repeat split. now apply unfold_inj.
Qed.

Lemma scheduled_key_inj (f1 f2 t1 t2 : string) (c1 c2 : option string)
      (e1 e2 : bool) :
  hashKey (queryKey (UseMatches.useScheduledMatches f1 t1 c1 e1))
  = hashKey (queryKey (UseMatches.useScheduledMatches f2 t2 c2 e2))
  -> f1 = f2 /\ t1 = t2 /\ c1 = c2.
Proof.
  intros H. open_key H. skip_item H. skip_item H.
  change (Js.item_text (Js.VStr f1)) with (Js.json_quote f1) in H.
  change (Js.item_text (Js.VStr f2)) with (Js.json_quote f2) in H.
  change (Js.item_text (Js.VStr t1)) with (Js.json_quote t1) in H.
  change (Js.item_text (Js.VStr t2)) with (Js.json_quote t2) in H.
  apply quote_inj in H. destruct H as [-> H]. apply append_cancel_l in H.
  apply quote_inj in H. destruct H as [-> H]. apply append_cancel_l in H.
  repeat split.
  destruct c1 as [c1|], c2 as [c2|]; simpl Key.opt in H.
  - change (Js.item_text (Js.VStr c1)) with (Js.json_quote c1) in H.
    change (Js.item_text (Js.VStr c2)) with (Js.json_quote c2) in H.
    apply quote_inj in H. destruct H as [-> _]. reflexivity.
  - discriminate.
  - discriminate.
  - reflexivity.
Qed.


Lemma match_and_h2h_differ
      (m1 m2 : option Z) (l : Z) (u1 u2 : MatchesService.UnfoldOptions)
      (e1 e2 : bool) :
  hashKey (queryKey (UseMatches.useMatchById m1 u1 e1))
  <> hashKey (queryKey (UseMatches.useHead2Head m2 l u2 e2)).
Proof.
  intros H. open_key H. skip_item H.
  apply num_key_inj in H; try reflexivity.
  destruct H as (_ & _ & H).
  unfold unfoldValue at 1 in H.
  match type of H with
  | context [Js.item_text (Js.VObj ?ps)] =>
      destruct (item_text_object ps) as [rest E]; rewrite E in H
  end.
  discriminate.
Qed.

(** C7. The cache key of every match query holds the resource kind, the
    request parameters and the expansion flags, and the hash under which
    the cache files the query tells all of them apart.  Two calls of the
    same hook with the same parameters have the same hash exactly when
    their expansion flags are the same, so calls that differ only in a flag
    are cached in separate entries.  More generally two calls of the same
    hook have the same hash exactly when they agree in every request
    parameter (the filters, the match id, the limit, the dates and the
    competitions) and in every flag; and the six hooks never share a hash
    with each other, whatever their parameters. *)
Theorem match_keys_separate_unfold
        (o o' : GetMatchesOptions) (matchId matchId' : option Z)
        (limit limit' : Z) (dateFrom dateFrom' dateTo dateTo' : string)
        (competitions competitions' : option string)
        (e1 e2 : bool) (u1 u2 : UnfoldOptions) :
  (hashKey (queryKey (UseMatches.useMatches o u1 e1))
   = hashKey (queryKey (UseMatches.useMatches o u2 e2)) <-> u1 = u2)
  /\ (hashKey (queryKey (UseMatches.useTodayMatches u1 e1))
      = hashKey (queryKey (UseMatches.useTodayMatches u2 e2)) <-> u1 = u2)
  /\ (hashKey (queryKey (UseMatches.useMatchById matchId u1 e1))
      = hashKey (queryKey (UseMatches.useMatchById matchId u2 e2)) <-> u1 = u2)
  /\ (hashKey (queryKey (UseMatches.useLiveMatches u1 e1))
      = hashKey (queryKey (UseMatches.useLiveMatches u2 e2)) <-> u1 = u2)
  /\ (hashKey (queryKey (UseMatches.useHead2Head matchId limit u1 e1))
      = hashKey (queryKey (UseMatches.useHead2Head matchId limit u2 e2))
      <-> u1 = u2)
  /\ queryKey (UseMatches.useMatches o u1 e1)
     = [Js.VStr "matches"; optionsValue o; unfoldValue u1]
  /\ queryKey (UseMatches.useTodayMatches u1 e1)
     = [Js.VStr "matches"; Js.VStr "today"; unfoldValue u1]
  /\ queryKey (UseMatches.useMatchById matchId u1 e1)
     = [Js.VStr "match"; Key.num matchId; unfoldValue u1]
  /\ queryKey (UseMatches.useLiveMatches u1 e1)
     = [Js.VStr "matches"; Js.VStr "live"; unfoldValue u1]
  /\ queryKey (UseMatches.useHead2Head matchId limit u1 e1)
     = [Js.VStr "match"; Key.num matchId; Js.VStr "head2head"; Js.VNum limit;
        unfoldValue u1]
  /\ (hashKey (queryKey (UseMatches.useMatches o u1 e1))
      = hashKey (queryKey (UseMatches.useMatches o' u2 e2))
      <-> o = o' /\ u1 = u2)
  /\ (hashKey (queryKey (UseMatches.useMatchById matchId u1 e1))
      = hashKey (queryKey (UseMatches.useMatchById matchId' u2 e2))
      <-> matchId = matchId' /\ u1 = u2)
  /\ (hashKey (queryKey (UseMatches.useHead2Head matchId limit u1 e1))
      = hashKey (queryKey (UseMatches.useHead2Head matchId' limit' u2 e2))
      <-> matchId = matchId' /\ limit = limit' /\ u1 = u2)
  /\ (hashKey (queryKey
                 (UseMatches.useScheduledMatches dateFrom dateTo competitions e1))
      = hashKey (queryKey
                   (UseMatches.useScheduledMatches dateFrom' dateTo'
                                                   competitions' e2))
      <-> dateFrom = dateFrom' /\ dateTo = dateTo'
          /\ competitions = competitions')
  /\ NoDup (map hashKey
              [queryKey (UseMatches.useMatches o u1 e1);
               queryKey (UseMatches.useTodayMatches u1 e1);
               queryKey (UseMatches.useLiveMatches u1 e1);
               queryKey (UseMatches.useScheduledMatches dateFrom dateTo
                                                        competitions e1);
               queryKey (UseMatches.useMatchById matchId u1 e1);
               queryKey (UseMatches.useHead2Head matchId' limit u2 e2)]).
Proof.
  assert (Hm : forall a b, hashKey (queryKey (UseMatches.useMatches a u1 e1))
                  = hashKey (queryKey (UseMatches.useMatches b u2 e2))
                  <-> a = b /\ u1 = u2).
  { intros a b. split; [apply matches_key_inj|now intros [-> ->]]. }
  assert (Hi : forall a b, hashKey (queryKey (UseMatches.useMatchById a u1 e1))
                  = hashKey (queryKey (UseMatches.useMatchById b u2 e2))
                  <-> a = b /\ u1 = u2).
  { intros a b. split; [apply match_key_inj|now intros [-> ->]]. }
  assert (Hh : forall a b k l,
             hashKey (queryKey (UseMatches.useHead2Head a k u1 e1))
             = hashKey (queryKey (UseMatches.useHead2Head b l u2 e2))
             <-> a = b /\ k = l /\ u1 = u2).
  { intros a b k l.
    split; [apply head2head_key_inj|now intros (-> & -> & ->)]. }
  split; [rewrite Hm; tauto|].
  split; [apply (keys_differ_in_unfold [Js.VStr "matches"; Js.VStr "today"])|].
  split; [rewrite Hi; tauto|].
  split; [apply (keys_differ_in_unfold [Js.VStr "matches"; Js.VStr "live"])|].
  split; [rewrite Hh; tauto|].
  do 5 (split; [reflexivity|]).
  split; [apply Hm|].
  split; [apply Hi|].
  split; [apply Hh|].
  split.
  { split; [apply scheduled_key_inj|now intros (-> & -> & ->)]. }
  assert (Hd : forall a b : string, String.eqb a b = false -> a <> b)
    by (intros a b E; now apply String.eqb_neq).
  repeat (apply NoDup_cons; [cbn [map In]|]); [..|apply NoDup_nil].
  - intros [H|[H|[H|[H|[H|[]]]]]]; revert H; apply Hd;
      vm_compute; reflexivity.
  - intros [H|[H|[H|[H|[]]]]]; revert H; apply Hd; vm_compute; reflexivity.
  - intros [H|[H|[H|[]]]]; revert H; apply Hd; vm_compute; reflexivity.
  - intros [H|[H|[]]]; revert H; apply Hd; vm_compute; reflexivity.
  - intros [H|[]]. symmetry in H. now apply match_and_h2h_differ in H.
  - intros [].
Qed.

End CacheKeys.

(** ** Staleness, polling and retries *)

Create HintDb services.

#[local] Hint Unfold
  Hooks.options UseMatches.useMatches UseMatches.useTodayMatches
  UseMatches.useMatchById UseMatches.useLiveMatches UseMatches.useHead2Head
  UseMatches.useScheduledMatches UseCompetitions.useCompetitions
  UseCompetitions.useCompetitionByCode UseCompetitions.useCompetitionById
  UseCompetitions.plain UseCompetitionDetail.useFullCompetition
  UseCompetitionDetail.useStandings UseCompetitionDetail.useScorers
  UseCompetitionDetail.useTeams UseCompetitionDetail.useCompetitionMatches
  UseTeamDetail.useTeam UseTeamDetail.useTeamMatches
  MatchesService.getMatches MatchesService.getTodayMatches
  MatchesService.getMatchById MatchesService.getHead2Head
  MatchesService.getLiveMatches MatchesService.getScheduledMatches
  CompetitionsService.getCompetitions CompetitionsService.getCompetitionByCode
  CompetitionsService.getCompetitionById CompetitionsService.getFullCompetition
  CompetitionsService.getStandings CompetitionsService.getMatches
  CompetitionsService.getScorers CompetitionsService.getTeams
  CompetitionsService.fetch TeamsService.getTeamById
  TeamsService.getTeamMatches Axios.await Axios.get Axios.resolve Axios.reject
  : services.

Section Policy.
Import Axios ReactQuery.

(** C8, as the hooks have it. Staleness and polling follow volatility: the
    today's-matches query is stale after 2 minutes and polls every 60
    seconds; the live-matches query is stale after 30 seconds and polls
    every 30 seconds; the competition-list and head-to-head queries are
    stale after 5 minutes, within the 5 to 10 minute range, and set no
    polling interval. *)
Theorem staleness_and_polling
        (u : MatchesService.UnfoldOptions) (en : bool)
        (o : CompetitionsService.GetCompetitionsOptions)
        (matchId : option Z) (limit : Z) :
  let today := App.effective (UseMatches.useTodayMatches u en) in
  let live := App.effective (UseMatches.useLiveMatches u en) in
  let list := App.effective (UseCompetitions.useCompetitions o en) in
  let h2h := App.effective (UseMatches.useHead2Head matchId limit u en) in
  staleTime today = Some (2 * 60 * 1000)
  /\ refetchInterval today = Some (60 * 1000)
  /\ staleTime live = Some (30 * 1000)
  /\ refetchInterval live = Some (30 * 1000)
  /\ staleTime list = Some (5 * 60 * 1000)
  /\ refetchInterval list = None
  /\ staleTime h2h = Some (5 * 60 * 1000)
  /\ refetchInterval h2h = None
  /\ 30 * 1000 <= 30 * 1000 <= 60 * 1000
  /\ 5 * 60 * 1000 <= 5 * 60 * 1000 <= 10 * 60 * 1000.
Proof.
  repeat split; try reflexivity; lia.
Qed.

(** C8 fails as stated: the live-matches query is stale after 30 seconds,
    not after 2 minutes. *)
Lemma live_matches_stale_after_30s :
  staleTime (App.effective
               (UseMatches.useLiveMatches UseMatches.liveDefaultUnfold true))
  = Some 30000
  /\ 30000 <> 2 * 60 * 1000.
Proof.
  split; [reflexivity|lia].
Qed.

Lemma delay_capped (a : nat) : Spec.delay a <= 30000.
Proof. unfold Spec.delay. lia. Qed.

Lemma delay_increasing (a : nat) :
  Spec.delay a < 30000 -> Spec.delay a < Spec.delay (S a).
Proof.
  unfold Spec.delay. rewrite Nat2Z.inj_succ, Z.pow_succ_r by lia.
  pose proof (Z.pow_pos_nonneg 2 (Z.of_nat a)). lia.
Qed.

Lemma run_all_fail (n : nat) (d : RetryDelayValue)
      (fn : Promise Js.value) (net : Network) :
  (forall a t, delayFor d a t = Spec.delay a) ->
  (forall w, exists t w1, fn net w = (inl t, w1) /\ slept w1 = slept w) ->
  forall (j fc fuel : nat) (w : World),
    (fc + j = n)%nat -> (j < fuel)%nat ->
    exists t w',
      run fuel (RetryCount (Z.of_nat n)) d fn fc net w = (Some (inl t), w')
      /\ slept w' = slept w ++ map Spec.delay (seq fc j).
Proof.
  intros Hd Hfail.
  induction j as [|j IH]; intros fc fuel w Hn Hfuel;
    (destruct fuel as [|fuel]; [lia|]);
    destruct (Hfail w) as (t & w1 & E & Hs); simpl run; rewrite E; simpl.
  - destruct (Z.ltb_spec (Z.of_nat fc) (Z.of_nat n)); [lia|].
    exists t, w1. now rewrite app_nil_r.
  - destruct (Z.ltb_spec (Z.of_nat fc) (Z.of_nat n)); [|lia].
    destruct (IH (S fc) fuel (sleep (delayFor d fc t) w1)) as (t' & w' & E' & Hs');
      [lia|lia|].
    exists t', w'. split; [assumption|].
    rewrite Hs'. simpl. rewrite Hs, Hd, <- app_assoc. reflexivity.
Qed.

Lemma run_settles (n : nat) (d : RetryDelayValue)
      (fn : Promise Js.value) (net : Network) :
  forall (j fc fuel : nat) (w : World),
    (fc + j = n)%nat -> (j < fuel)%nat ->
    exists r w', run fuel (RetryCount (Z.of_nat n)) d fn fc net w = (Some r, w').
Proof.
  induction j as [|j IH]; intros fc fuel w Hn Hfuel;
    (destruct fuel as [|fuel]; [lia|]); simpl run;
    destruct (fn net w) as [[t|v] w1]; try (now eexists; eexists); simpl.
  - destruct (Z.ltb_spec (Z.of_nat fc) (Z.of_nat n)); [lia|].
    now eexists; eexists.
  - destruct (Z.ltb_spec (Z.of_nat fc) (Z.of_nat n)); [|lia].
    apply IH; lia.
Qed.

Lemma run_bound (n : nat) (d : RetryDelayValue)
      (fn : Promise Js.value) (net : Network) :
  (forall a t, delayFor d a t = Spec.delay a) ->
  (forall w, slept (snd (fn net w)) = slept w) ->
  forall (fuel fc : nat) (w : World) r w',
    run fuel (RetryCount (Z.of_nat n)) d fn fc net w = (r, w') ->
    exists j, (fc + j <= Nat.max fc n)%nat
              /\ slept w' = slept w ++ map Spec.delay (seq fc j).
Proof.
  intros Hd Hq.
  induction fuel as [|fuel IH]; intros fc w r w' H; simpl in H.
  - inversion H; subst. exists 0%nat. split; [lia|now rewrite app_nil_r].
  - pose proof (Hq w) as Hs.
    destruct (fn net w) as [[t|v] w1]; simpl in Hs.
    + simpl in H.
      destruct (Z.ltb_spec (Z.of_nat fc) (Z.of_nat n)).
      * apply IH in H. destruct H as (j & Hj & Hw).
        exists (S j). split; [lia|].
        rewrite Hw. simpl. rewrite Hs, Hd, <- app_assoc. reflexivity.
      * inversion H; subst. exists 0%nat.
        split; [lia|]. simpl. now rewrite app_nil_r.
    + inversion H; subst. exists 0%nat.
      split; [lia|]. simpl. now rewrite app_nil_r.
Qed.

(** Open the query function of a hook call down to its one request: case
    on the call, then on a missing or zero match id. *)
Ltac open_hook c :=
  destruct c; autounfold with services; simpl;
  repeat match goal with
         | |- context [match ?x with Some _ => _ | None => _ end] =>
             is_var x; destruct x
         | |- context [if ?z =? 0 then _ else _] => destruct (z =? 0)
         end.

Lemma hook_fn_quiet (c : Hooks.Call) (net : Network) (w : World) :
  slept (snd (queryFn (Hooks.options c) net w)) = slept w.
Proof.
  open_hook c;
    try match goal with
        | |- context [net ?n ?r] => destruct (net n r)
        end; reflexivity.
Qed.

Lemma hook_fn_fails (c : Hooks.Call) (e : nat -> Request -> AxiosError)
      (w : World) :
  exists t w1,
    queryFn (Hooks.options c) (fun n r => Failed (e n r)) w = (inl t, w1)
    /\ slept w1 = slept w.
Proof.
  open_hook c; eexists; eexists; split; reflexivity.
Qed.

Lemma effective_fn (c : Hooks.Call) :
  queryFn (App.effective (Hooks.options c)) = queryFn (Hooks.options c).
Proof. reflexivity. Qed.

Lemma effective_retry (c : Hooks.Call) :
  retryOf (App.effective (Hooks.options c))
  = RetryCount (Z.of_nat (if Hooks.isHead2Head c then 1 else 2)).
Proof. destruct c; reflexivity. Qed.

Lemma effective_delay (c : Hooks.Call) (a : nat) (t : Thrown) :
  delayFor (retryDelayOf (App.effective (Hooks.options c))) a t = Spec.delay a.
Proof. destruct c; reflexivity. Qed.

(** C2, as the hooks have it. Every query of the hook layer retries a
    failed attempt whatever the kind of the error, a CLIENT_ERROR like a
    NETWORK_ERROR or a SERVER_ERROR: up to 2 times, the head-to-head query
    up to once, waiting delay(attempt) = min(1000 * 2^attempt, 30000)
    milliseconds before retry number [attempt]; the delay never exceeds
    30 seconds and is strictly increasing below that cap.  A fetch settles
    within these attempts and never retries more often than that, and a
    fetch whose every attempt fails settles with an error after exactly
    that many retries. *)
Theorem retry_policy
        (c : Hooks.Call) (net : Network) (e : nat -> Request -> AxiosError)
        (s : QueryState) (w : World) (extra : nat) :
  let o := App.effective (Hooks.options c) in
  let k := if Hooks.isHead2Head c then 1%nat else 2%nat in
  retryOf o = RetryCount (Z.of_nat k)
  /\ (forall a t, delayFor (retryDelayOf o) a t = Spec.delay a)
  /\ (forall a t, shouldRetry (retryOf o) a t = (a <? k)%nat)
  /\ (forall a, Spec.delay a <= 30000
                /\ (Spec.delay a < 30000 -> Spec.delay a < Spec.delay (S a)))
  /\ (exists st w', fetch (S k + extra) o s net w = (Some st, w'))
  /\ (forall fuel st w',
        fetch fuel o s net w = (Some st, w') ->
        exists j, (j <= k)%nat
                  /\ slept w' = slept w ++ map Spec.delay (seq 0 j))
  /\ (exists st w' t,
        fetch (S k + extra) o s (fun n r => Failed (e n r)) w = (Some st, w')
        /\ slept w' = slept w ++ map Spec.delay (seq 0 k)
        /\ state_error st = Some t).
Proof.
  intros o k. subst o k.
  split; [apply effective_retry|].
  split; [apply effective_delay|].
  split.
  { intros a t. rewrite effective_retry. simpl.
    destruct (Z.ltb_spec (Z.of_nat a)
                         (Z.of_nat (if Hooks.isHead2Head c then 1 else 2))),
             (Nat.ltb_spec a (if Hooks.isHead2Head c then 1 else 2));
      try reflexivity; lia. }
  split.
  { intros a. split; [apply delay_capped|apply delay_increasing]. }
  split.
  { destruct (run_settles
                (if Hooks.isHead2Head c then 1 else 2)
                (retryDelayOf (App.effective (Hooks.options c)))
                (queryFn (Hooks.options c)) net
                (if Hooks.isHead2Head c then 1 else 2) 0
                (S (if Hooks.isHead2Head c then 1 else 2) + extra) w)
      as (r & w' & E); [lia|lia|].
    unfold fetch. rewrite effective_retry, effective_fn, E.
    destruct r; eexists; eexists; reflexivity. }
  split.
  - intros fuel st w' H. unfold fetch in H.
    rewrite effective_retry, effective_fn in H.
    destruct (run fuel _ _ _ 0 net w) as [r w1] eqn:E.
    apply run_bound in E;
      [|apply effective_delay|intros; apply hook_fn_quiet].
    destruct E as (j & Hj & Hw).
    exists j. split; [lia|].
    destruct r as [[t|v]|]; inversion H; subst; assumption.
  - destruct (run_all_fail
                (if Hooks.isHead2Head c then 1 else 2)
                (retryDelayOf (App.effective (Hooks.options c)))
                (queryFn (Hooks.options c))
                (fun n r => Failed (e n r))
                (effective_delay c)
                (fun w0 => hook_fn_fails c e w0)
                (if Hooks.isHead2Head c then 1 else 2) 0
                (S (if Hooks.isHead2Head c then 1 else 2) + extra) w)
      as (t & w' & E & Hw); [lia|lia|].
    unfold fetch. rewrite effective_retry, effective_fn, E.
    eexists; exists w', t. split; [reflexivity|].
    split; [assumption|reflexivity].
Qed.

(** C2 fails as stated: a query whose every attempt ends in a CLIENT_ERROR
    (here a 404) is retried twice, after 1 and 2 seconds, and only then
    reports the error; three requests are sent. *)
Lemma client_error_is_retried :
  exists st w' ce,
    mount 3 (App.effective
               (UseMatches.useMatches MatchesService.noOptions
                                      MatchesService.noUnfold true))
          (Sample.always Sample.notFound) start
    = (Some st, w')
    /\ state_error st = Some (ApiFailure ce)
    /\ type ce = CLIENT_ERROR
    /\ custom_status ce = Some 404
    /\ slept w' = [1000; 2000]
    /\ List.length (sent w') = 3%nat.
Proof.
  do 3 eexists. repeat split; reflexivity.
Qed.

End Policy.

(** ** Disabled queries: a missing match id, the competition page *)

Section Gating.
Import Axios ReactQuery.

(** C6, as the hook has it. With a missing match id (null) the match-by-id
    query is disabled: mounting it runs nothing, sends no request and
    reports neither data nor an error, the query staying idle.  The
    validation failure is what the query function itself gives if it is
    run all the same: it rejects with "Match ID is required" before any
    request, so a forced refetch ends in that error after its two retries
    without a request having been sent. *)
Theorem missing_match_id
        (u : MatchesService.UnfoldOptions) (en : bool)
        (net : Network) (w : World) (fuel extra : nat) :
  let o := App.effective (UseMatches.useMatchById None u en) in
  enabledOf o = false
  /\ mount fuel o net w = (Some initialState, w)
  /\ result_data (result initialState) = None
  /\ result_error (result initialState) = None
  /\ isLoading (result initialState) = false
  /\ queryFn o net w = (inl (JsError "Match ID is required"), w)
  /\ refetch (3 + extra) o initialState net w
     = (Some {| data := None;
                state_error := Some (JsError "Match ID is required");
                status := error;
                fetchStatus := idle |},
        {| sent := sent w; slept := slept w ++ [1000; 2000] |}).
Proof.
  intros o. subst o.
  assert (He : enabledOf (App.effective (UseMatches.useMatchById None u en))
               = false)
    by (destruct en; reflexivity).
  split; [exact He|].
  split; [unfold mount; now rewrite He|].
  repeat split; try reflexivity.
  unfold refetch, fetch. simpl. unfold sleep. simpl.
  rewrite <- app_assoc. reflexivity.
Qed.

(** C6 fails as stated: the hook called with a null match id reports no
    error at all; the caller sees an idle query without data. *)
Lemma missing_match_id_reports_no_error :
  mount 3 (App.effective
             (UseMatches.useMatchById None MatchesService.noUnfold true))
        (Sample.always Sample.notFound) start
  = (Some initialState, start)
  /\ result_error (result initialState) = None
  /\ result_data (result initialState) = None.
Proof.
  repeat split; reflexivity.
Qed.

Lemma after_snoc (history : list Action) (a : Action) :
  after (history ++ [a]) = reducer (after history) a.
Proof. unfold after. now rewrite fold_left_app. Qed.


Lemma child_enabled (code : option string) (parent : UseQueryResult)
      (child : QueryOptions) :
  In child (CompetitionDetail.children (CompetitionDetail.queries code parent)) ->
  enabledOf (App.effective child)
  = Js.truthy_str code && CompetitionDetail.present (result_data parent).
Proof.
  simpl. intros [<-|[<-|[<-|[<-|[]]]]];
    destruct code as [[|c code]|],
             (CompetitionDetail.present (result_data parent)); reflexivity.
Qed.








End Gating.

(** ** More of the timeline *)

Section TimelineMore.
Import MatchTimeline TimelineView.

Lemma eventsOf_tagged {A : Type} (f : A -> TimelineEvent)
      (xs : option (list A)) :
  (forall x, wellTagged (f x) /\ minute (f x) = dataMinute (data (f x))) ->
  Forall (fun e => wellTagged e /\ minute e = dataMinute (data e))
         (eventsOf f xs).
Proof.
  intros Hf. destruct xs as [l|]; simpl; [|constructor].
  apply Forall_map, Forall_forall. intros x _. apply Hf.
Qed.

Lemma sourceOrder_tagged (m : Match) :
  Forall (fun e => wellTagged e /\ minute e = dataMinute (data e))
         (sourceOrder m).
Proof.
  unfold sourceOrder.
  apply Forall_app; split; [|apply Forall_app; split];
    apply eventsOf_tagged; intros x; split; reflexivity.
Qed.

(** Every event of the timeline carries data of the kind its type names,
    and its minute is the one that data gives: the casts of the render
    dispatch are never wrong. *)
Theorem timeline_events_well_tagged (m : Match) :
  Forall (fun e => wellTagged e /\ minute e = dataMinute (data e))
         (getTimelineEvents m).
Proof.
  unfold getTimelineEvents.
  eapply Permutation_Forall; [symmetry; apply sort_perm|].
  rewrite collectEvents_sourceOrder. apply sourceOrder_tagged.
Qed.

Lemma length_eventsOf {A : Type} (f : A -> TimelineEvent)
      (xs : option (list A)) :
  List.length (eventsOf f xs) = count xs.
Proof. destruct xs; simpl; [apply length_map|reflexivity]. Qed.

Lemma filter_perm {A : Type} (f : A -> bool) (l l' : list A) :
  Permutation l l' -> Permutation (filter f l) (filter f l').
Proof.
  induction 1 as [|x l l' _ IH|x y l|l l' l'' _ IH1 _ IH2]; simpl.
  - constructor.
  - destruct (f x); [now constructor|assumption].
  - destruct (f x), (f y); try reflexivity. apply perm_swap.
  - now transitivity (filter f l').
Qed.

Lemma ofType_eventsOf {A : Type} (t : EventType) (f : A -> TimelineEvent)
      (xs : option (list A)) (b : bool) :
  (forall x, match type (f x), t with
             | goal, goal | booking, booking
             | substitution, substitution => true
             | _, _ => false
             end = b) ->
  ofType t (eventsOf f xs) = if b then eventsOf f xs else [].
Proof.
  intros H. destruct xs as [l|]; simpl; [|now destruct b].
  unfold ofType. induction l as [|x l IH]; simpl; [now destruct b|].
  rewrite H, IH. now destruct b.
Qed.

Lemma items_events (events : list TimelineEvent) :
  forall index,
    map event (items index events) = events
    /\ map key (items index events) = seq index (List.length events)
    /\ Forall (fun i => color i = getEventColor (type (event i)) (data (event i))
                        /\ title i = badge (event i))
              (items index events).
Proof.
  induction events as [|e events IH]; intros index; simpl;
    [repeat split; constructor|].
  destruct (IH (S index)) as (E1 & E2 & E3).
  rewrite E1, E2. repeat split. constructor; [now split|assumption].
Qed.

(** The timeline has exactly one event for each goal, booking and
    substitution of the match, none lost and none twice: it is a
    rearrangement of the events of the three lists, its goal events are
    those of the goals, its booking events those of the bookings and its
    substitution events those of the substitutions.  It is empty, and the
    component returns the panel without events, exactly when the match has
    none of the three; otherwise the component returns the timeline with
    one item for each event, in the order of the merge, keyed by index. *)
Theorem timeline_size (m : Match) :
  let n := (count (goals m) + count (bookings m)
            + count (substitutions m))%nat in
  List.length (getTimelineEvents m) = n
  /\ (getTimelineEvents m = [] <-> n = 0%nat)
  /\ Permutation (getTimelineEvents m)
                 (eventsOf goalEvent (goals m)
                  ++ eventsOf bookingEvent (bookings m)
                  ++ eventsOf substitutionEvent (substitutions m))
  /\ Permutation (ofType goal (getTimelineEvents m))
                 (eventsOf goalEvent (goals m))
  /\ Permutation (ofType booking (getTimelineEvents m))
                 (eventsOf bookingEvent (bookings m))
  /\ Permutation (ofType substitution (getTimelineEvents m))
                 (eventsOf substitutionEvent (substitutions m))
  /\ (n = 0%nat <->
      render m = NoEvents "No hay eventos disponibles para este partido")
  /\ (n <> 0%nat <->
      exists its, render m = Chronology n its
                  /\ map event its = getTimelineEvents m
                  /\ map key its = seq 0 n
                  /\ Forall (fun i => title i = badge (event i)) its).
Proof.
  intros n.
  assert (P : Permutation (getTimelineEvents m) (sourceOrder m)).
  { unfold getTimelineEvents. rewrite sort_perm.
    now rewrite collectEvents_sourceOrder. }
  assert (H : List.length (getTimelineEvents m) = n).
  { rewrite (Permutation_length P). unfold sourceOrder.
    rewrite !length_app, !length_eventsOf. subst n. lia. }
  assert (T : forall t,
             Permutation (ofType t (getTimelineEvents m))
                         (ofType t (sourceOrder m))).
  { intros t. now apply filter_perm. }
  assert (S : forall t,
             ofType t (sourceOrder m)
             = match t with
               | goal => eventsOf goalEvent (goals m)
               | booking => eventsOf bookingEvent (bookings m)
               | substitution => eventsOf substitutionEvent (substitutions m)
               end).
  { intros t. unfold sourceOrder, ofType. rewrite !filter_app.
    fold (ofType t (eventsOf goalEvent (goals m))).
    fold (ofType t (eventsOf bookingEvent (bookings m))).
    fold (ofType t (eventsOf substitutionEvent (substitutions m))).
    destruct t.
    - rewrite (ofType_eventsOf goal goalEvent _ true),
        (ofType_eventsOf goal bookingEvent _ false),
        (ofType_eventsOf goal substitutionEvent _ false) by reflexivity.
      now rewrite !app_nil_r.
    - rewrite (ofType_eventsOf booking goalEvent _ false),
        (ofType_eventsOf booking bookingEvent _ true),
        (ofType_eventsOf booking substitutionEvent _ false) by reflexivity.
      now rewrite app_nil_r.
    - rewrite (ofType_eventsOf substitution goalEvent _ false),
        (ofType_eventsOf substitution bookingEvent _ false),
        (ofType_eventsOf substitution substitutionEvent _ true)
        by reflexivity.
      reflexivity. }
  split; [exact H|].
  split.
  { rewrite <- H. split; [intros ->; reflexivity|apply length_zero_iff_nil]. }
  split; [exact P|].
  split; [rewrite (T goal), (S goal); reflexivity|].
  split; [rewrite (T booking), (S booking); reflexivity|].
  split; [rewrite (T substitution), (S substitution); reflexivity|].
  unfold render. rewrite H.
  destruct (items_events (getTimelineEvents m) 0) as (E1 & E2 & E3).
  rewrite H in E2.
  destruct (Nat.eqb_spec n 0) as [E|E].
  - split; [tauto|]. split; [tauto|]. intros (its & D & _). discriminate.
  - split; [split; [tauto|discriminate]|].
    split; [|tauto]. intros _.
    exists (items 0 (getTimelineEvents m)).
    repeat split; try assumption.
    eapply Forall_impl; [|exact E3]. now intros i [_ Hi].
Qed.

(** The badge of a goal with additional time shows the nominal minute plus
    that time, followed by the time once more: a goal at 45 with 2 added
    minutes is labelled with minute 47 and [+2]. *)
Theorem goal_badge_counts_added_time (g : Goal) (t : Z) :
  injuryTime g = Some t -> t <> 0 ->
  badge (goalEvent g)
  = (Js.string_of_num (goal_minute g + t) ++ "' +" ++ Js.string_of_num t)%string.
Proof.
  intros Hi Ht. unfold badge, goalEvent. simpl. rewrite Hi. simpl.
  destruct (Z.eqb_spec t 0); [contradiction|]. reflexivity.
Qed.

Lemma goal_badge_counts_added_time_witness :
  badge (goalEvent (Sample.goalAt 45 (Some 2))) = "47' +2"%string.
Proof.
  apply (goal_badge_counts_added_time (Sample.goalAt 45 (Some 2)) 2);
    [reflexivity|lia].
Defined.

End TimelineMore.

(** ** The head-to-head panel *)

Section HeadToHead.
Import MatchH2H.

Lemma tally_from (teamId : Z) (ms : list Match) (acc : Stats) :
  wins (fold_left (countMatch teamId) ms acc)
  = wins acc + wins (tally ms teamId)
  /\ draws (fold_left (countMatch teamId) ms acc)
     = draws acc + draws (tally ms teamId)
  /\ losses (fold_left (countMatch teamId) ms acc)
     = losses acc + losses (tally ms teamId).
Proof.
  unfold tally. revert acc.
  induction ms as [|m ms IH]; intros acc; simpl;
    [repeat split; simpl; lia|].
  destruct (IH (countMatch teamId acc m)) as (Hw & Hd & Hl).
  destruct (IH (countMatch teamId {| wins := 0; draws := 0; losses := 0 |} m))
    as (Hw0 & Hd0 & Hl0).
  rewrite Hw, Hd, Hl, Hw0, Hd0, Hl0.
  generalize (fold_left (countMatch teamId) ms
                        {| wins := 0; draws := 0; losses := 0 |}).
  intros rest. unfold countMatch, getResultText.
  destruct (winner m) as [[| |]|];
    try destruct (homeTeam_id m =? teamId);
    try destruct (awayTeam_id m =? teamId);
    cbn -[Z.add]; repeat split; lia.
Qed.

Lemma tally_cons (teamId : Z) (m : Match) (ms : list Match) :
  wins (tally (m :: ms) teamId)
  = wins (countMatch teamId {| wins := 0; draws := 0; losses := 0 |} m)
    + wins (tally ms teamId)
  /\ draws (tally (m :: ms) teamId)
     = draws (countMatch teamId {| wins := 0; draws := 0; losses := 0 |} m)
       + draws (tally ms teamId)
  /\ losses (tally (m :: ms) teamId)
     = losses (countMatch teamId {| wins := 0; draws := 0; losses := 0 |} m)
       + losses (tally ms teamId).
Proof. unfold tally at 1 3 5. simpl. apply tally_from. Qed.

(** Every match of the list is counted exactly once for a team, as a win,
    a draw or a loss, so the three counts add up to the number of matches;
    a match without a winner yet counts as a draw; and the number of draws
    is the same whichever team is asked for. *)
Theorem h2h_counts_every_match (ms : list Match) (teamId other : Z) :
  wins (tally ms teamId) + draws (tally ms teamId) + losses (tally ms teamId)
  = Z.of_nat (List.length ms)
  /\ 0 <= wins (tally ms teamId)
  /\ 0 <= draws (tally ms teamId)
  /\ 0 <= losses (tally ms teamId)
  /\ draws (tally ms teamId) = draws (tally ms other)
  /\ draws (tally ms teamId)
     = Z.of_nat (List.length
                   (filter (fun m => match winner m with
                                     | None | Some DRAW => true
                                     | _ => false
                                     end) ms)).
Proof.
  induction ms as [|m ms IH]; [repeat split; reflexivity|].
  destruct IH as (Hs & Hw & Hd & Hl & Ho & Hf).
  destruct (tally_cons teamId m ms) as (-> & -> & ->).
  destruct (tally_cons other m ms) as (_ & -> & _).
  rewrite <- Ho. cbn [filter List.length].
  generalize dependent (tally ms teamId). intros rest Hs Hw Hd Hl Ho Hf.
  unfold countMatch, getResultText.
  destruct (winner m) as [[| |]|];
    try destruct (homeTeam_id m =? teamId);
    try destruct (awayTeam_id m =? teamId);
    try destruct (homeTeam_id m =? other);
    try destruct (awayTeam_id m =? other);
    cbn -[Z.of_nat Z.add]; rewrite ?Nat2Z.inj_succ; repeat split; lia.
Qed.

(** When every match of the list is between the two teams of the panel,
    what one team won the other lost. *)
Theorem h2h_stats_mirror (ms : list Match) (homeTeamId awayTeamId : Z) :
  homeTeamId <> awayTeamId ->
  Forall (fun m => homeTeam_id m = homeTeamId /\ awayTeam_id m = awayTeamId
                   \/ homeTeam_id m = awayTeamId /\ awayTeam_id m = homeTeamId)
         ms ->
  wins (getHomeTeamStats ms homeTeamId) = losses (getAwayTeamStats ms awayTeamId)
  /\ losses (getHomeTeamStats ms homeTeamId)
     = wins (getAwayTeamStats ms awayTeamId)
  /\ draws (getHomeTeamStats ms homeTeamId)
     = draws (getAwayTeamStats ms awayTeamId).
Proof.
  unfold getHomeTeamStats, getAwayTeamStats. intros Hne Hall.
  induction Hall as [|m ms Hm _ IH]; [repeat split; reflexivity|].
  destruct IH as (Hw & Hl & Hd).
  destruct (tally_cons homeTeamId m ms) as (-> & -> & ->).
  destruct (tally_cons awayTeamId m ms) as (-> & -> & ->).
  rewrite Hw, Hl, Hd.
  generalize (tally ms awayTeamId). intros rest.
  unfold countMatch, getResultText.
  destruct Hm as [[-> ->]|[-> ->]];
    rewrite ?Z.eqb_refl;
    (destruct (Z.eqb_spec homeTeamId awayTeamId); [contradiction|]);
    (destruct (Z.eqb_spec awayTeamId homeTeamId); [congruence|]);
    destruct (winner m) as [[| |]|]; cbn -[Z.add]; repeat split; lia.
Qed.

Lemma h2h_stats_mirror_witness :
  wins (getHomeTeamStats
          [ {| winner := Some HOME_TEAM; homeTeam_id := 86; awayTeam_id := 81 |};
            {| winner := Some HOME_TEAM; homeTeam_id := 81; awayTeam_id := 86 |};
            {| winner := None; homeTeam_id := 86; awayTeam_id := 81 |} ] 86)
  = losses (getAwayTeamStats
          [ {| winner := Some HOME_TEAM; homeTeam_id := 86; awayTeam_id := 81 |};
            {| winner := Some HOME_TEAM; homeTeam_id := 81; awayTeam_id := 86 |};
            {| winner := None; homeTeam_id := 86; awayTeam_id := 81 |} ] 81).
Proof.
  apply (h2h_stats_mirror _ 86 81); [lia|].
  constructor; [left; split; reflexivity|].
  constructor; [right; split; reflexivity|].
  constructor; [left; split; reflexivity|].
  constructor.
Defined.

End HeadToHead.

(** ** The standings table *)

Section Standings.
Import StandingsTable.

Lemma split_commaFree (a : string) :
  commaFree a = true -> split comma a = [a].
Proof.
  induction a as [|c a IH]; simpl; [reflexivity|].
  intros H. apply andb_prop in H. destruct H as [Hc Ha].
  apply negb_true_iff in Hc. rewrite Hc, (IH Ha). reflexivity.
Qed.

Lemma split_app_comma (a r : string) :
  commaFree a = true ->
  split comma (a ++ String comma r) = a :: split comma r.
Proof.
  induction a as [|c a IH]; simpl; intros H.
  - rewrite ?Ascii.eqb_refl. reflexivity.
  - apply andb_prop in H. destruct H as [Hc Ha].
    apply negb_true_iff in Hc. rewrite Hc, (IH Ha). reflexivity.
Qed.

Lemma split_concat (l : list string) :
  l <> [] -> forallb commaFree l = true ->
  split comma (String.concat "," l) = l.
Proof.
  induction l as [|a l IH]; [congruence|]. intros _ H.
  simpl in H. apply andb_prop in H. destruct H as [Ha Hl].
  destruct l as [|b l]; [now apply split_commaFree|].
  change (String.concat "," (a :: b :: l))
    with (a ++ String comma (String.concat "," (b :: l)))%string.
  rewrite (split_app_comma _ _ Ha), IH; [reflexivity|discriminate|assumption].
Qed.

Lemma split_pieces_commaFree (s : string) :
  forallb commaFree (split comma s) = true.
Proof.
  induction s as [|c s IH]; simpl; [reflexivity|].
  destruct (Ascii.eqb c comma) eqn:E; simpl; [assumption|].
  destruct (split comma s) as [|piece pieces]; simpl in *.
  - now rewrite E.
  - now rewrite E.
Qed.

Lemma filter_all {A : Type} (f : A -> bool) (l : list A) :
  forallb f l = true -> filter f l = l.
Proof.
  induction l as [|x l IH]; simpl; [reflexivity|].
  intros H. apply andb_prop in H. destruct H as [-> Hl].
  now rewrite (IH Hl).
Qed.

Lemma filter_none {A : Type} (f : A -> bool) (l : list A) :
  forallb (fun x => negb (f x)) l = true -> filter f l = [].
Proof.
  induction l as [|x l IH]; simpl; [reflexivity|].
  intros H. apply andb_prop in H. destruct H as [Hx Hl].
  apply negb_true_iff in Hx. rewrite Hx. now apply IH.
Qed.

(** The form of a row is read back as it was written: a form string made
    of results joined by commas, each result non-empty and without a comma,
    parses into exactly those results.  Whatever the string, no parsed
    result is empty or holds a comma, and a missing or empty form gives no
    result. *)
Theorem parseForm_round_trip (l : list string) (form : option string) :
  forallb isResult l = true ->
  parseForm (Some (String.concat "," l)) = l
  /\ forallb isResult (parseForm form) = true
  /\ parseForm None = []
  /\ parseForm (Some ""%string) = [].
Proof.
  intros Hl. split; [|split; [|split; reflexivity]].
  - destruct l as [|a l]; [reflexivity|].
    assert (Hc : forallb commaFree (a :: l) = true).
    { clear -Hl. induction (a :: l) as [|x xs IH]; simpl in *; [reflexivity|].
      apply andb_prop in Hl. destruct Hl as [Hx Hxs].
      unfold isResult in Hx. apply andb_prop in Hx. destruct Hx as [_ ->].
      now apply IH. }
    assert (Hn : forallb (fun f => (0 <? String.length f)%nat) (a :: l) = true).
    { clear -Hl. induction (a :: l) as [|x xs IH]; simpl in *; [reflexivity|].
      apply andb_prop in Hl. destruct Hl as [Hx Hxs].
      unfold isResult in Hx. apply andb_prop in Hx. destruct Hx as [-> _].
      now apply IH. }
    unfold parseForm.
    assert (Ht : Js.truthy_str (Some (String.concat "," (a :: l))) = true).
    { simpl in Hn. apply andb_prop in Hn. destruct Hn as [Ha _].
      destruct a as [|c a]; [discriminate|].
      destruct l; reflexivity. }
    rewrite Ht, split_concat; [now apply filter_all|discriminate|assumption].
  - unfold parseForm. destruct (Js.truthy_str form); [|reflexivity].
    destruct form as [f|]; [|reflexivity].
    pose proof (split_pieces_commaFree f) as H.
    induction (split comma f) as [|x xs IH]; simpl in *; [reflexivity|].
    apply andb_prop in H. destruct H as [Hx Hxs].
    destruct (0 <? String.length x)%nat eqn:E; simpl; [|now apply IH].
    apply andb_true_intro. split; [|now apply IH].
    unfold isResult. now rewrite E, Hx.
Qed.

Lemma parseForm_round_trip_witness :
  parseForm (Some "W,D,L,W,W"%string)
  = ["W"; "D"; "L"; "W"; "W"]%string.
Proof.
  apply (parseForm_round_trip ["W"; "D"; "L"; "W"; "W"]%string None).
  reflexivity.
Defined.

Lemma relegation_spec (standing : Standing) (position : Z) :
  String.eqb (getPositionColor standing position) "#ff6b6b"
  = (6 <? position)
    && (Z.of_nat (List.length (table standing)) - 2 <=? position).
Proof.
  unfold getPositionColor.
  destruct (Z.leb_spec position 4), (Z.leb_spec position 6),
           (Z.geb_spec position (Z.of_nat (List.length (table standing)) - 2)),
           (Z.ltb_spec 6 position),
           (Z.leb_spec (Z.of_nat (List.length (table standing)) - 2) position);
    try reflexivity; lia.
Qed.

(** The relegation colour is given to a position exactly when it is among
    the last three and beyond the sixth, the colours of the first six
    places taking precedence: of the rows 1 to [n] of a table, three are
    marked when there are nine rows or more, [n - 6] when there are seven
    or eight, and none in a table of six rows or fewer. *)
Theorem relegation_rows (standing : Standing) (position : Z) :
  let n := List.length (table standing) in
  String.eqb (getPositionColor standing position) "#ff6b6b"
  = (6 <? position) && (Z.of_nat n - 2 <=? position)
  /\ List.length
       (filter (fun p => String.eqb (getPositionColor standing p) "#ff6b6b")
               (map Z.of_nat (seq 1 n)))
     = Nat.min 3 (n - 6).
Proof.
  intros n. split; [apply relegation_spec|].
  set (r := Nat.min 3 (n - 6)).
  replace n with ((n - r) + r)%nat at 1 by (subst r; lia).
  rewrite seq_app, map_app, filter_app, length_app.
  rewrite filter_none, filter_all.
  - rewrite length_map, length_seq. reflexivity.
  - apply forallb_forall. intros p Hp. apply in_map_iff in Hp.
    destruct Hp as (k & <- & Hk). apply in_seq in Hk.
    rewrite relegation_spec. fold n.
    apply andb_true_intro; split;
      [apply Z.ltb_lt|apply Z.leb_le]; subst r; lia.
  - apply forallb_forall. intros p Hp. apply in_map_iff in Hp.
    destruct Hp as (k & <- & Hk). apply in_seq in Hk.
    rewrite relegation_spec. fold n. apply negb_true_iff.
    apply andb_false_iff.
    destruct (Z.ltb_spec 6 (Z.of_nat k)); [right|left; reflexivity].
    apply Z.leb_gt. subst r. lia.
Qed.

End Standings.

(** ** More of the services *)

Section ServicesMore.
Import Axios.

(** Every method of the three services makes exactly one request and takes
    no pause; it resolves with the body of the response when the request
    is answered, and rejects with the structured error of the response
    interceptor, unchanged, when it fails. *)
Theorem service_sends_one_request
        (c : Services.Call) (net : Network) (w : World) :
  exists request,
    Services.run c net w
    = (match net (List.length (sent w)) request with
       | Fulfilled r => inr (resp_data r)
       | Failed e => inl (ApiFailure (responseErrorInterceptor e))
       end,
       {| sent := sent w ++ [request]; slept := slept w |}).
Proof.
  destruct c; unfold Services.run; autounfold with services;
    match goal with
    | |- context [net ?n ?r] => exists r; destruct (net n r)
    end; reflexivity.
Qed.

Lemma sent_getMatchById (m : Z) (u : MatchesService.UnfoldOptions)
      (net : Network) (w : World) :
  sent (snd (MatchesService.getMatchById m u net w))
  = sent w ++ [{| url := ("/matches/" ++ Js.string_of_num m)%string;
                  params := None;
                  headers := Some (MatchesService.unfoldHeaders u) |}].
Proof.
  unfold MatchesService.getMatchById, await, get, resolve.
  destruct (net _ _); reflexivity.
Qed.

Lemma sent_getHead2Head (m l : Z) (u : MatchesService.UnfoldOptions)
      (net : Network) (w : World) :
  sent (snd (MatchesService.getHead2Head m l u net w))
  = sent w
    ++ [{| url := ("/matches/" ++ Js.string_of_num m ++ "/head2head")%string;
           params := Some (Js.VObj [("limit"%string, Js.VNum l)]);
           headers := Some (MatchesService.unfoldHeaders u) |}].
Proof.
  unfold MatchesService.getHead2Head, await, get, resolve.
  destruct (net _ _); reflexivity.
Qed.

(** The expansion headers say exactly what the flags say: the list, the
    single-match and the head-to-head request carry the same headers for
    the same flags, one header for each flag that is set and none for a
    flag that is not, and the flags can be read back from them. *)
Theorem unfold_headers_round_trip
        (u : MatchesService.UnfoldOptions)
        (o : MatchesService.GetMatchesOptions) (m l : Z) (net : Network) :
  Services.flagsOf (MatchesService.unfoldHeaders u) = u
  /\ List.length (Services.propsOf (MatchesService.unfoldHeaders u))
     = Services.flagsSet u
  /\ map headers (sent (snd (MatchesService.getMatches o u net start)))
     = [Some (MatchesService.unfoldHeaders u)]
  /\ map headers (sent (snd (MatchesService.getMatchById m u net start)))
     = [Some (MatchesService.unfoldHeaders u)]
  /\ map headers (sent (snd (MatchesService.getHead2Head m l u net start)))
     = [Some (MatchesService.unfoldHeaders u)].
Proof.
  split; [|split].
  - destruct u as [[[|]|] [[|]|] [[|]|] [[|]|]]; reflexivity.
  - destruct u as [[[|]|] [[|]|] [[|]|] [[|]|]]; reflexivity.
  - rewrite getMatches_sends, sent_getMatchById, sent_getHead2Head.
    repeat split; reflexivity.
Qed.

(** A filter that is empty or zero is not sent by the competitions
    service: an empty season, date or area and a matchday or limit of 0
    give the request of a call without that filter, and a call whose
    filters are all of this kind gives the request of a call without
    options. *)
Theorem falsy_filters_are_dropped
        (code : string) (season date : option string)
        (matchday limit : option Z) :
  CompetitionsService.getStandings
    code (Some {| CompetitionsService.st_season := Some ""%string;
                  CompetitionsService.st_matchday := matchday;
                  CompetitionsService.st_date := date |})
  = CompetitionsService.getStandings
      code (Some {| CompetitionsService.st_season := None;
                    CompetitionsService.st_matchday := matchday;
                    CompetitionsService.st_date := date |})
  /\ CompetitionsService.getStandings
       code (Some {| CompetitionsService.st_season := season;
                     CompetitionsService.st_matchday := Some 0;
                     CompetitionsService.st_date := date |})
     = CompetitionsService.getStandings
         code (Some {| CompetitionsService.st_season := season;
                       CompetitionsService.st_matchday := None;
                       CompetitionsService.st_date := date |})
  /\ CompetitionsService.getStandings
       code (Some {| CompetitionsService.st_season := Some ""%string;
                     CompetitionsService.st_matchday := Some 0;
                     CompetitionsService.st_date := Some ""%string |})
     = CompetitionsService.getStandings code None
  /\ CompetitionsService.getScorers
       code (Some {| CompetitionsService.sc_limit := Some 0;
                     CompetitionsService.sc_season := season |})
     = CompetitionsService.getScorers
         code (Some {| CompetitionsService.sc_limit := None;
                       CompetitionsService.sc_season := season |})
  /\ CompetitionsService.getScorers
       code (Some {| CompetitionsService.sc_limit := Some 0;
                     CompetitionsService.sc_season := Some ""%string |})
     = CompetitionsService.getScorers code None
  /\ CompetitionsService.getTeams
       code (Some {| CompetitionsService.tm_season := Some ""%string |})
     = CompetitionsService.getTeams code None
  /\ CompetitionsService.getCompetitions
       {| CompetitionsService.areas := Some ""%string |}
     = CompetitionsService.getCompetitions
         {| CompetitionsService.areas := None |}
  /\ CompetitionsService.getStandings
       code (Some {| CompetitionsService.st_season := season;
                     CompetitionsService.st_matchday := matchday;
                     CompetitionsService.st_date := Some ""%string |})
     = CompetitionsService.getStandings
         code (Some {| CompetitionsService.st_season := season;
                       CompetitionsService.st_matchday := matchday;
                       CompetitionsService.st_date := None |})
  /\ CompetitionsService.getScorers
       code (Some {| CompetitionsService.sc_limit := limit;
                     CompetitionsService.sc_season := Some ""%string |})
     = CompetitionsService.getScorers
         code (Some {| CompetitionsService.sc_limit := limit;
                       CompetitionsService.sc_season := None |}).
Proof.
  repeat split; reflexivity.
Qed.

Lemma status_name_meaningful (st : MatchesService.StatusFilter) :
  Services.meaningful (Js.VStr (MatchesService.status_name st)) = true.
Proof. destruct st; reflexivity. Qed.

Lemma venue_name_meaningful (v : TeamsService.Venue) :
  Services.meaningful (Js.VStr (TeamsService.venue_name v)) = true.
Proof. destruct v; reflexivity. Qed.

Lemma sent_getTeamMatches (id : option Z)
      (o : TeamsService.GetTeamMatchesOptions) (net : Network) (w : World) :
  exists ps,
    sent (snd (TeamsService.getTeamMatches id o net w))
    = sent w ++ [{| url := ("/teams/" ++ Js.template_num id ++ "/matches")%string;
                    params := Some (Js.VObj ps); headers := None |}]
    /\ forallb (fun kv => Services.meaningful (snd kv)) ps = true
    /\ (find (fun kv => String.eqb (fst kv) "limit") ps
        = match TeamsService.limit o with
          | Some n => Some ("limit"%string, Js.VNum n)
          | None => None
          end).
Proof.
  unfold TeamsService.getTeamMatches, await, get, resolve.
  eexists. split; [destruct (net _ _); reflexivity|].
  destruct o as [[[|c1 s1]|] [[|c2 s2]|] [[|c3 s3]|] [[|c4 s4]|]
                 [st|] [v|] [n|]];
    cbn -[Services.meaningful MatchesService.status_name
          TeamsService.venue_name];
    rewrite ?status_name_meaningful, ?venue_name_meaningful;
    split; reflexivity.
Qed.

(** The team-matches request carries a parameter for exactly the filters
    that say something: no parameter is an empty text or undefined, and a
    limit is sent whenever one is given, a limit of 0 included, which the
    scorers request would drop. *)
Theorem team_matches_params
        (id : option Z) (o : TeamsService.GetTeamMatchesOptions)
        (net : Network) :
  exists ps,
    sent (snd (TeamsService.getTeamMatches id o net start))
    = [{| url := ("/teams/" ++ Js.template_num id ++ "/matches")%string;
          params := Some (Js.VObj ps); headers := None |}]
    /\ forallb (fun kv => Services.meaningful (snd kv)) ps = true
    /\ (find (fun kv => String.eqb (fst kv) "limit") ps
        = match TeamsService.limit o with
          | Some n => Some ("limit"%string, Js.VNum n)
          | None => None
          end).
Proof.
  destruct (sent_getTeamMatches id o net start) as (ps & H1 & H2 & H3).
  exists ps. repeat split; assumption.
Qed.

End ServicesMore.

(** ** More of the hooks *)

Section HooksMore.
Import Axios ReactQuery.

(** A hook that is handed [null] for the id or code its query is about is
    disabled whatever [enabled] says: mounting it runs nothing, sends no
    request and leaves the query idle without data or error.  This holds
    for each of the eleven hooks that take such a parameter. *)
Theorem missing_key_disables
        (c : Hooks.Call) (net : Network) (w : World) (fuel : nat) :
  MissingKey.missingKey c = true ->
  enabledOf (App.effective (Hooks.options c)) = false
  /\ mount fuel (App.effective (Hooks.options c)) net w
     = (Some initialState, w).
Proof.
  intros H.
  assert (He : enabledOf (App.effective (Hooks.options c)) = false).
  { destruct c; simpl in H; try discriminate;
      match goal with
      | x : option _ |- _ => destruct x; [discriminate|]
      end;
      match goal with
      | b : bool |- _ => destruct b; reflexivity
      end. }
  split; [exact He|]. unfold mount. now rewrite He.
Qed.

Lemma missing_key_disables_witness :
  mount 3 (App.effective (Hooks.options (Hooks.UseTeam None true)))
        (Sample.always Sample.notFound) start
  = (Some initialState, start).
Proof.
  apply (missing_key_disables (Hooks.UseTeam None true)). reflexivity.
Defined.

(** One failure that passes is not seen by the caller: when the first
    attempt of an enabled query fails and the second is answered, every
    hook reports the body of the answer as data, with no error, after two
    identical requests and a single pause of one second. *)
Theorem transient_failure_recovers
        (c : Hooks.Call) (e : AxiosError) (r : AxiosResponse) (extra : nat) :
  enabledOf (Hooks.options c) = true ->
  exists request,
    mount (2 + extra) (App.effective (Hooks.options c))
          (Services.flaky e r) start
    = (Some {| data := Some (resp_data r); state_error := None;
               status := success; fetchStatus := idle |},
       {| sent := [request; request]; slept := [1000] |}).
Proof.
  intros H. unfold mount.
  replace (enabledOf (App.effective (Hooks.options c))) with true
    by (symmetry; exact H).
  destruct c; simpl in H;
    repeat match goal with
           | x : option Z |- _ => destruct x as [[|?|?]|]
           | b : bool |- _ => destruct b
           end;
    try discriminate; eexists; reflexivity.
Qed.

Lemma transient_failure_recovers_witness :
  exists request,
    mount 2 (App.effective
               (Hooks.options
                  (Hooks.UseTodayMatches MatchesService.noUnfold true)))
          (Services.flaky Sample.timedOut
                          {| resp_status := 200;
                             resp_data := Sample.premierLeague |})
          start
    = (Some {| data := Some Sample.premierLeague; state_error := None;
               status := success; fetchStatus := idle |},
       {| sent := [request; request]; slept := [1000] |}).
Proof.
  apply (transient_failure_recovers
           (Hooks.UseTodayMatches MatchesService.noUnfold true)
           Sample.timedOut
           {| resp_status := 200; resp_data := Sample.premierLeague |} 0).
  reflexivity.
Defined.

End HooksMore.

(** ** More of the cache keys *)

Section CacheKeysMore.
Import ReactQuery.

Lemma eqb_append_l (p a b : string) :
  String.eqb (p ++ a) (p ++ b) = String.eqb a b.
Proof.
  induction p as [|c p IH]; simpl; [reflexivity|].
  now rewrite Ascii.eqb_refl.
Qed.

(** The two hooks that load a competition by its code send the same
    request, [GET /competitions/{code}], but file it under different cache
    keys: a page that uses one never reuses what the other has fetched. *)
Theorem competition_by_code_cached_twice
        (code : option string) (e1 e2 : bool) :
  queryFn (UseCompetitionDetail.useFullCompetition code e1)
  = queryFn (UseCompetitions.useCompetitionByCode code e2)
  /\ String.eqb
       (hashKey (queryKey (UseCompetitionDetail.useFullCompetition code e1)))
       (hashKey (queryKey (UseCompetitions.useCompetitionByCode code e2)))
     = false.
Proof.
  split; [reflexivity|]. vm_compute. reflexivity.
Qed.

Lemma match_and_h2h_keys_differ
      (m : option Z) (l : Z) (u1 u2 : MatchesService.UnfoldOptions)
      (e1 e2 : bool) :
  String.eqb (hashKey (queryKey (UseMatches.useMatchById m u1 e1)))
             (hashKey (queryKey (UseMatches.useHead2Head m l u2 e2))) = false.
Proof.
  rewrite !hashKey_items.
  cbn [queryKey UseMatches.useMatchById UseMatches.useHead2Head map
       String.concat].
  unfold MatchesService.unfoldValue at 1.
  match goal with
  | |- context [Js.item_text (Js.VObj ?ps)] =>
      destruct (item_text_object ps) as [rest ->]
  end.
  generalize (Js.item_text (Key.num m)),
             (Js.item_text (MatchesService.unfoldValue u2)),
             (Js.item_text (Js.VNum l)).
  intros N U L.
  change (Js.item_text (Js.VStr "match")) with (Js.json_quote "match").
  change (Js.item_text (Js.VStr "head2head"))
    with (Js.json_quote "head2head").
  cbn. rewrite !append_assoc, eqb_append_l. reflexivity.
Qed.

(** Queries of different kinds never share a cache entry, whatever their
    parameters: today's matches, the live matches and a filtered list of
    matches have three different keys, and so have a match and the
    head-to-head of the same match. *)
Theorem match_queries_of_different_kinds_have_different_keys
        (o : MatchesService.GetMatchesOptions) (m : option Z) (l : Z)
        (u1 u2 : MatchesService.UnfoldOptions) (e1 e2 : bool) :
  String.eqb (hashKey (queryKey (UseMatches.useTodayMatches u1 e1)))
             (hashKey (queryKey (UseMatches.useLiveMatches u2 e2))) = false
  /\ String.eqb (hashKey (queryKey (UseMatches.useMatches o u1 e1)))
                (hashKey (queryKey (UseMatches.useTodayMatches u2 e2))) = false
  /\ String.eqb (hashKey (queryKey (UseMatches.useMatches o u1 e1)))
                (hashKey (queryKey (UseMatches.useLiveMatches u2 e2))) = false
  /\ String.eqb (hashKey (queryKey (UseMatches.useMatchById m u1 e1)))
                (hashKey (queryKey (UseMatches.useHead2Head m l u2 e2)))
     = false.
Proof.
  split; [vm_compute; reflexivity|].
  split; [vm_compute; reflexivity|].
  split; [vm_compute; reflexivity|].
  apply match_and_h2h_keys_differ.
Qed.

End CacheKeysMore.

(** ** What the pages show *)

Section PagesMore.
Import Axios ReactQuery Views.

Lemma clientErrorMessage_not_empty (st : Z) :
  String.eqb (clientErrorMessage st) "" = false.
Proof.
  unfold clientErrorMessage.
  destruct (st =? 400); [reflexivity|].
  destruct (st =? 403); [reflexivity|].
  destruct (st =? 404); [reflexivity|].
  destruct (st =? 429); reflexivity.
Qed.

(** The message of the structured error is never empty, so a view that
    shows [error.message || fallback] shows the interceptor's message for
    every failed request and never its own fallback text. *)
Theorem structured_error_message_is_shown (e : AxiosError) (fallback : string) :
  String.eqb (custom_message (responseErrorInterceptor e)) "" = false
  /\ messageOr (ApiFailure (responseErrorInterceptor e)) fallback
     = custom_message (responseErrorInterceptor e).
Proof.
  assert (H : String.eqb (custom_message (responseErrorInterceptor e)) ""
              = false).
  { unfold responseErrorInterceptor.
    destruct (response e) as [r|]; [|reflexivity].
    destruct ((Axios.status r >=? 400) && (Axios.status r <? 500)).
    - simpl. unfold error_or. destruct (Axios.data r) as [d|].
      + destruct (String.eqb (Axios.error d) "") eqn:E;
          [apply clientErrorMessage_not_empty|exact E].
      + apply clientErrorMessage_not_empty.
    - destruct (Axios.status r >=? 500); reflexivity. }
  split; [exact H|]. unfold messageOr. simpl. now rewrite H.
Qed.

(** A query in the [pending] status holds neither data nor an error. *)
Lemma pending_clean (history : list Action) :
  ReactQuery.status (after history) = pending ->
  ReactQuery.data (after history) = None
  /\ state_error (after history) = None.
Proof.
  induction history as [|a history IH] using rev_ind; [now split|].
  rewrite after_snoc. destruct a; simpl.
  - destruct (ReactQuery.data (after history)) eqn:E; simpl; [|now split].
    intros H. apply IH in H. destruct H as [H _]. congruence.
  - discriminate.
  - discriminate.
Qed.

Lemma loading_clean (history : list Action) :
  isLoading (result (after history)) = true ->
  ReactQuery.data (after history) = None
  /\ state_error (after history) = None.
Proof.
  unfold result. simpl. intros H. apply andb_prop in H. destruct H as [_ H].
  unfold isPending in H.
  destruct (ReactQuery.status (after history)) eqn:E; try discriminate.
  now apply pending_clean.
Qed.

(** On the match page a missing match id never becomes an error: the match
    query and the head-to-head query are both disabled and send nothing,
    and the page shows its loading view although nothing is loading. *)
Theorem match_page_without_id_keeps_loading
        (net : Network) (w : World) (fuel : nat) :
  mount fuel (App.effective (MatchDetail.matchQuery None)) net w
  = (Some initialState, w)
  /\ mount fuel (App.effective (MatchDetail.h2hQuery None)) net w
     = (Some initialState, w)
  /\ mount fuel (App.effective (MatchDetail.matchQuery (Some 0))) net w
     = (Some initialState, w)
  /\ mount fuel (App.effective (MatchDetail.h2hQuery (Some 0))) net w
     = (Some initialState, w)
  /\ isLoading (result initialState) = false
  /\ MatchDetail.render (result initialState)
     = LoadingView "Cargando información del partido...".
Proof.
  repeat split; reflexivity.
Qed.

(** On the match page the message of a failed request is never shown: the
    structured error is a plain object, not an [Error], so once the three
    attempts for a match have failed the page shows its own fallback text,
    whatever the kind of the failure. *)
Theorem match_page_hides_api_message
        (id : positive) (e : nat -> Request -> AxiosError) (extra : nat) :
  exists st w',
    mount (3 + extra) (App.effective (MatchDetail.matchQuery (Some (Z.pos id))))
          (fun n r => Failed (e n r)) start
    = (Some st, w')
    /\ List.length (sent w') = 3%nat
    /\ slept w' = [1000; 2000]
    /\ MatchDetail.render (result st)
       = ErrorView "No se pudo cargar la información del partido".
Proof.
  do 2 eexists. repeat split; reflexivity.
Qed.

(** What the competition page returns follows the parent query: the
    content only when the parent holds a competition and no error, the
    four children then being enabled if the route has a code; the loading
    view only while the parent has neither data nor error, the children
    then being disabled; and after any failure of the parent the error
    view with the message of that failure, also when the data of an
    earlier success is still there.  Without a code in the route nothing
    is requested and the error view with the fallback text is shown. *)
Theorem competition_page_view
        (code : option string) (history : list Action) (e : Thrown)
        (net : Network) (w : World) (fuel : nat) :
  let parent := result (after history) in
  let children :=
    CompetitionDetail.children (CompetitionDetail.queries code parent) in
  match CompetitionDetailView.render parent with
  | ContentView c =>
      result_data parent = Some c /\ result_error parent = None
      /\ forallb (fun q => enabledOf (App.effective q)) children
         = Js.truthy_str code
  | LoadingView _ =>
      result_data parent = None /\ result_error parent = None
      /\ forallb (fun q => negb (enabledOf (App.effective q))) children = true
  | ErrorView _ => True
  end
  /\ CompetitionDetailView.render (result (after (history ++ [Failure e])))
     = ErrorView (messageOr e CompetitionDetailView.fallback)
  /\ mount fuel
           (App.effective
              (CompetitionDetail.competitionQuery
                 (CompetitionDetail.queries None parent))) net w
     = (Some initialState, w)
  /\ mount fuel
           (App.effective
              (CompetitionDetail.competitionQuery
                 (CompetitionDetail.queries (Some ""%string) parent))) net w
     = (Some initialState, w)
  /\ CompetitionDetailView.render (result initialState)
     = ErrorView CompetitionDetailView.fallback
  /\ (Js.truthy_str code = false ->
      forall q, In q children ->
                mount fuel (App.effective q) net w = (Some initialState, w)).
Proof.
  intros parent children. subst parent children.
  split; [|split; [|do 3 (split; [reflexivity|])]];
    [| |intros Hc q Hq; unfold mount;
        now rewrite (child_enabled _ _ _ Hq), Hc].
  - unfold CompetitionDetailView.render.
    destruct (isLoading (result (after history))) eqn:El.
    + destruct (loading_clean _ El) as [Hd He].
      repeat split; try assumption.
      simpl. rewrite Hd.
      destruct code as [[|c code]|]; reflexivity.
    + destruct (result_error (result (after history))) eqn:Ee; [exact I|].
      destruct (result_data (result (after history))) as [c|] eqn:Ed;
        [|exact I].
      destruct (Js.truthy c) eqn:Et; [|exact I].
      repeat split. simpl. unfold result in Ed. simpl in Ed. rewrite Ed.
      simpl. rewrite Et.
      destruct code as [[|x code]|]; reflexivity.
  - rewrite after_snoc. unfold CompetitionDetailView.render. simpl.
    reflexivity.
Qed.

(** The panels of the home page never contradict each other: the loading
    panel is shown only while there is neither an error nor a list to
    show; and after a failure the error panel appears with the message of
    the failure while the list fetched before, if any, stays on screen. *)
Theorem home_page_sections (history : list Action) (e : Thrown) :
  let now := Home.render (result (after history)) in
  let failed := Home.render (result (after (history ++ [Failure e]))) in
  (if Home.loading now
   then Home.errorPanel now = None /\ Home.list now = None
   else True)
  /\ Home.loading failed = false
  /\ Home.errorPanel failed = Some (messageOr e Home.fallback)
  /\ Home.list failed
     = match ReactQuery.data (after history) with
       | Some d => if Js.truthy d then Some d else None
       | None => None
       end.
Proof.
  intros now failed. subst now failed. split.
  - unfold Home.render. cbn [Home.loading Home.errorPanel Home.list].
    destruct (isLoading (result (after history))) eqn:El; [|exact I].
    destruct (loading_clean _ El) as [Hd He].
    unfold result. simpl. now rewrite Hd, He.
  - rewrite after_snoc. unfold Home.render, result. simpl.
    repeat split.
    destruct (ReactQuery.data (after history)) as [d|]; [|reflexivity].
    now rewrite andb_true_r.
Qed.

(** On the team page the two match lists are fetched only with a team:
    each is enabled exactly when the route gives a team id and the team
    query holds data, so neither is enabled while the team is still
    loading; and the two lists, which differ in the status they ask for,
    are filed under different cache keys. *)
Theorem team_page_lists_gated
        (teamId : option Z) (history : list Action) :
  let parent := result (after history) in
  let q := TeamDetail.queries teamId parent in
  let gate := Js.truthy_num teamId
              && CompetitionDetail.present (result_data parent) in
  enabledOf (App.effective (TeamDetail.lastMatchesQuery q)) = gate
  /\ enabledOf (App.effective (TeamDetail.nextMatchesQuery q)) = gate
  /\ (if isLoading parent then gate = false else True)
  /\ String.eqb (hashKey (queryKey (TeamDetail.lastMatchesQuery q)))
                (hashKey (queryKey (TeamDetail.nextMatchesQuery q)))
     = false.
Proof.
  intros parent q gate. subst parent q gate.
  assert (Hg : forall b,
             Js.truthy_num teamId && (Js.truthy_num teamId && b)
             = Js.truthy_num teamId && b)
    by (intros b; destruct (Js.truthy_num teamId); reflexivity).
  split; [simpl; apply Hg|]. split; [simpl; apply Hg|]. split.
  - destruct (isLoading (result (after history))) eqn:El; [|exact I].
    destruct (loading_clean _ El) as [Hd _].
    unfold result. simpl. rewrite Hd. simpl. apply andb_false_r.
  - rewrite !hashKey_items.
    cbn [queryKey TeamDetail.queries TeamDetail.lastMatchesQuery
         TeamDetail.nextMatchesQuery UseTeamDetail.useTeamMatches
         UseCompetitions.plain map String.concat].
    generalize (Js.item_text (Key.num teamId)). intros N.
    change (Js.item_text (Js.VStr "team")) with (Js.json_quote "team").
    change (Js.item_text (Js.VStr "matches")) with (Js.json_quote "matches").
    cbn. rewrite !append_assoc, eqb_append_l. vm_compute. reflexivity.
Qed.

End PagesMore.

(** ** The squad table *)

Section Squad.
Import SquadTable.

(** The mapping the component documents, on the model. *)
Example normalizePosition_documented :
  map (fun t => normalizePosition (Some t))
      ["Goalkeeper"; "Defence"; "Right-Back"; "Left-Back"; "Centre-Back";
       "Midfield"; "Attacking Midfield"; "Defensive Midfield"; "Offence";
       "Centre-Forward"; "Right Winger"; "Left Winger"; "  Coach "]%string
  = ["Goalkeeper"; "Defence"; "Defence"; "Defence"; "Defence";
     "Midfield"; "Midfield"; "Midfield"; "Offence";
     "Offence"; "Offence"; "Offence"; "Unknown"]%string.
Proof. vm_compute. reflexivity. Qed.

Lemma groupOf_known (player : SquadPlayer) :
  In (groupOf player) positionOrder.
Proof.
  unfold groupOf, normalizePosition, positionOrder.
  destruct (Js.truthy_str _); [|simpl; tauto].
  destruct (test reGoal _); [simpl; tauto|].
  destruct (test reDefence _); [simpl; tauto|].
  destruct (test reMid _); [simpl; tauto|].
  destruct (test reOff _); simpl; tauto.
Qed.

Lemma members_push (pos k : string) (player : SquadPlayer) (acc : Groups) :
  members pos (push k player acc)
  = members pos acc ++ (if String.eqb k pos then [player] else []).
Proof.
  unfold members.
  induction acc as [|[k' players] acc IH]; simpl.
  - destruct (String.eqb k pos); reflexivity.
  - destruct (String.eqb_spec k' k) as [->|Hk]; simpl.
    + destruct (String.eqb k pos); [reflexivity|].
      destruct (lookup pos acc); now rewrite app_nil_r.
    + destruct (String.eqb_spec k' pos) as [->|Hp]; [|exact IH].
      destruct (String.eqb_spec k pos) as [->|_]; [congruence|].
      now rewrite app_nil_r.
Qed.

Lemma members_fold (pos : string) (players : list SquadPlayer) (acc : Groups) :
  members pos
          (fold_left (fun acc player => push (groupOf player) player acc)
                     players acc)
  = members pos acc
    ++ filter (fun player => String.eqb (groupOf player) pos) players.
Proof.
  revert acc. induction players as [|x players IH]; intros acc; simpl.
  - now rewrite app_nil_r.
  - rewrite IH, members_push, <- app_assoc.
    destruct (String.eqb (groupOf x) pos); reflexivity.
Qed.

Lemma partition_by_key {A : Type} (key : A -> string) (keys : list string)
      (l : list A) :
  NoDup keys -> (forall x, In x l -> In (key x) keys) ->
  Permutation
    (flat_map (fun k => filter (fun x => String.eqb (key x) k) l) keys) l.
Proof.
  intros Hnd. induction l as [|x l IH]; intros Hin.
  - induction keys as [|k keys IHk]; simpl; [constructor|].
    inversion Hnd; subst. now apply IHk.
  - assert (Hl : forall y, In y l -> In (key y) keys)
      by (intros y Hy; apply Hin; now right).
    specialize (IH Hl).
    assert (Hx : In (key x) keys) by (apply Hin; now left).
    clear Hin Hl.
    transitivity
      (x :: flat_map (fun k => filter (fun x0 => String.eqb (key x0) k) l)
                     keys);
      [|now constructor].
    clear IH.
    induction keys as [|k keys IHk]; [destruct Hx|].
    inversion Hnd as [|? ? Hk Hnd']; subst. cbn [flat_map filter].
    destruct (String.eqb_spec (key x) k) as [E|E].
    + cbn [app]. constructor. apply Permutation_app_head.
      assert (Hsame : forall ks, ~ In k ks ->
                flat_map (fun k0 => filter (fun x0 => String.eqb (key x0) k0)
                                           (x :: l)) ks
                = flat_map (fun k0 => filter (fun x0 => String.eqb (key x0) k0)
                                             l) ks).
      { induction ks as [|k0 ks IHs]; intros Hn; [reflexivity|].
        cbn [flat_map]. rewrite IHs by (intros H; apply Hn; now right).
        f_equal. cbn [filter].
        destruct (String.eqb_spec (key x) k0) as [E0|_]; [|reflexivity].
        exfalso. apply Hn. left. congruence. }
      now rewrite Hsame.
    + destruct Hx as [Hx|Hx]; [congruence|].
      rewrite (IHk Hnd' Hx).
      apply Permutation_sym, Permutation_middle.
Qed.

Lemma concat_shown {A : Type} (F : string -> list A) (keys : list string) :
  List.concat
    (map snd (flat_map (fun pos => match F pos with
                                   | [] => []
                                   | group => [(pos, group)]
                                   end) keys))
  = flat_map F keys.
Proof.
  induction keys as [|k keys IH]; [reflexivity|].
  cbn [flat_map]. rewrite map_app, concat_app, IH.
  destruct (F k); [reflexivity|]. cbn. now rewrite app_nil_r.
Qed.

Lemma shown_named {A : Type} (F : string -> list A) (keys : list string) :
  Forall (fun g => In (fst g) keys /\ snd g <> [])
         (flat_map (fun pos => match F pos with
                               | [] => []
                               | group => [(pos, group)]
                               end) keys).
Proof.
  induction keys as [|k keys IH]; [constructor|].
  cbn [flat_map]. apply Forall_app. split.
  - destruct (F k); constructor; [|constructor].
    split; [now left|discriminate].
  - eapply Forall_impl; [|exact IH].
    intros g [Hin Hne]. split; [now right|assumption].
Qed.

Lemma positionOrder_NoDup : NoDup positionOrder.
Proof.
  unfold positionOrder.
  repeat (constructor; [cbn [In]; intros H; decompose [or] H;
                        try discriminate; assumption|]).
  constructor.
Qed.

(** The squad table shows every player of the squad it is given exactly
    once: the groups shown are those of Goalkeeper, Defence, Midfield,
    Offence and Unknown that have a player, in that order, each holding the
    players whose position normalises to it in the order of the squad, so
    all together they are the squad rearranged. *)
Theorem squad_groups_partition
        (squad : list SquadPlayer) (wanted : option string) :
  let players := filteredSquad squad wanted in
  shownGroups squad wanted
  = flat_map (fun pos =>
                match filter (fun p => String.eqb (groupOf p) pos) players with
                | [] => []
                | group => [(pos, group)]
                end) positionOrder
  /\ Permutation (List.concat (map snd (shownGroups squad wanted))) players
  /\ Forall (fun g => In (fst g) positionOrder /\ snd g <> [])
            (shownGroups squad wanted).
Proof.
  intros players.
  assert (H : shownGroups squad wanted
              = flat_map (fun pos =>
                  match filter (fun p => String.eqb (groupOf p) pos) players with
                  | [] => []
                  | group => [(pos, group)]
                  end) positionOrder).
  { unfold shownGroups, groupedSquad. fold players.
    apply flat_map_ext. intros pos.
    pose proof (members_fold pos players []) as Hm.
    unfold members in Hm. cbn [lookup app] in Hm.
    fold groupOf. unfold groupOf in Hm |- *.
    destruct (lookup pos _) as [found|]; rewrite <- Hm;
      [destruct found|]; reflexivity. }
  split; [exact H|]. rewrite H. split.
  - rewrite (concat_shown
               (fun pos => filter (fun p => String.eqb (groupOf p) pos) players)).
    apply partition_by_key; [apply positionOrder_NoDup|].
    intros x _. apply groupOf_known.
  - apply (shown_named
             (fun pos => filter (fun p => String.eqb (groupOf p) pos) players)).
Qed.

End Squad.

(** ** How long the hooks keep what they fetched *)

Section Freshness.
Import ReactQuery.

(** Every query of the hook layer keeps its data in the cache at least as
    long as it counts as fresh, and a query that polls does so at least as
    often as its data goes stale: the time before collection is never
    shorter than the staleness window, and a polling interval never longer
    than it. *)
Theorem cache_outlives_freshness (c : Hooks.Call) :
  let o := App.effective (Hooks.options c) in
  exists stale gc,
    staleTime o = Some stale /\ gcTime o = Some gc
    /\ 0 < stale <= gc
    /\ match refetchInterval o with
       | Some every => 0 < every <= stale
       | None => True
       end.
Proof.
  destruct c; do 2 eexists; cbn;
    (split; [reflexivity|split; [reflexivity|]]);
    unfold UseMatches.STALE_TIME, UseMatches.CACHE_TIME,
      UseCompetitions.STALE_TIME, UseCompetitions.CACHE_TIME,
      UseCompetitionDetail.STALE_TIME, UseCompetitionDetail.CACHE_TIME,
      UseTeamDetail.STALE_TIME, UseTeamDetail.CACHE_TIME;
    split; try exact I; lia.
Qed.

End Freshness.
